(** * Screening conversation backend: safety monitor, scoring client, flow manager

    A shallow embedding of [src/backend/safety_monitor.py],
    [src/backend/gemini_client.py] and [src/backend/conversation_flow.py],
    with the properties the specification states about them.

    Modelling conventions.
    - A Python [str] is a Rocq [string]; each character is read as one code
      point in U+0000..U+00FF.  On that range [str.lower], [str.isspace]
      and the regular-expression class [\w] are the tables below, so the
      embedding is exact for text within that range.  String constants of
      the source that hold characters beyond it (bullets, dashes) are kept
      as written; the code only tests them for emptiness or passes them on.
    - [datetime.now()] is an explicit clock reading.
    - A raised exception is a value of [exn]; [try]/[except] is [try_except].
    - The text-generation service behind [self.model.generate_content] is a
      section variable: an arbitrary reply for every call and prompt. *)

From Stdlib Require Import ZArith Bool List Ascii String DecimalString Lia.
From stdpp Require Import base option list strings gmap.
Import ListNotations.
Open Scope string_scope.

(** ** Python string primitives *)

Module Py.

Definition code (c : ascii) : N := N_of_ascii c.

(** [str.isspace] on one character. *)
Definition isspace (c : ascii) : bool :=
  let n := code c in
  ((9 <=? n) && (n <=? 13) || (28 <=? n) && (n <=? 32) || (n =? 133) || (n =? 160))%N.

(** [str.lower] on one character. *)
Definition lower_char (c : ascii) : ascii :=
  let n := code c in
  if ((65 <=? n) && (n <=? 90) || (192 <=? n) && (n <=? 222) && negb (n =? 215))%N
  then ascii_of_N (n + 32) else c.

(** The class [\w] of the [re] module for [str] patterns. *)
Definition is_word (c : ascii) : bool :=
  let n := code c in
  ((48 <=? n) && (n <=? 57) || (65 <=? n) && (n <=? 90) || (n =? 95)
   || (97 <=? n) && (n <=? 122)
   || (n =? 170) || (n =? 178) || (n =? 179) || (n =? 181) || (n =? 185) || (n =? 186)
   || (188 <=? n) && (n <=? 190) || (192 <=? n) && (n <=? 214)
   || (216 <=? n) && (n <=? 246) || (248 <=? n))%N.

Definition is_digit (c : ascii) : bool :=
  let n := code c in ((48 <=? n) && (n <=? 57))%N.

Definition newline : ascii := ascii_of_N 10.

Fixpoint lower (s : string) : string :=
  match s with
  | EmptyString => EmptyString
  | String c s' => String (lower_char c) (lower s')
  end.




Fixpoint lstrip (s : string) : string :=
  match s with
  | EmptyString => EmptyString
  | String c s' => if isspace c then lstrip s' else s
  end.

Fixpoint rstrip (s : string) : string :=
  match s with
  | EmptyString => EmptyString
  | String c s' =>
      match rstrip s' with
      | EmptyString => if isspace c then EmptyString else String c EmptyString
      | r => String c r
      end
  end.

(** [s.strip()] *)
Definition strip (s : string) : string := rstrip (lstrip s).

(** Every character of [s] is white space (padding). *)
Fixpoint all_space (s : string) : bool :=
  match s with
  | EmptyString => true
  | String c s' => isspace c && all_space s'
  end.



(** [s.startswith(p)] *)
Fixpoint startswith (s p : string) : bool :=
  match p, s with
  | EmptyString, _ => true
  | String a p', String b s' => Ascii.eqb a b && startswith s' p'
  | String _ _, EmptyString => false
  end.

(** [sub in s] *)
Fixpoint contains (s sub : string) : bool :=
  startswith s sub
  || match s with
     | EmptyString => false
     | String _ s' => contains s' sub
     end.

(** [len(s)] *)
Definition len (s : string) : Z := Z.of_nat (String.length s).

(** Truth value of a [str]: the empty string is false. *)
Definition truthy (s : string) : bool :=
  match s with EmptyString => false | String _ _ => true end.

(** [s.split(sep)] for a one-character separator. *)
Fixpoint split (sep : ascii) (s : string) : list string :=
  match s with
  | EmptyString => [EmptyString]
  | String c s' =>
      if Ascii.eqb c sep then EmptyString :: split sep s'
      else match split sep s' with
           | [] => [String c EmptyString]
           | piece :: rest => String c piece :: rest
           end
  end.

(** [s.split(sep, 1)]: at most one cut. *)
Fixpoint split1 (sep : ascii) (s : string) : list string :=
  match s with
  | EmptyString => [EmptyString]
  | String c s' =>
      if Ascii.eqb c sep then [EmptyString; s']
      else match split1 sep s' with
           | [] => [String c EmptyString]
           | piece :: rest => String c piece :: rest
           end
  end.

(** [s.split()]: the maximal runs of characters that are not white space. *)
Fixpoint split_ws_aux (cur : option string) (s : string) : list string :=
  match s with
  | EmptyString => match cur with None => [] | Some w => [w] end
  | String c s' =>
      if isspace c
      then match cur with
           | None => split_ws_aux None s'
           | Some w => w :: split_ws_aux None s'
           end
      else split_ws_aux (Some (match cur with None => String c EmptyString
                                         | Some w => w +:+ String c EmptyString end)) s'
  end.

Definition split_ws (s : string) : list string := split_ws_aux None s.

(** The first run of characters that are not white space: what
    [s.split()[0]] is when there is one. *)
Fixpoint until_space (s : string) : string :=
  match s with
  | EmptyString => EmptyString
  | String c s' => if isspace c then EmptyString else String c (until_space s')
  end.

Definition first_token (s : string) : string := until_space (lstrip s).

(** *** Regular expressions of the [re] module, as far as the source uses them *)

Inductive regex : Type :=
| Lit (s : string)            (* literal characters *)
| WordBoundary                (* \b *)
| AnyStar                     (* .* *)
| Opt (r : regex)             (* r? *)
| Alt (r1 r2 : regex)         (* r1|r2 *)
| Cat (r1 r2 : regex).        (* r1 r2 *)

(** A position in the subject: the character before it and the text after. *)
Definition at_boundary (prev : option ascii) (rest : string) : bool :=
  xorb (match prev with Some c => is_word c | None => false end)
       (match rest with String c _ => is_word c | EmptyString => false end).

(** A literal under [re.IGNORECASE]. *)
Fixpoint match_lit (l : string) (prev : option ascii) (s : string)
    (k : option ascii -> string -> bool) : bool :=
  match l with
  | EmptyString => k prev s
  | String a l' =>
      match s with
      | String c s' =>
          if Ascii.eqb (lower_char a) (lower_char c) then match_lit l' (Some c) s' k else false
      | EmptyString => false
      end
  end.

(** [.*] without [re.DOTALL]: any run of characters other than the newline. *)
Fixpoint any_star (prev : option ascii) (s : string)
    (k : option ascii -> string -> bool) : bool :=
  k prev s
  || match s with
     | String c s' => if Ascii.eqb c newline then false else any_star (Some c) s' k
     | EmptyString => false
     end.

(** Backtracking match of [r] at a position; [k] is what must match after. *)
Fixpoint re_match (r : regex) (prev : option ascii) (s : string)
    (k : option ascii -> string -> bool) : bool :=
  match r with
  | Lit l => match_lit l prev s k
  | WordBoundary => at_boundary prev s && k prev s
  | AnyStar => any_star prev s k
  | Opt r1 => re_match r1 prev s k || k prev s
  | Alt r1 r2 => re_match r1 prev s k || re_match r2 prev s k
  | Cat r1 r2 => re_match r1 prev s (fun prev' s' => re_match r2 prev' s' k)
  end.

Definition accept : option ascii -> string -> bool := fun _ _ => true.

Fixpoint search_from (r : regex) (prev : option ascii) (s : string) : bool :=
  re_match r prev s accept
  || match s with
     | String c s' => search_from r (Some c) s'
     | EmptyString => false
     end.

(** [bool(re.search(r, s, re.IGNORECASE))] *)
Definition re_search (r : regex) (s : string) : bool := search_from r None s.

(** *** Exceptions *)

Inductive exn : Type :=
| AttributeError (msg : string)
| ValueError (msg : string)
| IndexError (msg : string)
| KeyError (msg : string)
| ServiceError (msg : string).   (* whatever the text-generation service raises *)

(** [str(e)] *)
Definition exn_str (e : exn) : string :=
  match e with
  | AttributeError m => m
  | ValueError m => m
  | IndexError m => m
  | KeyError m => m
  | ServiceError m => m
  end.

Inductive outcome (A : Type) : Type :=
| Return (a : A)
| Raise (e : exn).
Arguments Return {A} a.
Arguments Raise {A} e.

(** [str(n)] for an [int] *)
Definition str_of_int (n : Z) : string := NilEmpty.string_of_int (Z.to_int n).

(** [int(s)] for a [str]: optional sign, decimal digits, single underscores
    between digits, white space around. *)
Fixpoint digits_value (acc : Z) (after_digit : bool) (s : string) : option Z :=
  match s with
  | EmptyString => if after_digit then Some acc else None
  | String c s' =>
      if is_digit c then digits_value (10 * acc + Z.of_N (code c - 48)) true s'
      else if Ascii.eqb c "_" then
        (if after_digit
         then match s' with
              | String d _ => if is_digit d then digits_value acc false s' else None
              | EmptyString => None
              end
         else None)
      else None
  end.

Definition int (s : string) : outcome Z :=
  let invalid := Raise (ValueError "invalid literal for int() with base 10") in
  match strip s with
  | String "-" body =>
      match digits_value 0 false body with Some v => Return (- v)%Z | None => invalid end
  | String "+" body =>
      match digits_value 0 false body with Some v => Return v | None => invalid end
  | body =>
      match digits_value 0 false body with Some v => Return v | None => invalid end
  end.

End Py.

(** ** [safety_monitor.py] *)

Module SafetyMonitor.
Import Py.

Inductive CrisisLevel : Type := NONE | WARNING | CRITICAL.

(** [CrisisLevel.value] *)
Definition CrisisLevel_value (l : CrisisLevel) : string :=
  match l with NONE => "NONE" | WARNING => "WARNING" | CRITICAL => "CRITICAL" end.

Definition datetime : Type := Z.

(** The dataclass [CrisisResponse]. *)
Record CrisisResponse : Type := mkCrisisResponse {
  level : CrisisLevel;
  triggered_words : list string;
  message : string;
  timestamp : datetime;
  requires_override : bool
}.

(** The fields [__init__] sets on a [SafetyMonitor]. *)
Record t : Type := mk {
  critical_triggers : list string;
  warning_indicators : list string;
  phq9_q9_positive_patterns : list regex;
  phq9_q9_negative_patterns : list regex
}.

Definition default_critical_triggers : list string :=
  [ "suicide"; "suicidal"; "kill myself"; "end my life";
    "self-harm"; "hurt myself"; "cut myself"; "harm myself";
    "want to die"; "better off dead"; "no point living";
    "hurt others"; "kill someone"; "harm others"; "end it all";
    "take my own life"; "not worth living"; "kill them" ].

Definition default_warning_indicators : list string :=
  [ "hopeless"; "worthless"; "trapped"; "burden";
    "desperate"; "overwhelmed"; "can't cope"; "give up";
    "no way out"; "pointless"; "useless"; "hate myself" ].

(** [\b(a|b|...)\b] *)
Fixpoint one_of (first : string) (others : list string) : regex :=
  match others with
  | [] => Lit first
  | next :: others' => Alt (Lit first) (one_of next others')
  end.

Definition whole (r : regex) : regex := Cat WordBoundary (Cat r WordBoundary).

Definition positive_patterns : list regex :=
  [ (* \b(yes|sometimes|often|nearly every day|several days)\b *)
    whole (one_of "yes" ["sometimes"; "often"; "nearly every day"; "several days"]);
    (* \b(more than half|have thought|been thinking)\b *)
    whole (one_of "more than half" ["have thought"; "been thinking"]);
    (* \b(crossed my mind|considered|considering|thinking about)\b *)
    whole (one_of "crossed my mind" ["considered"; "considering"; "thinking about"]);
    (* \b(thoughts? of|idea of|wanting to)\b.*\b(die|death|harm)\b *)
    Cat (whole (Alt (Cat (Lit "thought") (Cat (Opt (Lit "s")) (Lit " of")))
                    (Alt (Lit "idea of") (Lit "wanting to"))))
        (Cat AnyStar (whole (one_of "die" ["death"; "harm"]))) ].

Definition negative_patterns : list regex :=
  [ (* \b(no|never|not at all|haven\'t|don\'t)\b *)
    whole (one_of "no" ["never"; "not at all"; "haven't"; "don't"]);
    (* \b(absolutely not|definitely not|of course not)\b *)
    whole (one_of "absolutely not" ["definitely not"; "of course not"]) ].

(** [SafetyMonitor(config_trigger_words)]; [None] and the empty list are
    both false in [if config_trigger_words:]. *)
Definition __init__ (config_trigger_words : option (list string)) : t :=
  {| critical_triggers :=
       match config_trigger_words with
       | Some (w :: ws) => (default_critical_triggers ++ w :: ws)%list
       | _ => default_critical_triggers
       end;
     warning_indicators := default_warning_indicators;
     phq9_q9_positive_patterns := positive_patterns;
     phq9_q9_negative_patterns := negative_patterns |}.

Definition add_trigger_words (self : t) (words : list string) : t :=
  {| critical_triggers := (critical_triggers self ++ words)%list;
     warning_indicators := warning_indicators self;
     phq9_q9_positive_patterns := phq9_q9_positive_patterns self;
     phq9_q9_negative_patterns := phq9_q9_negative_patterns self |}.

Definition add_warning_words (self : t) (words : list string) : t :=
  {| critical_triggers := critical_triggers self;
     warning_indicators := (warning_indicators self ++ words)%list;
     phq9_q9_positive_patterns := phq9_q9_positive_patterns self;
     phq9_q9_negative_patterns := phq9_q9_negative_patterns self |}.

Definition _get_crisis_message : string :=
"I'm very concerned about what you've shared with me. Your safety is the most important thing right now.

Please reach out for immediate support:
• Crisis Helpline: 988 (available 24/7)
• Emergency Services: 911
• Crisis Text Line: Text HOME to 741741

You don't have to go through this alone. There are people who want to help you, and things can get better. Please reach out to one of these resources right away.".

Definition _get_warning_message : string :=
"I hear that you're going through a difficult time. While I can help with this screening, please remember that professional support is available if you need someone to talk to.

If you're feeling overwhelmed, consider reaching out to:
• Crisis Helpline: 988
• Your healthcare provider
• A trusted friend or family member

Would you like to continue with the screening, or would you prefer information about mental health resources?".

(** The loop
    [for w in words: if w.lower() in normalized_text: found.append(w)]. *)
Definition collect (words : list string) (normalized_text : string) : list string :=
  fold_left
    (fun found w => if contains normalized_text (lower w) then (found ++ [w])%list else found)
    words [].

(** [check_for_crisis(text)]; [text = None] is an absent argument. *)
Definition check_for_crisis (self : t) (now : datetime) (text : option string)
    : CrisisResponse :=
  match text with
  | None | Some EmptyString => mkCrisisResponse NONE [] "" now false
  | Some text =>
      let normalized_text := strip (lower text) in
      match collect (critical_triggers self) normalized_text with
      | w :: ws => mkCrisisResponse CRITICAL (w :: ws) _get_crisis_message now true
      | [] =>
          match collect (warning_indicators self) normalized_text with
          | w :: ws => mkCrisisResponse WARNING (w :: ws) _get_warning_message now false
          | [] => mkCrisisResponse NONE [] "" now false
          end
      end
  end.

(** The first loop of [check_phq9_question9]: [Some b] is [return b]. *)
Fixpoint negative_loop (patterns : list regex) (normalized_response : string)
    : option bool :=
  match patterns with
  | [] => None
  | pattern :: rest =>
      if re_search pattern normalized_response
      then if (len normalized_response <? 20)%Z then Some false
           else negative_loop rest normalized_response
      else negative_loop rest normalized_response
  end.

(** The second loop. *)
Fixpoint positive_loop (patterns : list regex) (normalized_response : string)
    : option bool :=
  match patterns with
  | [] => None
  | pattern :: rest =>
      if re_search pattern normalized_response then Some true
      else positive_loop rest normalized_response
  end.

Definition check_phq9_question9 (self : t) (response : option string) : bool :=
  match response with
  | None | Some EmptyString => false
  | Some response =>
      let normalized_response := strip (lower response) in
      match negative_loop (phq9_q9_negative_patterns self) normalized_response with
      | Some b => b
      | None =>
          match positive_loop (phq9_q9_positive_patterns self) normalized_response with
          | Some b => b
          | None => false
          end
      end
  end.

(** The part of a verdict the specification compares between calls. *)
Definition verdict (r : CrisisResponse) : CrisisLevel * list string * bool :=
  (level r, triggered_words r, requires_override r).

(** Calls of the two classifiers on one monitor object, with what each
    returns and the object after it: neither method assigns to [self]. *)
Inductive call : Type :=
| call_check_for_crisis (now : datetime) (text : option string)
| call_check_phq9_question9 (response : option string).

Inductive answer : Type :=
| crisis_answer (r : CrisisResponse)
| ideation_answer (b : bool).

Definition perform (self : t) (c : call) : answer * t :=
  match c with
  | call_check_for_crisis now text => (crisis_answer (check_for_crisis self now text), self)
  | call_check_phq9_question9 response =>
      (ideation_answer (check_phq9_question9 self response), self)
  end.

Fixpoint perform_all (self : t) (history : list call) : list answer * t :=
  match history with
  | [] => ([], self)
  | c :: rest =>
      let (a, self') := perform self c in
      let (answers, self'') := perform_all self' rest in
      (a :: answers, self'')
  end.



(** Some pattern of a list is found in a text. *)
Definition any_found (patterns : list regex) (normalized_response : string) : bool :=
  existsb (fun pattern => re_search pattern normalized_response) patterns.

(** A short answer in which a negative pattern is found. *)
Definition short_negative (self : t) (normalized_response : string) : bool :=
  any_found (phq9_q9_negative_patterns self) normalized_response
  && (len normalized_response <? 20)%Z.

(** The words of a list that are found, lowercased, in a normalized text. *)
Definition found_in (normalized_text : string) (words : list string) : list string :=
  List.filter (fun w => contains normalized_text (lower w)) words.

(** Attribute access on a [CrisisResponse]: the dataclass has exactly the
    five fields declared above, any other name raises [AttributeError]. *)
Inductive attribute : Type :=
| attr_level (v : CrisisLevel)
| attr_triggered_words (v : list string)
| attr_message (v : string)
| attr_timestamp (v : datetime)
| attr_requires_override (v : bool).

Definition getattr (r : CrisisResponse) (name : string) : outcome attribute :=
  if String.eqb name "level" then Return (attr_level (level r))
  else if String.eqb name "triggered_words" then Return (attr_triggered_words (triggered_words r))
  else if String.eqb name "message" then Return (attr_message (message r))
  else if String.eqb name "timestamp" then Return (attr_timestamp (timestamp r))
  else if String.eqb name "requires_override" then Return (attr_requires_override (requires_override r))
  else Raise (AttributeError ("'CrisisResponse' object has no attribute '" +:+ name +:+ "'")).

(** Truth value of an attribute in an [if]. *)
Definition attribute_truth (a : attribute) : bool :=
  match a with
  | attr_level _ => true
  | attr_triggered_words ws => match ws with [] => false | _ => true end
  | attr_message m => truthy m
  | attr_timestamp _ => true
  | attr_requires_override b => b
  end.

(** *** [CrisisOverrideHandler] *)

Record CrisisOverrideHandler : Type := mkHandler {
  safety_monitor : t;
  crisis_detected : bool;
  crisis_timestamp : option datetime
}.

Definition process_user_input (self : CrisisOverrideHandler) (now : datetime)
    (text : option string) (is_phq9_q9 : bool)
    : (bool * option string) * CrisisOverrideHandler :=
  let crisis_response := check_for_crisis (safety_monitor self) now text in
  if is_phq9_q9 && check_phq9_question9 (safety_monitor self) text
  then ((true, Some _get_crisis_message),
        mkHandler (safety_monitor self) true (Some now))
  else match level crisis_response with
       | CRITICAL => ((true, Some (message crisis_response)),
                      mkHandler (safety_monitor self) true (Some now))
       | WARNING => ((false, Some (message crisis_response)), self)
       | NONE => ((false, None), self)
       end.

(** [is_crisis_active()] *)
Definition is_crisis_active (self : CrisisOverrideHandler) : bool := crisis_detected self.

(** [reset_crisis_state()] *)
Definition reset_crisis_state (self : CrisisOverrideHandler) : CrisisOverrideHandler :=
  mkHandler (safety_monitor self) false None.

(** One call of [process_user_input]: the clock reading, the text and the
    [is_phq9_q9] flag. *)
Definition handler_input : Type := (datetime * option string * bool)%type.

(** Calls of [process_user_input] on one handler, one after the other: what
    each returned, and the handler after the last. *)
Fixpoint process_all (self : CrisisOverrideHandler) (inputs : list handler_input)
    : list (bool * option string) * CrisisOverrideHandler :=
  match inputs with
  | [] => ([], self)
  | (now, text, is_phq9_q9) :: rest =>
      let (out, self') := process_user_input self now text is_phq9_q9 in
      let (outs, self'') := process_all self' rest in
      (out :: outs, self'')
  end.

End SafetyMonitor.

(** ** The session manager

    [session_manager.py] is not among the sources; the flow manager and the
    tests use it through the operations below. *)

Module SessionManager.

(** Modelled from the spec: the phases of section 4.2 (the enum
    [ConversationPhase] of the missing module; the flow manager names these
    five members). *)
Inductive ConversationPhase : Type :=
| GREETING | TRIAGE | SCREENING | RESULTS | CRISIS_RESPONSE.

(** Modelled from the spec: the members' values, as the tests pass them to
    [update_session] ("SCREENING"). *)
Definition ConversationPhase_value (p : ConversationPhase) : string :=
  match p with
  | GREETING => "GREETING" | TRIAGE => "TRIAGE" | SCREENING => "SCREENING"
  | RESULTS => "RESULTS" | CRISIS_RESPONSE => "CRISIS_RESPONSE"
  end.

(** Modelled from the spec: the three instruments (the enum [ScreeningTool]
    of the missing module). *)
Inductive ScreeningTool : Type := PHQ9 | GAD7 | GHQ12.

(** Modelled from the spec: the members' values, as the tests pass them to
    [update_session] ("PHQ9"). *)
Definition ScreeningTool_value (tool : ScreeningTool) : string :=
  match tool with PHQ9 => "PHQ9" | GAD7 => "GAD7" | GHQ12 => "GHQ12" end.

(** Modelled from the spec: one entry of [responses] (section 3), with the
    field names [test_data_privacy.py] reads; time stamps are left out. *)
Record UserResponse : Type := mkUserResponse {
  question_id : string;
  user_text : string;
  mapped_score : Z
}.

(** Modelled from the spec: one entry of [conversationHistory]. *)
Record ConversationEntry : Type := mkConversationEntry {
  user_message : string;
  ai_response : string;
  phase : ConversationPhase
}.

(** Modelled from the spec: the session of section 3, without its time
    stamps. *)
Record SessionData : Type := mkSessionData {
  session_id : string;
  user_name : option string;
  country : option string;
  current_phase : ConversationPhase;
  selected_tool : option ScreeningTool;
  responses : list UserResponse;
  conversation_history : list ConversationEntry;
  crisis_detected : bool;
  completed : bool
}.

(** Modelled from the spec: a session as the start-session call leaves it
    (phase GREETING, nothing recorded). *)
Definition new_session (id : string) (name country : option string) : SessionData :=
  mkSessionData id name country GREETING None [] [] false false.

(** Modelled from the spec: the total score is the sum of all recorded
    scores (section 4.2, rule 5). *)
Definition get_total_score (s : SessionData) : Z :=
  fold_left (fun total r => (total + mapped_score r)%Z) (responses s) 0%Z.

(** Modelled from the spec: the store maps identifiers to sessions
    (section 4.1).  Expiry is not modelled: the map holds the live sessions. *)
Abbreviation store := (gmap string SessionData).

(** Modelled from the spec: [get(sessionId)] gives the session or nothing. *)
Definition get_session (self : store) (id : string) : option SessionData := self !! id.

(** Modelled from the spec: the field changes of [update], for the keyword
    arguments the flow manager uses.  It passes the enum members' values;
    the manager stores the members
    ([test_session_update_preserves_privacy_boundaries]). *)
Inductive field_change : Type :=
| set_user_name (v : string)
| set_current_phase (v : ConversationPhase)
| set_selected_tool (v : ScreeningTool)
| set_crisis_detected (v : bool)
| set_completed (v : bool).

(** Modelled from the spec: one field change applied to a session. *)
Definition apply_change (s : SessionData) (c : field_change) : SessionData :=
  match c with
  | set_user_name v =>
      mkSessionData (session_id s) (Some v) (country s) (current_phase s) (selected_tool s)
        (responses s) (conversation_history s) (crisis_detected s) (completed s)
  | set_current_phase v =>
      mkSessionData (session_id s) (user_name s) (country s) v (selected_tool s)
        (responses s) (conversation_history s) (crisis_detected s) (completed s)
  | set_selected_tool v =>
      mkSessionData (session_id s) (user_name s) (country s) (current_phase s) (Some v)
        (responses s) (conversation_history s) (crisis_detected s) (completed s)
  | set_crisis_detected v =>
      mkSessionData (session_id s) (user_name s) (country s) (current_phase s) (selected_tool s)
        (responses s) (conversation_history s) v (completed s)
  | set_completed v =>
      mkSessionData (session_id s) (user_name s) (country s) (current_phase s) (selected_tool s)
        (responses s) (conversation_history s) (crisis_detected s) v
  end.

(** Modelled from the spec: [update(sessionId, fieldChanges)] applies a
    partial update and reports whether the session was there. *)
Definition update_session (self : store) (id : string) (changes : list field_change)
    : bool * store :=
  match self !! id with
  | Some s => (true, <[id := fold_left apply_change changes s]> self)
  | None => (false, self)
  end.

(** Modelled from the spec: [appendResponse] appends one entry and fails
    silently when the session does not exist. *)
Definition add_response (self : store) (id question user_text : string) (score : Z)
    : bool * store :=
  match self !! id with
  | Some s =>
      (true,
       <[id := mkSessionData (session_id s) (user_name s) (country s) (current_phase s)
                 (selected_tool s)
                 (responses s ++ [mkUserResponse question user_text score])%list
                 (conversation_history s) (crisis_detected s) (completed s)]> self)
  | None => (false, self)
  end.

(** Modelled from the spec: [appendConversation]. *)
Definition add_conversation (self : store) (id user ai : string) (p : ConversationPhase)
    : bool * store :=
  match self !! id with
  | Some s =>
      (true,
       <[id := mkSessionData (session_id s) (user_name s) (country s) (current_phase s)
                 (selected_tool s) (responses s)
                 (conversation_history s ++ [mkConversationEntry user ai p])%list
                 (crisis_detected s) (completed s)]> self)
  | None => (false, self)
  end.

End SessionManager.

(** ** The running process: session store, service calls, exceptions *)

Module Run.
Import Py.

(** What one call runs in: the session store and the number of calls made
    to the text-generation service so far. *)
Record world : Type := mkWorld {
  sessions : SessionManager.store;
  calls : nat
}.

(** A computation that may change the world and may raise.  What was
    changed before a raise stays changed. *)
Definition M (A : Type) : Type := world -> outcome A * world.

Definition ret {A} (a : A) : M A := fun w => (Return a, w).

Definition raise {A} (e : exn) : M A := fun w => (Raise e, w).

Definition bind {A B} (m : M A) (k : A -> M B) : M B :=
  fun w =>
    match m w with
    | (Return a, w') => k a w'
    | (Raise e, w') => (Raise e, w')
    end.

(** [try: body except Exception as e: handler(e)] *)
Definition try_except {A} (body : M A) (handler : exn -> M A) : M A :=
  fun w =>
    match body w with
    | (Return a, w') => (Return a, w')
    | (Raise e, w') => handler e w'
    end.

Definition lift {A} (o : outcome A) : M A := fun w => (o, w).

(** A world in which session [id] is live with state [s]. *)
Definition live (st : SessionManager.store) (id : string) (s : SessionManager.SessionData)
    (n : nat) : world :=
  mkWorld (<[id := s]> st) n.

(** The world after one more call of the text-generation service. *)
Definition after_call (w : world) : world := mkWorld (sessions w) (S (calls w)).

(** An operation of the session manager, run on the store. *)
Definition on_store {A} (op : SessionManager.store -> A * SessionManager.store) : M A :=
  fun w => let (a, st) := op (sessions w) in (Return a, mkWorld st (calls w)).

(** [l[i]] *)
Definition index {A} (l : list A) (i : nat) : M A :=
  match nth_error l i with
  | Some a => ret a
  | None => raise (IndexError "list index out of range")
  end.

End Run.

Declare Scope run_scope.
Delimit Scope run_scope with run.
Notation "x <- m ;; k" := (Run.bind m (fun x => k))
  (at level 100, m at next level, right associativity) : run_scope.
Notation "m ;;; k" := (Run.bind m (fun _ => k))
  (at level 100, right associativity) : run_scope.

(** ** [gemini_client.py] *)

Module GeminiClient.
Import Py Run.
Import SessionManager(ScreeningTool, PHQ9, GAD7, GHQ12, ScreeningTool_value).

Inductive ConversationContext : Type :=
| GREETING | BACKGROUND_CHECK | TRIAGE
| PHQ9_SCREENING | GAD7_SCREENING | GHQ12_SCREENING
| RESULTS_EXPLANATION | CRISIS_RESPONSE.

(** What varies in the prompt text handed to [self.model.generate_content]:
    [generate_response] formats the context's instructions, the user name of
    [session_data] (when a dictionary is given) and the message;
    [map_response_to_score] formats the instrument, the question and the
    answer. *)
Inductive prompt : Type :=
| wording_prompt (context : ConversationContext) (session_data : option (option string))
    (user_message : string)
| scoring_prompt (screening_tool : ScreeningTool) (question_context user_response : string).

(** What the service does with a prompt: the call or the read of
    [response.text] raises, or there is a text (the empty text stands for
    no text at all). *)
Inductive reply : Type :=
| Fails (e : exn)
| Text (text : string).

Definition _get_fallback_response (context : ConversationContext) : string :=
  match context with
  | GREETING => "Hello! I'm here to help you with a mental health screening. This is a safe, confidential space. What would you like me to call you?"
  | BACKGROUND_CHECK => "Thank you for sharing. Have you ever been diagnosed with a mental health condition by a healthcare professional? This helps me provide the most relevant screening."
  | TRIAGE => "I'd like to understand what's been concerning you most lately. Would you say it's more about feelings of sadness, anxiety, or general stress?"
  | PHQ9_SCREENING => "Thank you for sharing. Let me ask about the next area - how has this been affecting you over the past two weeks?"
  | GAD7_SCREENING => "I appreciate you being open with me. Let's continue with the next question about your recent experiences."
  | GHQ12_SCREENING => "Thank you for your honesty. Let me ask about another aspect of how you've been feeling recently."
  | RESULTS_EXPLANATION => "Based on your responses, this screening provides some insights into how you've been feeling. Remember, this isn't a diagnosis, but it can help guide next steps."
  | CRISIS_RESPONSE => "I'm here to help you through this screening. Please let me know how you're feeling."
  end.

(** [_fallback_scoring(user_response)] *)
Definition _fallback_scoring (user_response : string) : Z * string :=
  let response_lower := lower user_response in
  let any words := existsb (fun word => contains response_lower word) words in
  if any ["always"; "constantly"; "every day"; "all the time"; "never stops"]
  then (3%Z, "Fallback scoring based on high frequency indicators")
  else if any ["often"; "frequently"; "most days"; "usually"]
  then (2%Z, "Fallback scoring based on medium-high frequency indicators")
  else if any ["sometimes"; "occasionally"; "few times"; "now and then"]
  then (1%Z, "Fallback scoring based on low frequency indicators")
  else if any ["never"; "not at all"; "rarely"; "hardly ever"]
  then (0%Z, "Fallback scoring based on minimal frequency indicators")
  else (1%Z, "Fallback scoring - conservative default").

Section Service.

(** The reply of the service to its [n]-th call, for every prompt. *)
Variable generate_content : nat -> prompt -> reply.

Local Open Scope run_scope.

(** [self.model.generate_content(prompt)] followed by the read of [.text]. *)
Definition model_text (p : prompt) : M string :=
  fun w =>
    (match generate_content (calls w) p with
     | Text text => Return text
     | Fails e => Raise e
     end,
     mkWorld (sessions w) (S (calls w))).

(** [generate_response(user_message, context, session_data)] *)
Definition generate_response (user_message : string) (context : ConversationContext)
    (session_data : option (option string)) : M string :=
  try_except
    (text <- model_text (wording_prompt context session_data user_message) ;;
     if truthy text then ret (strip text)
     else ret (_get_fallback_response context))
    (fun _ => ret (_get_fallback_response context)).

(** [next((line for line in lines if line.startswith(tag)), None)] *)
Definition first_line (tag : string) (lines : list string) : option string :=
  List.find (fun line => startswith line tag) lines.

(** The [try] block of [map_response_to_score]; [None] is falling out of the
    [if]s, on to the fallback below them. *)
Definition parse_scoring_reply (text : string) : M (option (Z * string)) :=
  if truthy text then
    let lines := split newline (strip text) in
    match first_line "SCORE:" lines, first_line "EXPLANATION:" lines with
    | Some score_line, Some explanation_line =>
        field <- index (split ":" score_line) 1 ;;
        score <- lift (int (strip field)) ;;
        rest <- index (split1 ":" explanation_line) 1 ;;
        let explanation := strip rest in
        if ((0 <=? score) && (score <=? 3))%Z then ret (Some (score, explanation))
        else ret None
    | _, _ => ret None
    end
  else ret None.

(** [map_response_to_score(user_response, question_context, screening_tool)] *)
Definition map_response_to_score (user_response question_context : string)
    (screening_tool : ScreeningTool) : M (Z * string) :=
  try_except
    (text <- model_text (scoring_prompt screening_tool question_context user_response) ;;
     parsed <- parse_scoring_reply text ;;
     match parsed with
     | Some result => ret result
     | None => ret (_fallback_scoring user_response)
     end)
    (fun _ => ret (_fallback_scoring user_response)).

(** What [generate_response] hands back in a world: the stripped text of
    the service, or the fallback wording of the context. *)
Definition wording (w : world) (user_message : string) (context : ConversationContext)
    (session_data : option (option string)) : string :=
  match generate_content (calls w) (wording_prompt context session_data user_message) with
  | Text text => if truthy text then strip text else _get_fallback_response context
  | Fails _ => _get_fallback_response context
  end.

(** What [map_response_to_score] hands back in a world: the pair read from
    the reply of the service when the [try] block returns one, the fallback
    pair otherwise. *)
Definition settled_score (w : world) (user_response question_context : string)
    (screening_tool : ScreeningTool) : Z * string :=
  match generate_content (calls w)
          (scoring_prompt screening_tool question_context user_response) with
  | Fails _ => _fallback_scoring user_response
  | Text text =>
      match fst (parse_scoring_reply text (after_call w)) with
      | Return (Some result) => result
      | _ => _fallback_scoring user_response
      end
  end.

End Service.

(** A reply in the format the scoring prompt asks for: a SCORE: line and
    an EXPLANATION: line. *)
Definition formatted_reply (score : Z) (explanation : string) : string :=
  "SCORE: " +:+ str_of_int score +:+ String newline ("EXPLANATION:" +:+ explanation).

(** A service that answers every call with the same text. *)
Definition service_saying (text : string) : nat -> prompt -> reply :=
  fun _ _ => Text text.

(** A service that is out of reach: every call raises. *)
Definition service_down : nat -> prompt -> reply :=
  fun _ _ => Fails (ServiceError "service unavailable").

End GeminiClient.

(** ** [conversation_flow.py] *)

Module ConversationFlowManager.
Import Py Run.
Import SessionManager.
Import SafetyMonitor(CrisisResponse, check_for_crisis, getattr, attribute_truth,
                     CrisisLevel_value, datetime).

(** The dictionaries the methods return: keys in the order written. *)
Inductive value : Type :=
| VNone
| VBool (b : bool)
| VInt (n : Z)
| VStr (s : string).

Definition dict : Type := list (string * value).

(** [d.get(key)]; [None] when the key is absent. *)
Fixpoint get (d : dict) (key : string) : option value :=
  match d with
  | [] => None
  | (k, v) :: d' => if String.eqb k key then Some v else get d' key
  end.

Record question : Type := mkQuestion { id : string; text : string }.

(** [_initialize_screening_questions()] *)
Definition screening_questions (tool : ScreeningTool) : list question :=
  match tool with
  | PHQ9 =>
      [ mkQuestion "phq9_1" "Little interest or pleasure in doing things";
        mkQuestion "phq9_2" "Feeling down, depressed, or hopeless";
        mkQuestion "phq9_3" "Trouble falling or staying asleep, or sleeping too much";
        mkQuestion "phq9_4" "Feeling tired or having little energy";
        mkQuestion "phq9_5" "Poor appetite or overeating";
        mkQuestion "phq9_6" "Feeling bad about yourself — or that you are a failure or have let yourself or your family down";
        mkQuestion "phq9_7" "Trouble concentrating on things, such as reading the newspaper or watching television";
        mkQuestion "phq9_8" "Moving or speaking so slowly that other people could have noticed. Or the opposite — being so fidgety or restless that you have been moving around a lot more than usual";
        mkQuestion "phq9_9" "Thoughts that you would be better off dead, or of hurting yourself" ]
  | GAD7 =>
      [ mkQuestion "gad7_1" "Feeling nervous, anxious, or on edge";
        mkQuestion "gad7_2" "Not being able to stop or control worrying";
        mkQuestion "gad7_3" "Worrying too much about different things";
        mkQuestion "gad7_4" "Trouble relaxing";
        mkQuestion "gad7_5" "Being so restless that it is hard to sit still";
        mkQuestion "gad7_6" "Becoming easily annoyed or irritable";
        mkQuestion "gad7_7" "Feeling afraid, as if something awful might happen" ]
  | GHQ12 =>
      [ mkQuestion "ghq12_1" "Been able to concentrate on whatever you're doing";
        mkQuestion "ghq12_2" "Lost much sleep over worry";
        mkQuestion "ghq12_3" "Felt that you are playing a useful part in things";
        mkQuestion "ghq12_4" "Felt capable of making decisions about things";
        mkQuestion "ghq12_5" "Felt constantly under strain";
        mkQuestion "ghq12_6" "Felt you couldn't overcome your difficulties";
        mkQuestion "ghq12_7" "Been able to enjoy your normal day-to-day activities";
        mkQuestion "ghq12_8" "Been able to face up to your problems";
        mkQuestion "ghq12_9" "Been feeling unhappy and depressed";
        mkQuestion "ghq12_10" "Been losing confidence in yourself";
        mkQuestion "ghq12_11" "Been thinking of yourself as a worthless person";
        mkQuestion "ghq12_12" "Been feeling reasonably happy, all things considered" ]
  end.

Definition depression_keywords : list string :=
  ["sad"; "depressed"; "depression"; "down"; "hopeless"; "empty"; "worthless"].

Definition anxiety_keywords : list string :=
  ["anxious"; "anxiety"; "worried"; "worry"; "nervous"; "panic"; "fear"].

(** [sum(1 for keyword in keywords if keyword in message_lower)] *)
Definition keyword_score (keywords : list string) (message_lower : string) : Z :=
  fold_left
    (fun total keyword => if contains message_lower keyword then (total + 1)%Z else total)
    keywords 0%Z.

(** [_determine_screening_tool(user_message)] *)
Definition _determine_screening_tool (user_message : string) : ScreeningTool :=
  let message_lower := lower user_message in
  let depression_score := keyword_score depression_keywords message_lower in
  let anxiety_score := keyword_score anxiety_keywords message_lower in
  if (depression_score >? anxiety_score)%Z then PHQ9
  else if (anxiety_score >? depression_score)%Z then GAD7
  else GHQ12.

(** [_calculate_severity_level(screening_tool, total_score)]; the tool of a
    session may still be [None]. *)
Definition _calculate_severity_level (screening_tool : option ScreeningTool)
    (total_score : Z) : string :=
  match screening_tool with
  | Some PHQ9 =>
      if (total_score <=? 4)%Z then "minimal"
      else if (total_score <=? 9)%Z then "mild"
      else if (total_score <=? 14)%Z then "moderate"
      else if (total_score <=? 19)%Z then "moderately_severe"
      else "severe"
  | Some GAD7 =>
      if (total_score <=? 4)%Z then "minimal"
      else if (total_score <=? 9)%Z then "mild"
      else if (total_score <=? 14)%Z then "moderate"
      else "severe"
  | _ =>
      if (total_score <=? 11)%Z then "minimal"
      else if (total_score <=? 15)%Z then "mild"
      else if (total_score <=? 20)%Z then "moderate"
      else "severe"
  end.

(** The severity bands of section 4.2a of the specification, as it words
    them: for each instrument the inclusive upper bounds in rising order,
    each with its band, and "severe" above the last bound. *)
Inductive band : Type := minimal | mild | moderate | moderately_severe | severe.

Definition band_name (b : band) : string :=
  match b with
  | minimal => "minimal"
  | mild => "mild"
  | moderate => "moderate"
  | moderately_severe => "moderately_severe"
  | severe => "severe"
  end.

Definition spec_thresholds (instrument : ScreeningTool) : list (Z * band) :=
  match instrument with
  | PHQ9 => [(4, minimal); (9, mild); (14, moderate); (19, moderately_severe)]%Z
  | GAD7 => [(4, minimal); (9, mild); (14, moderate)]%Z
  | GHQ12 => [(11, minimal); (15, mild); (20, moderate)]%Z
  end.

Fixpoint band_below (table : list (Z * band)) (total_score : Z) : band :=
  match table with
  | [] => severe
  | (bound, b) :: rest => if (total_score <=? bound)%Z then b else band_below rest total_score
  end.

Definition spec_severity (instrument : ScreeningTool) (total_score : Z) : band :=
  band_below (spec_thresholds instrument) total_score.

(** The triage rule of section 4.2 of the specification, as it words it:
    count the keywords of each set found in the lowercased message; strictly
    more depression matches give the depression instrument, strictly more
    anxiety matches the anxiety instrument, a tie the general one. *)
Definition spec_matches (keywords : list string) (user_message : string) : nat :=
  length (List.filter (fun keyword => contains (lower user_message) keyword) keywords).

Definition spec_triage (user_message : string) : ScreeningTool :=
  let depression := spec_matches depression_keywords user_message in
  let anxiety := spec_matches anxiety_keywords user_message in
  if (anxiety <? depression)%nat then PHQ9
  else if (depression <? anxiety)%nat then GAD7
  else GHQ12.

(** The context chosen for an instrument's questions. *)
Definition screening_context (tool : ScreeningTool) : GeminiClient.ConversationContext :=
  match tool with
  | PHQ9 => GeminiClient.PHQ9_SCREENING
  | GAD7 => GeminiClient.GAD7_SCREENING
  | GHQ12 => GeminiClient.GHQ12_SCREENING
  end.

Definition phase_value (p : ConversationPhase) : value := VStr (ConversationPhase_value p).
Definition tool_value (tool : ScreeningTool) : value := VStr (ScreeningTool_value tool).

Section Flow.

Variable generate_content : nat -> GeminiClient.prompt -> GeminiClient.reply.
Variable safety_monitor : SafetyMonitor.t.

Local Open Scope run_scope.

Definition generate_response := GeminiClient.generate_response generate_content.
Definition map_response_to_score := GeminiClient.map_response_to_score generate_content.

(** The object a handler holds as [session]: [get_session] hands out the
    stored object itself ([test_automatic_session_cleanup_on_expiry] edits
    what it got and the store sees the edit), so a read of one of its fields
    sees what the manager has written since. *)
Definition read (session_id : string) (session : SessionData) : M SessionData :=
  fun w => (Return (default session (sessions w !! session_id)), w).

Definition update_session (session_id : string) (changes : list field_change) : M bool :=
  on_store (fun st => SessionManager.update_session st session_id changes).

Definition add_response (session_id question user_text : string) (score : Z) : M bool :=
  on_store (fun st => SessionManager.add_response st session_id question user_text score).

Definition add_conversation (session_id user ai : string) (p : ConversationPhase) : M bool :=
  on_store (fun st => SessionManager.add_conversation st session_id user ai p).

(** [_get_error_response(session, error_message)] *)
Definition _get_error_response (session_id : string) (session : SessionData)
    (error_message : string) : M dict :=
  now <- read session_id session ;;
  ret [ ("error", VStr error_message);
        ("ai_response", VStr "I'm sorry, I encountered an error. Let's try again or start over.");
        ("current_phase", phase_value (current_phase now));
        ("crisis_detected", VBool false) ].

(** [_handle_greeting_phase] *)
Definition _handle_greeting_phase (session_id user_message : string) (session : SessionData)
    : M dict :=
  try_except
    (now <- read session_id session ;;
     if negb (match user_name now with Some n => truthy n | None => false end)
        && truthy (strip user_message)
     then
       potential_name <- index (split_ws (strip user_message)) 0 ;;
       update_session session_id [set_user_name potential_name] ;;;
       ai_response <- generate_response user_message GeminiClient.BACKGROUND_CHECK
                        (Some (Some potential_name)) ;;
       update_session session_id [set_current_phase TRIAGE] ;;;
       add_conversation session_id user_message ai_response TRIAGE ;;;
       ret [ ("ai_response", VStr ai_response);
             ("current_phase", phase_value TRIAGE);
             ("crisis_detected", VBool false);
             ("next_action", VStr "triage_question") ]
     else
       ai_response <- generate_response user_message GeminiClient.GREETING None ;;
       add_conversation session_id user_message ai_response GREETING ;;;
       ret [ ("ai_response", VStr ai_response);
             ("current_phase", phase_value GREETING);
             ("crisis_detected", VBool false);
             ("next_action", VStr "collect_name") ])
    (fun e => _get_error_response session_id session (exn_str e)).

(** [_handle_triage_phase] *)
Definition _handle_triage_phase (session_id user_message : string) (session : SessionData)
    : M dict :=
  try_except
    (let screening_tool := _determine_screening_tool user_message in
     update_session session_id
       [set_selected_tool screening_tool; set_current_phase SCREENING] ;;;
     first_question <- index (screening_questions screening_tool) 0 ;;
     let context := screening_context screening_tool in
     now <- read session_id session ;;
     ai_response <- generate_response (text first_question) context (Some (user_name now)) ;;
     add_conversation session_id user_message ai_response SCREENING ;;;
     ret [ ("ai_response", VStr ai_response);
           ("current_phase", phase_value SCREENING);
           ("crisis_detected", VBool false);
           ("selected_tool", tool_value screening_tool);
           ("question_number", VInt 1);
           ("next_action", VStr "screening_question") ])
    (fun e => _get_error_response session_id session (exn_str e)).

(** [session.selected_tool.value] *)
Definition value_of_tool (tool : option ScreeningTool) : M value :=
  match tool with
  | Some t => ret (tool_value t)
  | None => raise (AttributeError "'NoneType' object has no attribute 'value'")
  end.

(** [_transition_to_results] *)
Definition _transition_to_results (session_id user_message : string) (session : SessionData)
    : M dict :=
  try_except
    ((if truthy (strip user_message) then
        now <- read session_id session ;;
        match selected_tool now with
        | None => raise (KeyError "None")   (* self.screening_questions[None] *)
        | Some tool =>
            let questions := screening_questions tool in
            let current_question_index := length (responses now) in
            if (current_question_index <? length questions)%nat then
              current_question <- index questions current_question_index ;;
              scored <- map_response_to_score user_message (text current_question) tool ;;
              add_response session_id (id current_question) user_message (fst scored) ;;;
              ret tt
            else ret tt
        end
      else ret tt) ;;;
     update_session session_id [set_current_phase RESULTS] ;;;
     now <- read session_id session ;;
     let total_score := get_total_score now in
     let severity_level := _calculate_severity_level (selected_tool now) total_score in
     tool_name <- value_of_tool (selected_tool now) ;;
     ai_response <- generate_response
                      ("Screening completed. Total score: " +:+ str_of_int total_score
                       +:+ ", Severity: " +:+ severity_level)
                      GeminiClient.RESULTS_EXPLANATION (Some (user_name now)) ;;
     update_session session_id [set_completed true] ;;;
     add_conversation session_id user_message ai_response RESULTS ;;;
     ret [ ("ai_response", VStr ai_response);
           ("current_phase", phase_value RESULTS);
           ("crisis_detected", VBool false);
           ("total_score", VInt total_score);
           ("severity_level", VStr severity_level);
           ("screening_tool", tool_name);
           ("completed", VBool true);
           ("next_action", VStr "screening_complete") ])
    (fun e => _get_error_response session_id session (exn_str e)).

(** [_handle_phq9_q9_crisis] *)
Definition _handle_phq9_q9_crisis (session_id user_message : string) (session : SessionData)
    (score : Z) : M dict :=
  try_except
    (update_session session_id [set_crisis_detected true; set_current_phase CRISIS_RESPONSE] ;;;
     add_response session_id "phq9_9" user_message score ;;;
     let crisis_message :=
       "I'm very concerned about what you've shared regarding thoughts of hurting yourself. "
       +:+ "Your safety is the most important thing right now. Please reach out for immediate support. "
       +:+ "If you're in the US, you can call 988 for the Suicide & Crisis Lifeline, "
       +:+ "or contact emergency services at 911 if you're in immediate danger." in
     add_conversation session_id user_message crisis_message CRISIS_RESPONSE ;;;
     ret [ ("ai_response", VStr crisis_message);
           ("current_phase", phase_value CRISIS_RESPONSE);
           ("crisis_detected", VBool true);
           ("crisis_trigger", VStr "PHQ9_Q9");
           ("next_action", VStr "crisis_intervention") ])
    (fun e =>
       ret [ ("ai_response", VStr "I'm very concerned about your safety. Please contact emergency services immediately.");
             ("current_phase", phase_value CRISIS_RESPONSE);
             ("crisis_detected", VBool true);
             ("error", VStr (exn_str e)) ]).

(** [_handle_screening_phase] *)
Definition _handle_screening_phase (session_id user_message : string) (session : SessionData)
    : M dict :=
  try_except
    (now <- read session_id session ;;
     match selected_tool now with
     | None => _get_error_response session_id session "No screening tool selected"
     | Some screening_tool =>
         let questions := screening_questions screening_tool in
         let current_question_index := length (responses now) in
         if (length questions <=? current_question_index)%nat
         then _transition_to_results session_id user_message session
         else
           current_question <- (if (0 <? current_question_index)%nat
                                then index questions (current_question_index - 1)
                                else index questions 0) ;;
           crisis <- (if (0 <? current_question_index)%nat then
                        scored <- map_response_to_score user_message (text current_question)
                                    screening_tool ;;
                        let score := fst scored in
                        if (match screening_tool with PHQ9 => true | _ => false end)
                           && String.eqb (id current_question) "phq9_9"
                           && (score >? 0)%Z
                        then
                          r <- _handle_phq9_q9_crisis session_id user_message session score ;;
                          ret (Some r)
                        else
                          add_response session_id (id current_question) user_message score ;;;
                          ret None
                      else ret None) ;;
           match crisis with
           | Some r => ret r
           | None =>
               if (current_question_index <? length questions)%nat then
                 next_question <- index questions current_question_index ;;
                 let context := screening_context screening_tool in
                 now' <- read session_id session ;;
                 ai_response <- generate_response (text next_question) context
                                  (Some (user_name now')) ;;
                 add_conversation session_id user_message ai_response SCREENING ;;;
                 ret [ ("ai_response", VStr ai_response);
                       ("current_phase", phase_value SCREENING);
                       ("crisis_detected", VBool false);
                       ("selected_tool", tool_value screening_tool);
                       ("question_number", VInt (Z.of_nat current_question_index + 1));
                       ("next_action", VStr "screening_question") ]
               else _transition_to_results session_id user_message session
           end
     end)
    (fun e => _get_error_response session_id session (exn_str e)).

(** [_handle_results_phase] *)
Definition _handle_results_phase (session_id user_message : string) (session : SessionData)
    : M dict :=
  try_except
    (now <- read session_id session ;;
     let total_score := get_total_score now in
     let severity_level := _calculate_severity_level (selected_tool now) total_score in
     tool_name <- value_of_tool (selected_tool now) ;;
     ai_response <- generate_response
                      ("Total score: " +:+ str_of_int total_score
                       +:+ ", Severity: " +:+ severity_level)
                      GeminiClient.RESULTS_EXPLANATION (Some (user_name now)) ;;
     update_session session_id [set_completed true] ;;;
     add_conversation session_id user_message ai_response RESULTS ;;;
     ret [ ("ai_response", VStr ai_response);
           ("current_phase", phase_value RESULTS);
           ("crisis_detected", VBool false);
           ("total_score", VInt total_score);
           ("severity_level", VStr severity_level);
           ("screening_tool", tool_name);
           ("completed", VBool true);
           ("next_action", VStr "screening_complete") ])
    (fun e => _get_error_response session_id session (exn_str e)).

(** [_handle_unknown_phase] *)
Definition _handle_unknown_phase (session_id user_message : string) (session : SessionData)
    : M dict :=
  update_session session_id [set_current_phase GREETING] ;;;
  ret [ ("ai_response", VStr "I'm sorry, something went wrong. Let's start over. What would you like me to call you?");
        ("current_phase", phase_value GREETING);
        ("crisis_detected", VBool false);
        ("next_action", VStr "restart") ].

(** [_handle_crisis_response] *)
Definition _handle_crisis_response (session_id user_message : string)
    (crisis_response : CrisisResponse) : M dict :=
  try_except
    (update_session session_id [set_crisis_detected true; set_current_phase CRISIS_RESPONSE] ;;;
     let crisis_message :=
       if truthy (SafetyMonitor.message crisis_response)
       then SafetyMonitor.message crisis_response
       else "I'm concerned about what you've shared. Please reach out for immediate support." in
     add_conversation session_id user_message crisis_message CRISIS_RESPONSE ;;;
     ret [ ("ai_response", VStr crisis_message);
           ("current_phase", phase_value CRISIS_RESPONSE);
           ("crisis_detected", VBool true);
           ("crisis_level", VStr (CrisisLevel_value (SafetyMonitor.level crisis_response)));
           ("next_action", VStr "crisis_intervention") ])
    (fun e =>
       ret [ ("ai_response", VStr "I'm concerned about your safety. Please contact emergency services or a crisis helpline immediately.");
             ("current_phase", phase_value CRISIS_RESPONSE);
             ("crisis_detected", VBool true);
             ("error", VStr (exn_str e)) ]).

(** The [if]/[elif] chain on [session.current_phase] in
    [process_user_message]. *)
Definition handle_by_phase (session_id user_message : string) (session : SessionData)
    : M dict :=
  now <- read session_id session ;;
  match current_phase now with
  | GREETING => _handle_greeting_phase session_id user_message session
  | TRIAGE => _handle_triage_phase session_id user_message session
  | SCREENING => _handle_screening_phase session_id user_message session
  | RESULTS => _handle_results_phase session_id user_message session
  | CRISIS_RESPONSE => _handle_unknown_phase session_id user_message session
  end.

(** [process_user_message(session_id, user_message)]; [clock] is what
    [datetime.now()] reads inside [check_for_crisis]. *)
Definition process_user_message (clock : datetime) (session_id user_message : string)
    : M dict :=
  fun w =>
    match get_session (sessions w) session_id with
    | None =>
        (Return [ ("error", VStr "Session not found or expired");
                  ("ai_response", VNone);
                  ("current_phase", VNone);
                  ("crisis_detected", VBool false) ], w)
    | Some session =>
        try_except
          (let crisis_response := check_for_crisis safety_monitor clock (Some user_message) in
           should_override <- lift (getattr crisis_response "should_override") ;;
           if attribute_truth should_override
           then _handle_crisis_response session_id user_message crisis_response
           else handle_by_phase session_id user_message session)
          (fun e =>
             now <- read session_id session ;;
             ret [ ("error", VStr ("Failed to process message: " +:+ exn_str e));
                   ("ai_response", VStr "I'm sorry, I encountered an error. Let's try again.");
                   ("current_phase", phase_value (current_phase now));
                   ("crisis_detected", VBool false) ])
          w
    end.

(** [process_user_message] without its safety check: the session is
    looked up and the message goes to the handler of the session's phase. *)
Definition route_message (session_id user_message : string) : M dict :=
  fun w =>
    match get_session (sessions w) session_id with
    | None =>
        (Return [ ("error", VStr "Session not found or expired");
                  ("ai_response", VNone);
                  ("current_phase", VNone);
                  ("crisis_detected", VBool false) ], w)
    | Some session => handle_by_phase session_id user_message session w
    end.

End Flow.

(** A conversation: messages delivered one after the other, each in the
    world the one before left. *)
Fixpoint converse (deliver : string -> M dict) (messages : list string) (w : world)
    : list (outcome dict) * world :=
  match messages with
  | [] => ([], w)
  | user_message :: rest =>
      let (result, w') := deliver user_message w in
      let (results, w'') := converse deliver rest w' in
      (result :: results, w'')
  end.

(** [get_conversation_history(session_id)] *)
Definition get_conversation_history (st : store) (session_id : string)
    : option (list ConversationEntry) :=
  match get_session st session_id with
  | Some session => Some (conversation_history session)
  | None => None
  end.

(** The order of the severity levels [_calculate_severity_level] names. *)
Definition severity_rank (level : string) : nat :=
  if String.eqb level "minimal" then 0
  else if String.eqb level "mild" then 1
  else if String.eqb level "moderate" then 2
  else if String.eqb level "moderately_severe" then 3
  else 4.

(** A session has a name when [session.user_name] is true in an [if]. *)
Definition has_name (s : SessionData) : bool :=
  match user_name s with Some n => truthy n | None => false end.

(** Every recorded score is one of 0, 1, 2, 3. *)
Definition scores_in_range (s : SessionData) : Prop :=
  Forall (fun r => In (mapped_score r) [0; 1; 2; 3]%Z) (responses s).

(** What a handler may do to the session it serves: the identifier and the
    country stay, the responses and the transcript only grow at the end, and
    a completed session stays completed. *)
Definition grows_from (s s' : SessionData) : Prop :=
  session_id s' = session_id s
  /\ country s' = country s
  /\ responses s `prefix_of` responses s'
  /\ conversation_history s `prefix_of` conversation_history s'
  /\ (completed s = true -> completed s' = true).

(** A result that is a dictionary, not an exception. *)
Definition returns_dict (r : outcome dict) : Prop := exists d, r = Return d.

(** The first question of an instrument. *)
Definition first_question (tool : ScreeningTool) : question :=
  nth 0 (screening_questions tool) (mkQuestion "" "").

(** What a result of the SCREENING phase says when question 1 is asked. *)
Definition asks_question_1 (r : outcome dict) : Prop :=
  exists d, r = Return d
    /\ get d "current_phase" = Some (VStr "SCREENING")
    /\ get d "question_number" = Some (VInt 1)
    /\ get d "completed" = None.

(** The messages of the specification's end-to-end scenario A: a name, an
    anxiety-dominant concern, and "never" for each of the seven items. *)
Definition scenario_A : list string :=
  "Bob" :: "I've been really anxious and worried" :: repeat "never" 7.

(** The answer of the specification's end-to-end scenario B. *)
Definition scenario_B_answer : string :=
  "yes, nearly every day, I've been thinking about it".

End ConversationFlowManager.

(** * Properties *)

(** ** Strings *)

Section StringFacts.
Import Py.




Lemma append_assoc (a b c : string) : (a +:+ b) +:+ c = a +:+ b +:+ c.
Proof.
  induction a as [|x a IH]; [reflexivity|].
  change (String x (a +:+ b +:+ c)) with (String x a +:+ b +:+ c) in *.
  change (String x ((a +:+ b) +:+ c) = String x (a +:+ b +:+ c)).
  now rewrite IH.
Qed.

Lemma lower_app (a b : string) : lower (a +:+ b) = lower a +:+ lower b.
Proof. induction a as [|c a IH]; simpl; [reflexivity | now rewrite IH]. Qed.

Lemma lower_empty_inv (s : string) : lower s = "" -> s = "".
Proof. destruct s; simpl; [reflexivity | discriminate]. Qed.




Lemma lstrip_all_space (p : string) : all_space p = true -> lstrip p = "".
Proof.
  induction p as [|c p IH]; simpl; [reflexivity|].
  intros [Hc Hp]%andb_prop. rewrite Hc. auto.
Qed.


Lemma rstrip_all_space (p : string) : all_space p = true -> rstrip p = "".
Proof.
  induction p as [|c p IH]; simpl; [reflexivity|].
  intros [Hc Hp]%andb_prop. rewrite (IH Hp), Hc. reflexivity.
Qed.

Lemma rstrip_pad_right (s p : string) :
  all_space p = true -> rstrip (s +:+ p) = rstrip s.
Proof.
  intros Hp. induction s as [|c s IH]; simpl.
  - now apply rstrip_all_space.
  - now rewrite IH.
Qed.

Lemma strip_pad_right (s p : string) :
  all_space p = true -> strip (s +:+ p) = strip s.
Proof.
  intros Hp. unfold strip. induction s as [|c s IH].
  - change ("" +:+ p) with p. rewrite (lstrip_all_space _ Hp). reflexivity.
  - change (String c s +:+ p) with (String c (s +:+ p)).
    cbn [lstrip]. destruct (isspace c); [exact IH|].
    exact (rstrip_pad_right (String c s) p Hp).
Qed.


Lemma strip_all_space (p : string) : all_space p = true -> strip p = "".
Proof. intros H. unfold strip. now rewrite (lstrip_all_space _ H). Qed.

(** A text that ends in a word keeps it when stripped on the right. *)
Lemma rstrip_keeps (q w : string) :
  rstrip w = w -> w <> "" -> rstrip (q +:+ w) = q +:+ w.
Proof.
  intros Hw Hne. induction q as [|c q IH]; [exact Hw|].
  change (String c q +:+ w) with (String c (q +:+ w)).
  cbn [rstrip]. rewrite IH. destruct (q +:+ w) eqn:E; [|reflexivity].
  destruct q; [exfalso; apply Hne; exact E | discriminate E].
Qed.





End StringFacts.

(** ** The crisis classifier *)

Section CrisisClassifier.
Import Py SafetyMonitor.

Lemma collect_from (words : list string) (n : string) (acc : list string) :
  fold_left (fun found w => if contains n (lower w) then (found ++ [w])%list else found)
            words acc
  = (acc ++ found_in n words)%list.
Proof.
  revert acc. induction words as [|w words IH]; intros acc; simpl.
  - now rewrite app_nil_r.
  - rewrite IH. destruct (contains n (lower w)); [|reflexivity].
    now rewrite <- app_assoc.
Qed.

Lemma collect_found_in (words : list string) (n : string) :
  collect words n = found_in n words.
Proof. unfold collect. now rewrite collect_from. Qed.

Lemma default_words_lower :
  Forall (fun w => lower w = w) (default_critical_triggers ++ default_warning_indicators)%list.
Proof. repeat constructor. Qed.

Lemma crisis_message_not_empty : _get_crisis_message <> "".
Proof. discriminate. Qed.

(** C2. [check_for_crisis] on an absent or empty text answers NONE with no
    matched word and no override.  On any other text it lowercases and
    trims it and looks for each configured word (lowercased, as the code
    does) as a substring: when some critical trigger is found the answer is
    CRITICAL with all the critical triggers found, override required and a
    message that is not empty; otherwise, when some warning indicator is
    found, it is WARNING with the warning words found and no override;
    otherwise NONE with nothing matched and no override. *)
Theorem check_for_crisis_cascade (m : SafetyMonitor.t) (now : datetime) :
  (forall text, text = None \/ text = Some "" ->
     check_for_crisis m now text = mkCrisisResponse NONE [] "" now false)
  /\
  (forall t, t <> "" ->
     let normalized := strip (lower t) in
     let critical := found_in normalized (critical_triggers m) in
     let warning := found_in normalized (warning_indicators m) in
     let r := check_for_crisis m now (Some t) in
     (critical <> [] ->
        level r = CRITICAL /\ triggered_words r = critical
        /\ requires_override r = true /\ message r <> "")
     /\ (critical = [] -> warning <> [] ->
        level r = WARNING /\ triggered_words r = warning /\ requires_override r = false)
     /\ (critical = [] -> warning = [] ->
        level r = NONE /\ triggered_words r = [] /\ requires_override r = false)).
Proof.
  split.
  - intros text [-> | ->]; reflexivity.
  - intros t Ht normalized critical warning r.
    assert (Hr : r = match critical with
                     | w :: ws => mkCrisisResponse CRITICAL (w :: ws) _get_crisis_message now true
                     | [] => match warning with
                             | w :: ws => mkCrisisResponse WARNING (w :: ws) _get_warning_message now false
                             | [] => mkCrisisResponse NONE [] "" now false
                             end
                     end).
    { subst r critical warning normalized. destruct t as [|c t]; [congruence|].
      unfold check_for_crisis. now rewrite !collect_found_in. }
    rewrite Hr. clear Hr.
    destruct critical as [|w ws].
    + destruct warning as [|w' ws']; repeat split; intros; try congruence; reflexivity.
    + repeat split; intros; try congruence; try reflexivity.
      simpl. exact crisis_message_not_empty.
Qed.

(** The cascade at work: a critical trigger beside a warning word. *)
Lemma check_for_crisis_cascade_witness :
  let r := check_for_crisis (__init__ None) 0%Z (Some "  I feel hopeless, I want to KILL myself ") in
  level r = CRITICAL /\ triggered_words r = ["kill myself"]
  /\ requires_override r = true /\ message r <> "".
Proof.
  apply (proj2 (check_for_crisis_cascade (__init__ None) 0%Z)
           "  I feel hopeless, I want to KILL myself ").
  - discriminate.
  - vm_compute. discriminate.
Defined.

Lemma perform_all_keeps (m : SafetyMonitor.t) (history : list call) :
  snd (perform_all m history) = m.
Proof.
  revert m. induction history as [|c history IH]; intros m; simpl; [reflexivity|].
  destruct c; simpl; specialize (IH m); destruct (perform_all m history); exact IH.
Qed.

(** C3. After any history of calls of the two classifiers on a monitor, and
    at any reading of the clock, [check_for_crisis] gives for a text the
    level, the matched triggers and the override flag it gives on the
    monitor as it was, and [check_phq9_question9] gives the same boolean. *)
Theorem classifiers_deterministic (m : SafetyMonitor.t) (history : list call)
    (now now' : datetime) (t : option string) :
  let m' := snd (perform_all m history) in
  verdict (check_for_crisis m' now' t) = verdict (check_for_crisis m now t)
  /\ check_phq9_question9 m' t = check_phq9_question9 m t.
Proof.
  intros m'. subst m'. rewrite perform_all_keeps. split; [|reflexivity].
  unfold verdict, check_for_crisis.
  destruct t as [[|c t]|]; try reflexivity.
  destruct (collect (critical_triggers m) _); [|reflexivity].
  destruct (collect (warning_indicators m) _); reflexivity.
Qed.

End CrisisClassifier.

(** ** The ideation classifier *)

Section IdeationClassifier.
Import Py SafetyMonitor.





Lemma normalized_empty_negative (cfg : option (list string)) :
  check_phq9_question9 (__init__ cfg) (Some "") = false
  /\ negb (short_negative (__init__ cfg) "")
     && any_found (phq9_q9_positive_patterns (__init__ cfg)) "" = false.
Proof. split; reflexivity. Qed.

















End IdeationClassifier.

(** ** The scoring client *)

Section ScoringClient.
Import Py Run SessionManager GeminiClient.

Variable generate_content : nat -> prompt -> reply.

Lemma generate_response_eq (w : world) user_message context session_data :
  generate_response generate_content user_message context session_data w
  = (Return (wording generate_content w user_message context session_data), after_call w).
Proof.
  unfold generate_response, wording, try_except, bind, model_text, after_call.
  destruct (generate_content _ _) as [e|text]; [reflexivity|].
  destruct (truthy text); reflexivity.
Qed.

(** The parser does not touch the world. *)
Lemma parse_scoring_reply_pure (text : string) (w : world) :
  snd (parse_scoring_reply text w) = w.
Proof.
  unfold parse_scoring_reply.
  destruct (truthy text); [|reflexivity].
  destruct (first_line "SCORE:" _); [|reflexivity].
  destruct (first_line "EXPLANATION:" _); [|reflexivity].
  unfold bind, index, lift.
  destruct (nth_error (split ":" _) 1); [|reflexivity]. cbn [ret].
  destruct (int _); [|reflexivity].
  destruct (nth_error (split1 ":" _) 1); [|reflexivity]. cbn [ret].
  destruct (_ && _); reflexivity.
Qed.

Lemma map_response_to_score_eq (w : world) user_response question_context screening_tool :
  map_response_to_score generate_content user_response question_context screening_tool w
  = (Return (settled_score generate_content w user_response question_context screening_tool), after_call w).
Proof.
  unfold map_response_to_score, settled_score, try_except, model_text.
  unfold bind at 1. 
  destruct (generate_content _ _) as [e|text]; [reflexivity|].
  fold (after_call w). unfold bind.
  pose proof (parse_scoring_reply_pure text (after_call w)) as Hp.
  destruct (parse_scoring_reply text (after_call w)) as [[[r|]|e] w']; simpl in Hp; subst w'; reflexivity.
Qed.

Lemma fallback_score_range (user_response : string) :
  In (fst (_fallback_scoring user_response)) [0; 1; 2; 3]%Z.
Proof.
  unfold _fallback_scoring.
  repeat match goal with |- context [if ?b then _ else _] => destruct b end; simpl; auto.
Qed.

Lemma parsed_score_range (text : string) (w : world) (score : Z) (explanation : string) :
  fst (parse_scoring_reply text w) = Return (Some (score, explanation)) ->
  (0 <= score <= 3)%Z.
Proof.
  unfold parse_scoring_reply.
  destruct (truthy text); [|discriminate].
  destruct (first_line "SCORE:" _); [|discriminate].
  destruct (first_line "EXPLANATION:" _); [|discriminate].
  unfold bind, index, lift.
  destruct (nth_error (split ":" _) 1); [|discriminate]. cbn [ret].
  destruct (int _) as [v|]; [|discriminate].
  destruct (nth_error (split1 ":" _) 1); [|discriminate]. cbn [ret].
  destruct ((0 <=? v)%Z && (v <=? 3)%Z) eqn:E; [|discriminate].
  cbn. intros [= <- _]. apply andb_prop in E. lia.
Qed.

Lemma fallback_when (w : world) user_response question_context tool :
  settled_score generate_content w user_response question_context tool
    = _fallback_scoring user_response ->
  map_response_to_score generate_content user_response question_context tool w
  = (Return (_fallback_scoring user_response), after_call w).
Proof. intros H. now rewrite map_response_to_score_eq, H. Qed.

Lemma settled_score_range (w : world) user_response question_context tool :
  In (fst (settled_score generate_content w user_response question_context tool))
     [0; 1; 2; 3]%Z.
Proof.
  unfold settled_score. pose proof (fallback_score_range user_response) as Hf.
  destruct (generate_content _ _) as [e|text]; [exact Hf|].
  destruct (fst (parse_scoring_reply text (after_call w))) as [[[score explanation]|]|e] eqn:P;
    try exact Hf.
  pose proof (parsed_score_range _ _ _ _ P) as Hr. simpl.
  assert (score = 0 \/ score = 1 \/ score = 2 \/ score = 3)%Z by lia. intuition.
Qed.

(** C9. When the call of the scoring service raises, when it gives no
    text, when its text has no line starting with SCORE: or none starting
    with EXPLANATION:, when the score field is not an integer, and when the
    integer is outside 0..3, [map_response_to_score] returns the pair of
    [_fallback_scoring] and raises nothing.  The fallback looks for its
    words in the lowercased answer, bucket by bucket in this order: a word
    of always/constantly/every day/all the time/never stops gives 3; else a
    word of often/frequently/most days/usually gives 2; else a word of
    sometimes/occasionally/few times/now and then gives 1; else a word of
    never/not at all/rarely/hardly ever gives 0; else the score is 1. *)
Theorem scoring_failure_falls_back (w : world) (user_response question_context : string)
    (tool : ScreeningTool) :
  let reply_given :=
    generate_content (calls w) (scoring_prompt tool question_context user_response) in
  let run := map_response_to_score generate_content user_response question_context tool w in
  let fallback := (Return (_fallback_scoring user_response), after_call w) in
  let has words := existsb (fun word => contains (lower user_response) word) words in
  let high := ["always"; "constantly"; "every day"; "all the time"; "never stops"] in
  let medium := ["often"; "frequently"; "most days"; "usually"] in
  let low := ["sometimes"; "occasionally"; "few times"; "now and then"] in
  let minimal := ["never"; "not at all"; "rarely"; "hardly ever"] in
  (forall e, reply_given = Fails e -> run = fallback)
  /\ (reply_given = Text "" -> run = fallback)
  /\ (forall text, reply_given = Text text ->
        first_line "SCORE:" (split newline (strip text)) = None
        \/ first_line "EXPLANATION:" (split newline (strip text)) = None ->
        run = fallback)
  /\ (forall text score_line field e, reply_given = Text text ->
        first_line "SCORE:" (split newline (strip text)) = Some score_line ->
        nth_error (split ":" score_line) 1 = Some field ->
        int (strip field) = Raise e ->
        run = fallback)
  /\ (forall text score_line field score, reply_given = Text text ->
        first_line "SCORE:" (split newline (strip text)) = Some score_line ->
        nth_error (split ":" score_line) 1 = Some field ->
        int (strip field) = Return score -> (score < 0 \/ 3 < score)%Z ->
        run = fallback)
  /\ (has high = true -> fst (_fallback_scoring user_response) = 3%Z)
  /\ (has high = false -> has medium = true -> fst (_fallback_scoring user_response) = 2%Z)
  /\ (has high = false -> has medium = false -> has low = true ->
        fst (_fallback_scoring user_response) = 1%Z)
  /\ (has high = false -> has medium = false -> has low = false -> has minimal = true ->
        fst (_fallback_scoring user_response) = 0%Z)
  /\ (has high = false -> has medium = false -> has low = false -> has minimal = false ->
        fst (_fallback_scoring user_response) = 1%Z).
Proof.
  intros reply_given run fallback has high medium low minimal.
  subst run fallback reply_given.
  repeat split.
  - intros e H. apply fallback_when. unfold settled_score. now rewrite H.
  - intros H. apply fallback_when. unfold settled_score. now rewrite H.
  - intros text H Hl. apply fallback_when. unfold settled_score. rewrite H.
    unfold parse_scoring_reply. destruct (truthy text); [|reflexivity].
    destruct Hl as [-> | ->]; [reflexivity|].
    now destruct (first_line "SCORE:" _).
  - intros text score_line field e H Hs Hf Hi. apply fallback_when.
    unfold settled_score. rewrite H.
    unfold parse_scoring_reply. destruct (truthy text); [|reflexivity].
    rewrite Hs. destruct (first_line "EXPLANATION:" _); [|reflexivity].
    unfold bind, index, lift. rewrite Hf. cbn [ret]. now rewrite Hi.
  - intros text score_line field score H Hs Hf Hi Hr. apply fallback_when.
    unfold settled_score. rewrite H.
    unfold parse_scoring_reply. destruct (truthy text); [|reflexivity].
    rewrite Hs. destruct (first_line "EXPLANATION:" _); [|reflexivity].
    unfold bind, index, lift. rewrite Hf. cbn [ret]. rewrite Hi.
    destruct (nth_error (split1 ":" _) 1); [|reflexivity]. cbn [ret].
    replace ((0 <=? score)%Z && (score <=? 3)%Z) with false; [reflexivity|].
    symmetry. apply andb_false_iff. lia.
  - subst has high. intros H. unfold _fallback_scoring. now rewrite H.
  - subst has high medium. intros H1 H2. unfold _fallback_scoring. now rewrite H1, H2.
  - subst has high medium low. intros H1 H2 H3. unfold _fallback_scoring.
    now rewrite H1, H2, H3.
  - subst has high medium low minimal. intros H1 H2 H3 H4. unfold _fallback_scoring.
    now rewrite H1, H2, H3, H4.
  - subst has high medium low minimal. intros H1 H2 H3 H4. unfold _fallback_scoring.
    now rewrite H1, H2, H3, H4.
Qed.

(** C10. [map_response_to_score] always returns a pair and never raises;
    its score is 0, 1, 2 or 3; the pair is the one read from the reply of
    the service or the pair of [_fallback_scoring], whose score is itself
    always 0, 1, 2 or 3. *)
Theorem map_response_to_score_total (w : world) (user_response question_context : string)
    (tool : ScreeningTool) :
  exists score explanation,
    map_response_to_score generate_content user_response question_context tool w
    = (Return (score, explanation), after_call w)
    /\ In score [0; 1; 2; 3]%Z
    /\ ((score, explanation) = _fallback_scoring user_response
        \/ exists text,
             generate_content (calls w) (scoring_prompt tool question_context user_response)
             = Text text
             /\ fst (parse_scoring_reply text (after_call w))
                = Return (Some (score, explanation)))
    /\ In (fst (_fallback_scoring user_response)) [0; 1; 2; 3]%Z.
Proof.
  rewrite map_response_to_score_eq.
  pose proof (fallback_score_range user_response) as Hf.
  unfold settled_score.
  destruct (generate_content _ _) as [e|text].
  - destruct (_fallback_scoring user_response) as [score explanation] eqn:E.
    exists score, explanation. auto.
  - destruct (fst (parse_scoring_reply text (after_call w))) as [[[score explanation]|]|e] eqn:P.
    + exists score, explanation. repeat split; auto.
      * pose proof (parsed_score_range _ _ _ _ P) as Hr. simpl.
        assert (score = 0 \/ score = 1 \/ score = 2 \/ score = 3)%Z by lia. intuition.
      * right. exists text. auto.
    + destruct (_fallback_scoring user_response) as [score explanation] eqn:E.
      exists score, explanation. auto.
    + destruct (_fallback_scoring user_response) as [score explanation] eqn:E.
      exists score, explanation. auto.
Qed.

End ScoringClient.

Section ScoringWitness.
Import Py Run SessionManager GeminiClient.

(** With the service out of reach, "not at all" is scored 0 by the fallback. *)
Lemma scoring_failure_falls_back_witness :
  map_response_to_score service_down "not at all" "Trouble relaxing" GAD7 (mkWorld ∅ 0)
  = (Return (0%Z, "Fallback scoring based on minimal frequency indicators"),
     mkWorld ∅ 1).
Proof.
  exact (proj1 (scoring_failure_falls_back service_down (mkWorld ∅ 0)
                  "not at all" "Trouble relaxing" GAD7)
           (ServiceError "service unavailable") eq_refl).
Defined.

End ScoringWitness.

(** ** Severity bands and triage *)

Section Instruments.
Import Py SessionManager ConversationFlowManager.

(** C6. For every total score and every instrument, the band
    [_calculate_severity_level] names is the one of the specification's
    table of inclusive upper bounds: depression up to 4 minimal, up to 9
    mild, up to 14 moderate, up to 19 moderately severe, above severe;
    anxiety up to 4 minimal, up to 9 mild, up to 14 moderate, above severe;
    general up to 11 minimal, up to 15 mild, up to 20 moderate, above
    severe. *)
Theorem severity_level_matches_table (instrument : ScreeningTool) (total_score : Z) :
  _calculate_severity_level (Some instrument) total_score
  = band_name (spec_severity instrument total_score).
Proof.
  destruct instrument; unfold _calculate_severity_level, spec_severity; cbn;
    repeat match goal with
           | |- context [(total_score <=? ?b)%Z] => destruct (total_score <=? b)%Z
           end; reflexivity.
Qed.

Lemma keyword_score_from (keywords : list string) (m : string) (acc : Z) :
  fold_left (fun total keyword => if contains m keyword then (total + 1)%Z else total)
            keywords acc
  = (acc + Z.of_nat (length (List.filter (fun keyword => contains m keyword) keywords)))%Z.
Proof.
  revert acc. induction keywords as [|k ks IH]; intros acc; simpl; [lia|].
  rewrite IH. destruct (contains m k); simpl; lia.
Qed.

Lemma keyword_score_matches (keywords : list string) (user_message : string) :
  keyword_score keywords (lower user_message)
  = Z.of_nat (spec_matches keywords user_message).
Proof. unfold keyword_score, spec_matches. now rewrite keyword_score_from. Qed.

Lemma determine_screening_tool_spec (user_message : string) :
  _determine_screening_tool user_message = spec_triage user_message.
Proof.
  unfold _determine_screening_tool, spec_triage.
  rewrite !keyword_score_matches.
  set (d := spec_matches depression_keywords user_message).
  set (a := spec_matches anxiety_keywords user_message).
  destruct (Z.gtb_spec (Z.of_nat d) (Z.of_nat a)), (Nat.ltb_spec a d); try lia; [reflexivity|].
  destruct (Z.gtb_spec (Z.of_nat a) (Z.of_nat d)), (Nat.ltb_spec d a); try lia; reflexivity.
Qed.

End Instruments.

(** ** The flow manager *)

Section FlowSteps.
Import Py Run SessionManager ConversationFlowManager.

Variable generate_content : nat -> GeminiClient.prompt -> GeminiClient.reply.

Lemma read_live st id s n s0 :
  read id s0 (live st id s n) = (Return s, live st id s n).
Proof. unfold read, live. cbn. now rewrite lookup_insert_eq. Qed.

Lemma update_session_live st id s n changes :
  ConversationFlowManager.update_session id changes (live st id s n)
  = (Return true, live st id (fold_left apply_change changes s) n).
Proof.
  unfold ConversationFlowManager.update_session, on_store, SessionManager.update_session, live.
  cbn. rewrite lookup_insert_eq, insert_insert_eq. reflexivity.
Qed.

Lemma add_response_live st id s n q t score :
  ConversationFlowManager.add_response id q t score (live st id s n)
  = (Return true,
     live st id (mkSessionData (session_id s) (user_name s) (country s) (current_phase s)
                   (selected_tool s) (responses s ++ [mkUserResponse q t score])
                   (conversation_history s) (crisis_detected s) (completed s)) n).
Proof.
  unfold ConversationFlowManager.add_response, on_store, SessionManager.add_response, live.
  cbn. rewrite lookup_insert_eq, insert_insert_eq. reflexivity.
Qed.

Lemma add_conversation_live st id s n u a p :
  ConversationFlowManager.add_conversation id u a p (live st id s n)
  = (Return true,
     live st id (mkSessionData (session_id s) (user_name s) (country s) (current_phase s)
                   (selected_tool s) (responses s)
                   (conversation_history s ++ [mkConversationEntry u a p])
                   (crisis_detected s) (completed s)) n).
Proof.
  unfold ConversationFlowManager.add_conversation, on_store, SessionManager.add_conversation, live.
  cbn. rewrite lookup_insert_eq, insert_insert_eq. reflexivity.
Qed.

Lemma generate_response_live st id s n m c sd :
  ConversationFlowManager.generate_response generate_content m c sd (live st id s n)
  = (Return (GeminiClient.wording generate_content (live st id s n) m c sd),
     live st id s (S n)).
Proof. unfold ConversationFlowManager.generate_response. now rewrite generate_response_eq. Qed.

Lemma map_response_to_score_live st id s n u q tool :
  ConversationFlowManager.map_response_to_score generate_content u q tool (live st id s n)
  = (Return (GeminiClient.settled_score generate_content (live st id s n) u q tool),
     live st id s (S n)).
Proof. unfold ConversationFlowManager.map_response_to_score. now rewrite map_response_to_score_eq. Qed.

End FlowSteps.

Section FlowHandlers.
Import Py Run SessionManager ConversationFlowManager.

Variable generate_content : nat -> GeminiClient.prompt -> GeminiClient.reply.

Ltac step :=
  first [ rewrite read_live | rewrite update_session_live | rewrite add_response_live
        | rewrite add_conversation_live | rewrite generate_response_live
        | rewrite map_response_to_score_live ];
  cbv beta iota.

(** The triage handler, run on a live session. *)
Lemma triage_step (st : store) (id : string) (s : SessionData) (n : nat)
    (user_message : string) :
  let tool := spec_triage user_message in
  let chosen :=
    mkSessionData (session_id s) (user_name s) (country s) SCREENING (Some tool)
      (responses s) (conversation_history s) (crisis_detected s) (completed s) in
  let ai := GeminiClient.wording generate_content (live st id chosen n)
              (text (first_question tool)) (screening_context tool) (Some (user_name s)) in
  _handle_triage_phase generate_content id user_message s (live st id s n)
  = (Return [ ("ai_response", VStr ai);
              ("current_phase", VStr "SCREENING");
              ("crisis_detected", VBool false);
              ("selected_tool", VStr (ScreeningTool_value tool));
              ("question_number", VInt 1);
              ("next_action", VStr "screening_question") ],
     live st id
       (mkSessionData (session_id s) (user_name s) (country s) SCREENING (Some tool)
          (responses s)
          (conversation_history s ++ [mkConversationEntry user_message ai SCREENING])
          (crisis_detected s) (completed s))
       (S n))
  /\ nth_error (screening_questions tool) 0 = Some (first_question tool).
Proof.
  intros tool chosen ai. subst ai chosen.
  unfold _handle_triage_phase. rewrite determine_screening_tool_spec. fold tool.
  split; [|destruct tool; reflexivity].
  unfold try_except, bind. step.
  cbn [fold_left apply_change session_id user_name country current_phase selected_tool
       responses conversation_history crisis_detected completed].
  destruct tool; cbn [index screening_questions nth_error ret]; cbv beta iota;
    repeat step; reflexivity.
Qed.

(** C5. In the TRIAGE phase every message is classified by the numbers of
    depression and of anxiety keywords found in it, without regard to case:
    strictly more depression matches choose PHQ-9, strictly more anxiety
    matches GAD-7, a tie (nothing found at all included) GHQ-12.  The
    handler records the chosen instrument as the session's selected tool,
    moves the session to SCREENING, sends question 1 of that instrument for
    wording and answers with phase SCREENING and question number 1. *)
Theorem triage_selects_instrument (st : store) (id : string) (s : SessionData) (n : nat)
    (user_message : string) :
  let depression := spec_matches depression_keywords user_message in
  let anxiety := spec_matches anxiety_keywords user_message in
  let tool := _determine_screening_tool user_message in
  let chosen :=
    mkSessionData (session_id s) (user_name s) (country s) SCREENING (Some tool)
      (responses s) (conversation_history s) (crisis_detected s) (completed s) in
  let ai := GeminiClient.wording generate_content (live st id chosen n)
              (text (first_question tool)) (screening_context tool) (Some (user_name s)) in
  ((anxiety < depression)%nat -> tool = PHQ9)
  /\ ((depression < anxiety)%nat -> tool = GAD7)
  /\ (depression = anxiety -> tool = GHQ12)
  /\ nth_error (screening_questions tool) 0 = Some (first_question tool)
  /\ _handle_triage_phase generate_content id user_message s (live st id s n)
     = (Return [ ("ai_response", VStr ai);
                 ("current_phase", VStr "SCREENING");
                 ("crisis_detected", VBool false);
                 ("selected_tool", VStr (ScreeningTool_value tool));
                 ("question_number", VInt 1);
                 ("next_action", VStr "screening_question") ],
        live st id
          (mkSessionData (session_id s) (user_name s) (country s) SCREENING (Some tool)
             (responses s)
             (conversation_history s ++ [mkConversationEntry user_message ai SCREENING])
             (crisis_detected s) (completed s))
          (S n)).
Proof.
  intros depression anxiety tool chosen ai. subst chosen ai.
  assert (Htool : tool = spec_triage user_message)
    by apply determine_screening_tool_spec.
  repeat split.
  - intros H. rewrite Htool. unfold spec_triage. fold depression anxiety.
    now apply Nat.ltb_lt in H as ->.
  - intros H. rewrite Htool. unfold spec_triage. fold depression anxiety.
    apply Nat.ltb_lt in H as Hlt. rewrite Hlt.
    now replace (anxiety <? depression)%nat with false by (symmetry; apply Nat.ltb_ge; lia).
  - intros H. rewrite Htool. unfold spec_triage. fold depression anxiety.
    rewrite H, Nat.ltb_irrefl. reflexivity.
  - destruct tool; reflexivity.
  - rewrite Htool. exact (proj1 (triage_step st id s n user_message)).
Qed.

Lemma getattr_should_override (r : SafetyMonitor.CrisisResponse) :
  SafetyMonitor.getattr r "should_override"
  = Raise (AttributeError "'CrisisResponse' object has no attribute 'should_override'").
Proof. reflexivity. Qed.

(** [process_user_message] on a live session: the attribute it reads from
    the verdict does not exist, so every message ends in its [except]
    branch and nothing is written to the session. *)
Lemma process_user_message_live (monitor : SafetyMonitor.t) (clock : SafetyMonitor.datetime)
    (st : store) (id : string) (s : SessionData) (n : nat) (user_message : string) :
  process_user_message generate_content monitor clock id user_message (live st id s n)
  = (Return [ ("error", VStr "Failed to process message: 'CrisisResponse' object has no attribute 'should_override'");
              ("ai_response", VStr "I'm sorry, I encountered an error. Let's try again.");
              ("current_phase", phase_value (current_phase s));
              ("crisis_detected", VBool false) ],
     live st id s n).
Proof.
  unfold process_user_message, get_session.
  replace (sessions (live st id s n) !! id) with (Some s)
    by (unfold live; cbn; now rewrite lookup_insert_eq).
  unfold try_except, bind, lift. rewrite getattr_should_override.
  cbv beta iota. step. reflexivity.
Qed.

End FlowHandlers.

Section Screening.
Import Py Run SessionManager ConversationFlowManager.

Variable generate_content : nat -> GeminiClient.prompt -> GeminiClient.reply.

Ltac step :=
  first [ rewrite read_live | rewrite update_session_live | rewrite add_response_live
        | rewrite add_conversation_live | rewrite generate_response_live
        | rewrite map_response_to_score_live ];
  cbv beta iota.

Ltac fields :=
  cbn [fold_left apply_change session_id user_name country current_phase selected_tool
       responses conversation_history crisis_detected completed].

(** The greeting handler takes the first word of a message as the name. *)
Lemma greeting_takes_name (st : store) (id : string) (n : nat) (user_message name : string)
    (rest : list string) sid co ph tl rs hist cd cp :
  let s := mkSessionData sid None co ph tl rs hist cd cp in
  let ai := GeminiClient.wording generate_content
              (live st id (mkSessionData sid (Some name) co ph tl rs hist cd cp) n)
              user_message GeminiClient.BACKGROUND_CHECK (Some (Some name)) in
  split_ws (strip user_message) = name :: rest ->
  truthy (strip user_message) = true ->
  _handle_greeting_phase generate_content id user_message s (live st id s n)
  = (Return [ ("ai_response", VStr ai);
              ("current_phase", VStr "TRIAGE");
              ("crisis_detected", VBool false);
              ("next_action", VStr "triage_question") ],
     live st id
       (mkSessionData sid (Some name) co TRIAGE tl rs
          (hist ++ [mkConversationEntry user_message ai TRIAGE]) cd cp) (S n)).
Proof.
  intros s ai Hsplit Htruthy. subst s ai.
  unfold _handle_greeting_phase, try_except, bind. step. fields.
  rewrite Htruthy, Hsplit. cbn [negb andb index nth_error ret]. cbv beta iota.
  repeat (step; fields). reflexivity.
Qed.

(** The first message of the SCREENING phase: nothing is scored, nothing
    is recorded, and question 1 is asked again. *)
Lemma screening_first_message (st : store) (id : string) (n : nat) (user_message : string)
    (tool : ScreeningTool) sid un co ph hist cd cp :
  let s := mkSessionData sid un co ph (Some tool) [] hist cd cp in
  let ai := GeminiClient.wording generate_content (live st id s n)
              (text (first_question tool)) (screening_context tool) (Some un) in
  _handle_screening_phase generate_content id user_message s (live st id s n)
  = (Return [ ("ai_response", VStr ai);
              ("current_phase", VStr "SCREENING");
              ("crisis_detected", VBool false);
              ("selected_tool", VStr (ScreeningTool_value tool));
              ("question_number", VInt 1);
              ("next_action", VStr "screening_question") ],
     live st id
       (mkSessionData sid un co ph (Some tool) []
          (hist ++ [mkConversationEntry user_message ai SCREENING]) cd cp) (S n)).
Proof.
  intros s ai. subst s ai.
  unfold _handle_screening_phase, try_except, bind. step. fields.
  destruct tool; cbn [screening_questions length Nat.leb Nat.ltb index nth_error ret];
    cbv beta iota; repeat (step; fields); reflexivity.
Qed.

(** With every question of the instrument answered, a message of the
    SCREENING phase is not scored: the session goes to RESULTS. *)
Lemma screening_all_answered (st : store) (id : string) (n : nat) (user_message : string)
    (tool : ScreeningTool) sid un co ph rs hist cd cp :
  let s := mkSessionData sid un co ph (Some tool) rs hist cd cp in
  let total := get_total_score s in
  let severity := _calculate_severity_level (Some tool) total in
  let ai := GeminiClient.wording generate_content
              (live st id (mkSessionData sid un co RESULTS (Some tool) rs hist cd cp) n)
              ("Screening completed. Total score: " +:+ str_of_int total
               +:+ ", Severity: " +:+ severity)
              GeminiClient.RESULTS_EXPLANATION (Some un) in
  (length (screening_questions tool) <= length rs)%nat ->
  _handle_screening_phase generate_content id user_message s (live st id s n)
  = (Return [ ("ai_response", VStr ai);
              ("current_phase", VStr "RESULTS");
              ("crisis_detected", VBool false);
              ("total_score", VInt total);
              ("severity_level", VStr severity);
              ("screening_tool", VStr (ScreeningTool_value tool));
              ("completed", VBool true);
              ("next_action", VStr "screening_complete") ],
     live st id
       (mkSessionData sid un co RESULTS (Some tool) rs
          (hist ++ [mkConversationEntry user_message ai RESULTS]) cd true) (S n)).
Proof.
  intros s total severity ai Hlen. subst s total severity ai.
  unfold _handle_screening_phase, try_except at 1, bind at 1. step. fields.
  apply Nat.leb_le in Hlen as Hleb. rewrite Hleb.
  assert (Hltb : (length rs <? length (screening_questions tool))%nat = false)
    by (apply Nat.ltb_ge; exact Hlen).
  unfold _transition_to_results, try_except, bind.
  destruct (truthy (strip user_message)).
  - step. fields. rewrite Hltb. cbn [ret]. cbv beta iota.
    repeat (step; fields). cbn [value_of_tool ret]. cbv beta iota.
    repeat (step; fields). reflexivity.
  - cbn [ret]. cbv beta iota.
    repeat (step; fields). cbn [value_of_tool ret]. cbv beta iota.
    repeat (step; fields). reflexivity.
Qed.

Lemma index_nth {A} (l : list A) (i : nat) (d : A) :
  (i < length l)%nat -> index l i = ret (nth i l d).
Proof.
  intros H. unfold index. rewrite (nth_error_nth' l d H). reflexivity.
Qed.

(** The question at index answered-1 is never the self-harm item while a
    question remains to be asked. *)
Lemma asked_is_not_self_harm_item (answered : nat) :
  (0 < answered < length (screening_questions PHQ9))%nat ->
  String.eqb (ConversationFlowManager.id
                (nth (answered - 1) (screening_questions PHQ9) (mkQuestion "" "")))
             "phq9_9" = false.
Proof.
  intros [H0 H9]. cbn [screening_questions length] in H9.
  do 9 (destruct answered as [|answered]; [first [lia | reflexivity]|]). lia.
Qed.

(** A later message of the SCREENING phase, while questions remain: it is
    scored against the question at index answered-1, recorded under that
    question's identifier, and the question at index answered is asked. *)
Lemma screening_later_message (st : store) (id : string) (n : nat) (user_message : string)
    (tool : ScreeningTool) sid un co ph rs hist cd cp :
  let s := mkSessionData sid un co ph (Some tool) rs hist cd cp in
  let answered := length rs in
  let asked := nth (answered - 1) (screening_questions tool) (mkQuestion "" "") in
  let next := nth answered (screening_questions tool) (mkQuestion "" "") in
  let scored := GeminiClient.settled_score generate_content (live st id s n)
                  user_message (text asked) tool in
  let recorded := (rs ++ [mkUserResponse (ConversationFlowManager.id asked) user_message (fst scored)])%list in
  let ai := GeminiClient.wording generate_content
              (live st id (mkSessionData sid un co ph (Some tool) recorded hist cd cp) (S n))
              (text next) (screening_context tool) (Some un) in
  (0 < answered < length (screening_questions tool))%nat ->
  _handle_screening_phase generate_content id user_message s (live st id s n)
  = (Return [ ("ai_response", VStr ai);
              ("current_phase", VStr "SCREENING");
              ("crisis_detected", VBool false);
              ("selected_tool", VStr (ScreeningTool_value tool));
              ("question_number", VInt (Z.of_nat answered + 1));
              ("next_action", VStr "screening_question") ],
     live st id
       (mkSessionData sid un co ph (Some tool) recorded
          (hist ++ [mkConversationEntry user_message ai SCREENING]) cd cp) (S (S n))).
Proof.
  intros s answered asked next scored recorded ai Hk.
  subst s recorded ai scored.
  assert (Hcrisis : (match tool with PHQ9 => true | _ => false end)
                    && String.eqb (ConversationFlowManager.id asked) "phq9_9" = false).
  { subst asked answered. destruct tool; try reflexivity.
    cbn [andb]. exact (asked_is_not_self_harm_item (length rs) Hk). }
  unfold _handle_screening_phase, try_except, bind. step. fields.
  fold answered.
  replace (length (screening_questions tool) <=? answered)%nat with false
    by (symmetry; apply Nat.leb_gt; lia).
  replace (0 <? answered)%nat with true by (symmetry; apply Nat.ltb_lt; lia).
  replace (answered <? length (screening_questions tool))%nat with true
    by (symmetry; apply Nat.ltb_lt; lia).
  rewrite (index_nth (screening_questions tool) (answered - 1) (mkQuestion "" "")) by lia.
  rewrite (index_nth (screening_questions tool) answered (mkQuestion "" "")) by lia.
  fold asked next.
  cbn [ret]. cbv beta iota. step. rewrite Hcrisis. cbn [andb]. cbv beta iota.
  repeat first [ step | progress (cbn [ret]; cbv beta iota) | progress fields ].
  reflexivity.
Qed.

End Screening.

Section Conversations.
Import Py Run SessionManager ConversationFlowManager.

Variable generate_content : nat -> GeminiClient.prompt -> GeminiClient.reply.

Lemma route_message_live (st : store) (id : string) (s : SessionData) (n : nat)
    (user_message : string) :
  route_message generate_content id user_message (live st id s n)
  = match current_phase s with
    | GREETING => _handle_greeting_phase generate_content id user_message s
    | TRIAGE => _handle_triage_phase generate_content id user_message s
    | SCREENING => _handle_screening_phase generate_content id user_message s
    | RESULTS => _handle_results_phase generate_content id user_message s
    | CRISIS_RESPONSE => _handle_unknown_phase id user_message s
    end (live st id s n).
Proof.
  unfold route_message, get_session.
  replace (sessions (live st id s n) !! id) with (Some s)
    by (unfold live; cbn; now rewrite lookup_insert_eq).
  unfold handle_by_phase, bind. rewrite read_live. reflexivity.
Qed.

(** A session in SCREENING with nothing recorded stays so, whatever is
    said and however often: the first answer is never recorded. *)
Lemma screening_stays_at_question_1 (messages : list string) (st : store) (id : string)
    (tool : ScreeningTool) sid un co cd cp (hist : list ConversationEntry) (n : nat) :
  exists results hist',
    converse (route_message generate_content id) messages
      (live st id (mkSessionData sid un co SCREENING (Some tool) [] hist cd cp) n)
    = (results,
       live st id (mkSessionData sid un co SCREENING (Some tool) [] hist' cd cp)
         (n + length messages))
    /\ Forall asks_question_1 results.
Proof.
  revert hist n. induction messages as [|m messages IH]; intros hist n.
  - exists [], hist. cbn [converse length]. rewrite Nat.add_0_r. auto.
  - cbn [converse]. rewrite route_message_live. cbn [current_phase].
    rewrite screening_first_message.
    match goal with
    | |- context [live st id (mkSessionData _ _ _ _ _ _ ?h _ _) (S n)] =>
        destruct (IH h (S n)) as (results & hist' & Hrun & Hall)
    end.
    rewrite Hrun. eexists _, hist'. split.
    + cbn [length]. now rewrite Nat.add_succ_r.
    + constructor; [|exact Hall]. eexists. split; [reflexivity|]. repeat split.
Qed.

Lemma converse_process_user_message (monitor : SafetyMonitor.t)
    (clock : SafetyMonitor.datetime) (messages : list string)
    (st : store) (id : string) (s : SessionData) (n : nat) :
  snd (converse (process_user_message generate_content monitor clock id) messages
         (live st id s n))
  = live st id s n.
Proof.
  induction messages as [|m messages IH]; [reflexivity|].
  cbn [converse]. rewrite process_user_message_live.
  destruct (converse _ messages (live st id s n)) as [results w] eqn:E.
  simpl in IH. exact IH.
Qed.

Lemma kill_myself_is_critical (cfg : option (list string)) (clock : SafetyMonitor.datetime) :
  let r := SafetyMonitor.check_for_crisis (SafetyMonitor.__init__ cfg) clock
             (Some "I want to kill myself") in
  SafetyMonitor.level r = SafetyMonitor.CRITICAL
  /\ SafetyMonitor.requires_override r = true
  /\ SafetyMonitor.message r = SafetyMonitor._get_crisis_message.
Proof.
  intros r. subst r. unfold SafetyMonitor.check_for_crisis.
  rewrite collect_found_in.
  assert (H : exists w ws,
             SafetyMonitor.found_in (strip (lower "I want to kill myself"))
               (SafetyMonitor.critical_triggers (SafetyMonitor.__init__ cfg)) = w :: ws).
  { unfold SafetyMonitor.found_in.
    destruct cfg as [[|c cs]|]; cbn [SafetyMonitor.__init__ SafetyMonitor.critical_triggers];
      rewrite ?filter_app;
      change (List.filter (fun w => contains (strip (lower "I want to kill myself")) (lower w))
                SafetyMonitor.default_critical_triggers) with ["kill myself"];
      eexists _, _; reflexivity. }
  destruct H as (w & ws & ->). auto.
Qed.

(** C1, at the input the specification names.  "I want to kill myself" is
    CRITICAL for the classifier, and [CrisisOverrideHandler] asks for the
    override on it.  Yet for a live session in any phase
    [process_user_message] reads the attribute [should_override], which the
    verdict (whose field is [requires_override]) does not have: the call
    ends in the [except] branch, the result carries an error, says
    [crisis_detected] false, names no crisis level and keeps the phase, and
    the session is left as it was. *)
Theorem critical_text_is_not_preempted (cfg : option (list string))
    (clock : SafetyMonitor.datetime) (st : store) (id : string) (s : SessionData) (n : nat) :
  let monitor := SafetyMonitor.__init__ cfg in
  let text := "I want to kill myself" in
  let (result, w') :=
    process_user_message generate_content monitor clock id text (live st id s n) in
  SafetyMonitor.level (SafetyMonitor.check_for_crisis monitor clock (Some text))
    = SafetyMonitor.CRITICAL
  /\ fst (SafetyMonitor.process_user_input
            (SafetyMonitor.mkHandler monitor false None) clock (Some text) false)
     = (true, Some SafetyMonitor._get_crisis_message)
  /\ w' = live st id s n
  /\ exists d, result = Return d
       /\ get d "error"
          = Some (VStr "Failed to process message: 'CrisisResponse' object has no attribute 'should_override'")
       /\ get d "crisis_detected" = Some (VBool false)
       /\ get d "crisis_level" = None
       /\ get d "current_phase" = Some (VStr (ConversationPhase_value (current_phase s))).
Proof.
  intros monitor text. rewrite process_user_message_live.
  destruct (kill_myself_is_critical cfg clock) as (Hl & Ho & Hm).
  fold monitor text in Hl, Ho, Hm.
  split; [exact Hl|]. split.
  - unfold SafetyMonitor.process_user_input. cbn [SafetyMonitor.safety_monitor andb].
    rewrite Hl, Hm. reflexivity.
  - split; [reflexivity|]. eexists. split; [reflexivity|]. repeat split.
Qed.

(** C7, on the specification's scenario A.  From a fresh session, "Bob",
    then "I've been really anxious and worried", then "never" seven times:
    delivered by [process_user_message] nothing is ever written to the
    session; delivered straight to the phase handlers the name is taken and
    GAD-7 is chosen, but every "never" finds no recorded response, is not
    scored or recorded, and is answered with question 1 again, so the
    session ends in SCREENING with no response and not completed, where the
    scenario says RESULTS, total 0, "minimal" and completed. *)
Theorem scenario_A_stays_in_screening (monitor : SafetyMonitor.t)
    (clock : SafetyMonitor.datetime) (st : store) (id : string) (n : nat) :
  let fresh := live st id (new_session id None None) n in
  snd (converse (process_user_message generate_content monitor clock id) scenario_A fresh)
  = fresh
  /\ exists results hist,
       converse (route_message generate_content id) scenario_A fresh
       = (results,
          live st id
            (mkSessionData id (Some "Bob") None SCREENING (Some GAD7) [] hist false false)
            (n + 9))
       /\ Forall asks_question_1 (skipn 2 results).
Proof.
  intros fresh. split; [apply converse_process_user_message|].
  subst fresh. unfold scenario_A, new_session. cbn [converse].
  rewrite route_message_live. cbn [current_phase].
  rewrite (greeting_takes_name generate_content st id n "Bob" "Bob" []) by reflexivity.
  rewrite route_message_live. cbn [current_phase].
  destruct (triage_step generate_content st id
              (mkSessionData id (Some "Bob") None TRIAGE None []
                 ([] ++ [mkConversationEntry "Bob"
                           (GeminiClient.wording generate_content
                              (live st id (mkSessionData id (Some "Bob") None GREETING None [] [] false false) n)
                              "Bob" GeminiClient.BACKGROUND_CHECK (Some (Some "Bob"))) TRIAGE])
                 false false)
              (S n) "I've been really anxious and worried") as [Ht _].
  cbv zeta in Ht.
  change (spec_triage "I've been really anxious and worried") with GAD7 in Ht.
  cbn [session_id user_name country responses conversation_history crisis_detected completed]
    in Ht.
  rewrite Ht. clear Ht.
  match goal with
  | |- context [converse _ (repeat "never" 7)
                  (live st id (mkSessionData _ _ _ _ _ _ ?h _ _) ?k)] =>
      destruct (screening_stays_at_question_1 (repeat "never" 7) st id GAD7
                  id (Some "Bob") None false false h k) as (results & hist' & Hrun & Hall)
  end.
  rewrite Hrun. eexists _, hist'. split.
  - cbn [length repeat]. do 2 f_equal. lia.
  - exact Hall.
Qed.

(** C8, on the code.  On the depression instrument no message of the
    SCREENING phase is ever pre-empted: whatever is recorded and whatever
    is said, the handler returns [crisis_detected] false, names no crisis
    trigger and leaves the session's crisis flag as it was.  In particular,
    with nine responses recorded (question 9 being the last one asked), the
    item at index answered-1 is the self-harm item phq9_9; the answer of
    scenario B
    (which the fallback scorer maps to 3) is then not scored and not
    recorded, and the session goes to RESULTS and is completed, where the
    specification says CRISIS_RESPONSE with the answer recorded. *)
Theorem self_harm_answer_is_not_preempted (st : store) (id : string) (n : nat)
    sid un co ph hist cd cp :
  (forall rs user_message,
     exists d s' n',
       _handle_screening_phase generate_content id user_message
         (mkSessionData sid un co ph (Some PHQ9) rs hist cd cp)
         (live st id (mkSessionData sid un co ph (Some PHQ9) rs hist cd cp) n)
       = (Return d, live st id s' n')
       /\ get d "crisis_detected" = Some (VBool false)
       /\ get d "crisis_trigger" = None
       /\ crisis_detected s' = cd)
  /\ (forall rs, length rs = 9%nat ->
        let s := mkSessionData sid un co SCREENING (Some PHQ9) rs hist cd cp in
        ConversationFlowManager.id
          (nth (length rs - 1) (screening_questions PHQ9) (mkQuestion "" "")) = "phq9_9"
        /\ fst (GeminiClient._fallback_scoring scenario_B_answer) = 3%Z
        /\ exists d hist',
             _handle_screening_phase generate_content id scenario_B_answer s (live st id s n)
             = (Return d,
                live st id (mkSessionData sid un co RESULTS (Some PHQ9) rs hist' cd true) (S n))
             /\ get d "current_phase" = Some (VStr "RESULTS")
             /\ get d "crisis_detected" = Some (VBool false)
             /\ get d "completed" = Some (VBool true)).
Proof.
  split.
  - intros rs user_message.
    destruct (Nat.eq_dec (length rs) 0) as [H0|H0].
    + destruct rs; [|discriminate H0].
      rewrite screening_first_message. eexists _, _, _.
      split; [reflexivity|]. repeat split.
    + destruct (Nat.lt_ge_cases (length rs) (length (screening_questions PHQ9))) as [Hlt|Hge].
      * rewrite screening_later_message by lia. eexists _, _, _.
        split; [reflexivity|]. repeat split.
      * rewrite screening_all_answered by exact Hge. eexists _, _, _.
        split; [reflexivity|]. repeat split.
  - intros rs Hlen s. subst s. split; [now rewrite Hlen|]. split; [reflexivity|].
    rewrite screening_all_answered by (rewrite Hlen; cbn; lia).
    eexists _, _. split; [reflexivity|]. repeat split.
Qed.

End Conversations.

Section ScreeningRules.
Import Py Run SessionManager ConversationFlowManager.

Variable generate_content : nat -> GeminiClient.prompt -> GeminiClient.reply.

(** X1. The SCREENING rule for a session with no recorded response: the message
    is not scored and no response is recorded; question 1 of the instrument
    is sent for wording and the session stays in its phase. *)
Theorem screening_acknowledgement_is_not_scored (st : store) (id : string) (n : nat)
    (user_message : string) (tool : ScreeningTool) sid un co ph hist cd cp :
  let s := mkSessionData sid un co ph (Some tool) [] hist cd cp in
  let ai := GeminiClient.wording generate_content (live st id s n)
              (text (first_question tool)) (screening_context tool) (Some un) in
  _handle_screening_phase generate_content id user_message s (live st id s n)
  = (Return [ ("ai_response", VStr ai);
              ("current_phase", VStr "SCREENING");
              ("crisis_detected", VBool false);
              ("selected_tool", VStr (ScreeningTool_value tool));
              ("question_number", VInt 1);
              ("next_action", VStr "screening_question") ],
     live st id
       (mkSessionData sid un co ph (Some tool) []
          (hist ++ [mkConversationEntry user_message ai SCREENING]) cd cp) (S n)).
Proof. exact (screening_first_message generate_content st id n user_message tool
                sid un co ph hist cd cp). Qed.

(** X2. The SCREENING rule while questions remain and something is recorded:
    the message gets a score in 0..3 for the question at index answered-1,
    one response with that question's identifier and that score is
    appended, the question at index answered is sent for wording with
    question number answered+1, and the session stays in its phase. *)
Theorem screening_answer_is_scored_and_recorded (st : store) (id : string) (n : nat)
    (user_message : string) (tool : ScreeningTool) sid un co ph rs hist cd cp :
  let s := mkSessionData sid un co ph (Some tool) rs hist cd cp in
  let answered := length rs in
  let asked := nth (answered - 1) (screening_questions tool) (mkQuestion "" "") in
  let next := nth answered (screening_questions tool) (mkQuestion "" "") in
  let scored := GeminiClient.settled_score generate_content (live st id s n)
                  user_message (text asked) tool in
  let recorded :=
    (rs ++ [mkUserResponse (ConversationFlowManager.id asked) user_message (fst scored)])%list in
  let ai := GeminiClient.wording generate_content
              (live st id (mkSessionData sid un co ph (Some tool) recorded hist cd cp) (S n))
              (text next) (screening_context tool) (Some un) in
  (0 < answered < length (screening_questions tool))%nat ->
  In (fst scored) [0; 1; 2; 3]%Z
  /\ length recorded = S answered
  /\ _handle_screening_phase generate_content id user_message s (live st id s n)
     = (Return [ ("ai_response", VStr ai);
                 ("current_phase", VStr "SCREENING");
                 ("crisis_detected", VBool false);
                 ("selected_tool", VStr (ScreeningTool_value tool));
                 ("question_number", VInt (Z.of_nat answered + 1));
                 ("next_action", VStr "screening_question") ],
        live st id
          (mkSessionData sid un co ph (Some tool) recorded
             (hist ++ [mkConversationEntry user_message ai SCREENING]) cd cp) (S (S n))).
Proof.
  intros s answered asked next scored recorded ai Hk. split; [|split].
  - apply settled_score_range.
  - subst recorded answered. rewrite length_app. cbn [length]. lia.
  - exact (screening_later_message generate_content st id n user_message tool
             sid un co ph rs hist cd cp Hk).
Qed.

(** X3. The SCREENING rule when no question remains: nothing more is scored,
    the session moves to RESULTS and is completed, and the result carries
    the sum of the recorded scores and its severity band. *)
Theorem screening_ends_in_results (st : store) (id : string) (n : nat)
    (user_message : string) (tool : ScreeningTool) sid un co ph rs hist cd cp :
  let s := mkSessionData sid un co ph (Some tool) rs hist cd cp in
  let total := get_total_score s in
  let severity := _calculate_severity_level (Some tool) total in
  let ai := GeminiClient.wording generate_content
              (live st id (mkSessionData sid un co RESULTS (Some tool) rs hist cd cp) n)
              ("Screening completed. Total score: " +:+ str_of_int total
               +:+ ", Severity: " +:+ severity)
              GeminiClient.RESULTS_EXPLANATION (Some un) in
  (length (screening_questions tool) <= length rs)%nat ->
  _handle_screening_phase generate_content id user_message s (live st id s n)
  = (Return [ ("ai_response", VStr ai);
              ("current_phase", VStr "RESULTS");
              ("crisis_detected", VBool false);
              ("total_score", VInt total);
              ("severity_level", VStr severity);
              ("screening_tool", VStr (ScreeningTool_value tool));
              ("completed", VBool true);
              ("next_action", VStr "screening_complete") ],
     live st id
       (mkSessionData sid un co RESULTS (Some tool) rs
          (hist ++ [mkConversationEntry user_message ai RESULTS]) cd true) (S n)).
Proof. exact (screening_all_answered generate_content st id n user_message tool
                sid un co ph rs hist cd cp). Qed.

End ScreeningRules.

Section Witnesses.
Import Py Run SessionManager ConversationFlowManager.

(** An anxiety-dominant message: two anxiety keywords, no depression keyword. *)
Lemma triage_selects_instrument_witness :
  _determine_screening_tool "I've been really anxious and worried" = GAD7.
Proof.
  exact (proj1 (proj2 (triage_selects_instrument GeminiClient.service_down ∅ "s1" (new_session "s1" None None) 0
                         "I've been really anxious and worried"))
           ltac:(vm_compute; lia)).
Defined.

(** The scenario-B answer on a session with nine recorded responses. *)
Lemma self_harm_answer_is_not_preempted_witness :
  let rs := repeat (mkUserResponse "q" "sometimes" 1) 9 in
  let s := mkSessionData "s1" (Some "Ann") None SCREENING (Some PHQ9) rs [] false false in
  ConversationFlowManager.id
    (nth (length rs - 1) (screening_questions PHQ9) (mkQuestion "" "")) = "phq9_9"
  /\ fst (GeminiClient._fallback_scoring scenario_B_answer) = 3%Z
  /\ exists d hist',
       _handle_screening_phase GeminiClient.service_down "s1" scenario_B_answer s (live ∅ "s1" s 0)
       = (Return d,
          live ∅ "s1" (mkSessionData "s1" (Some "Ann") None RESULTS (Some PHQ9) rs hist'
                         false true) 1)
       /\ get d "current_phase" = Some (VStr "RESULTS")
       /\ get d "crisis_detected" = Some (VBool false)
       /\ get d "completed" = Some (VBool true).
Proof.
  intros rs s.
  exact (proj2 (self_harm_answer_is_not_preempted GeminiClient.service_down ∅ "s1" 0 "s1" (Some "Ann") None
                  SCREENING [] false false) rs eq_refl).
Defined.

(** One recorded response on GAD-7, then "never" with the service out of
    reach: scored 0 against gad7_1 and recorded, question 2 asked. *)
Lemma screening_answer_is_scored_and_recorded_witness :
  let rs := [mkUserResponse "gad7_1" "ok" 1] in
  let s := mkSessionData "s1" (Some "Bob") None SCREENING (Some GAD7) rs [] false false in
  exists ai,
    _handle_screening_phase GeminiClient.service_down "s1" "never" s (live ∅ "s1" s 0)
    = (Return [ ("ai_response", VStr ai);
                ("current_phase", VStr "SCREENING");
                ("crisis_detected", VBool false);
                ("selected_tool", VStr "GAD7");
                ("question_number", VInt 2);
                ("next_action", VStr "screening_question") ],
       live ∅ "s1"
         (mkSessionData "s1" (Some "Bob") None SCREENING (Some GAD7)
            (rs ++ [mkUserResponse "gad7_1" "never" 0])
            ([] ++ [mkConversationEntry "never" ai SCREENING]) false false) 2).
Proof.
  intros rs s. eexists.
  exact (proj2 (proj2 (screening_answer_is_scored_and_recorded GeminiClient.service_down
                         ∅ "s1" 0 "never" GAD7 "s1" (Some "Bob") None SCREENING rs []
                         false false ltac:(cbn; lia)))).
Defined.

(** Seven recorded responses on GAD-7, all 0: RESULTS, total 0, minimal. *)
Lemma screening_ends_in_results_witness :
  let rs := repeat (mkUserResponse "q" "never" 0) 7 in
  let s := mkSessionData "s1" (Some "Bob") None SCREENING (Some GAD7) rs [] false false in
  exists ai,
    _handle_screening_phase GeminiClient.service_down "s1" "never" s (live ∅ "s1" s 0)
    = (Return [ ("ai_response", VStr ai);
                ("current_phase", VStr "RESULTS");
                ("crisis_detected", VBool false);
                ("total_score", VInt 0);
                ("severity_level", VStr "minimal");
                ("screening_tool", VStr "GAD7");
                ("completed", VBool true);
                ("next_action", VStr "screening_complete") ],
       live ∅ "s1"
         (mkSessionData "s1" (Some "Bob") None RESULTS (Some GAD7) rs
            ([] ++ [mkConversationEntry "never" ai RESULTS]) false true) 1).
Proof.
  intros rs s. eexists.
  exact (screening_ends_in_results GeminiClient.service_down ∅ "s1" 0 "never" GAD7
           "s1" (Some "Bob") None SCREENING rs [] false false ltac:(cbn; lia)).
Defined.

End Witnesses.

(** ** More on strings: what stripping keeps *)

Section StripFacts.
Import Py.

Lemma startswith_refl_app (w y : string) : startswith (w +:+ y) w = true.
Proof.
  induction w as [|c w IH]; [destruct y; reflexivity|].
  change (String c w +:+ y) with (String c (w +:+ y)). cbn [startswith].
  now rewrite Ascii.eqb_refl, IH.
Qed.

Lemma contains_here (w y : string) : contains (w +:+ y) w = true.
Proof.
  destruct (w +:+ y) eqn:E; cbn [contains]; rewrite <- E, startswith_refl_app; reflexivity.
Qed.

Lemma contains_later (c : ascii) (s w : string) :
  contains s w = true -> contains (String c s) w = true.
Proof. intros H. cbn [contains]. rewrite H. apply orb_true_r. Qed.

Lemma contains_after (x s w : string) :
  contains s w = true -> contains (x +:+ s) w = true.
Proof.
  intros H. induction x as [|c x IH]; [exact H|].
  change (String c x +:+ s) with (String c (x +:+ s)). now apply contains_later.
Qed.

Lemma contains_inside (x w y : string) : contains (x +:+ w +:+ y) w = true.
Proof. apply contains_after, contains_here. Qed.

Lemma startswith_longer (a b w : string) :
  startswith a w = true -> startswith (a +:+ b) w = true.
Proof.
  revert a. induction w as [|c w IH]; intros a H; [destruct (a +:+ b); reflexivity|].
  destruct a as [|d a]; [discriminate H|].
  change (String d a +:+ b) with (String d (a +:+ b)).
  cbn [startswith] in *. apply andb_prop in H as [H1 H2].
  now rewrite H1, (IH a H2).
Qed.

Lemma contains_before (a b w : string) :
  contains a w = true -> contains (a +:+ b) w = true.
Proof.
  induction a as [|c a IH]; intros H.
  - cbn [contains] in H. rewrite orb_false_r in H.
    destruct w; [|discriminate H]. destruct b; reflexivity.
  - change (String c a +:+ b) with (String c (a +:+ b)).
    cbn [contains] in *. apply orb_prop in H as [H|H].
    + change (String c (a +:+ b)) with (String c a +:+ b).
      now rewrite (startswith_longer _ b _ H).
    + rewrite (IH H). apply orb_true_r.
Qed.

(** What [lstrip] removes is white space in front. *)
Lemma lstrip_decompose (s : string) :
  exists pad, all_space pad = true /\ s = pad +:+ lstrip s.
Proof.
  induction s as [|c s (pad & Hp & Hs)]; [exists ""; auto|].
  cbn [lstrip]. destruct (isspace c) eqn:E.
  - exists (String c pad). cbn [all_space]. rewrite E, Hp. split; [reflexivity|].
    change (String c pad +:+ lstrip s) with (String c (pad +:+ lstrip s)). now rewrite <- Hs.
  - exists "". auto.
Qed.

(** What [rstrip] removes is white space at the end. *)
Lemma rstrip_decompose (s : string) :
  exists pad, all_space pad = true /\ s = rstrip s +:+ pad.
Proof.
  induction s as [|c s (pad & Hp & Hs)]; [exists ""; auto|].
  cbn [rstrip]. destruct (rstrip s) as [|d r] eqn:E.
  - destruct (isspace c) eqn:Ec.
    + exists (String c pad). cbn [all_space]. rewrite Ec, Hp. split; [reflexivity|].
      change ("" +:+ pad) with pad in Hs. now rewrite <- Hs.
    + exists pad. split; [exact Hp|].
      change ("" +:+ pad) with pad in Hs. now rewrite <- Hs.
  - exists pad. split; [exact Hp|].
    change (String c (String d r) +:+ pad) with (String c (String d r +:+ pad)).
    now rewrite <- Hs.
Qed.

(** A word found in the stripped text is in the text. *)
Lemma contains_strip (s w : string) :
  contains (strip s) w = true -> contains s w = true.
Proof.
  intros H. unfold strip in H.
  destruct (lstrip_decompose s) as (p1 & _ & Hs).
  destruct (rstrip_decompose (lstrip s)) as (p2 & _ & Hl).
  rewrite Hs. apply contains_after. rewrite Hl. now apply contains_before.
Qed.

Lemma length_append_sum (a b : string) :
  String.length (a +:+ b) = (String.length a + String.length b)%nat.
Proof.
  induction a as [|c a IH]; [reflexivity|].
  change (String c a +:+ b) with (String c (a +:+ b)). cbn [String.length]. now rewrite IH.
Qed.

Lemma lstrip_app_stable (a b : string) :
  lstrip a = a -> a <> "" -> lstrip (a +:+ b) = a +:+ b.
Proof.
  intros H Hne. destruct a as [|c a]; [congruence|].
  change (String c a +:+ b) with (String c (a +:+ b)).
  cbn [lstrip] in *. destruct (isspace c) eqn:E; [|reflexivity].
  exfalso. destruct (lstrip_decompose a) as (pad & _ & Ha).
  assert (L : String.length (lstrip a) = S (String.length a)) by now rewrite H.
  assert (L' : String.length a = (String.length pad + String.length (lstrip a))%nat).
  { rewrite Ha at 1. apply length_append_sum. }
  lia.
Qed.

Lemma lstrip_app_suffix (x w : string) :
  lstrip w = w -> exists q, lstrip (x +:+ w) = q +:+ w.
Proof.
  intros Hw. induction x as [|c x IH]; [exists ""; exact Hw|].
  change (String c x +:+ w) with (String c (x +:+ w)). cbn [lstrip].
  destruct (isspace c); [exact IH | now exists (String c x)].
Qed.

Lemma rstrip_app_stable (a b : string) :
  rstrip a = a -> rstrip (a +:+ b) = a +:+ rstrip b.
Proof.
  induction a as [|c a IH]; intros H; [reflexivity|].
  change (String c a +:+ b) with (String c (a +:+ b)).
  change (String c a +:+ rstrip b) with (String c (a +:+ rstrip b)).
  cbn [rstrip] in *. destruct (rstrip a) as [|d r] eqn:E.
  - destruct (isspace c) eqn:Ec; [discriminate H|].
    injection H as H. subst a. change ("" +:+ b) with b.
    change ("" +:+ rstrip b) with (rstrip b).
    now destruct (rstrip b).
  - injection H as H. rewrite (IH H). rewrite <- H. reflexivity.
Qed.

(** A word with no white space at either end is still in the text after
    stripping. *)
Lemma contains_strip_inside (x w y : string) :
  lstrip w = w -> rstrip w = w -> w <> "" ->
  contains (strip (x +:+ w +:+ y)) w = true.
Proof.
  intros Hl Hr Hne. unfold strip.
  destruct (lstrip_app_suffix x (w +:+ y) (lstrip_app_stable w y Hl Hne)) as (q & ->).
  rewrite <- !append_assoc.
  rewrite rstrip_app_stable by (apply rstrip_keeps; assumption).
  rewrite append_assoc. apply contains_inside.
Qed.

Lemma strip_empty_iff (s : string) : strip s = "" <-> all_space s = true.
Proof.
  split; [|apply strip_all_space].
  intros H. unfold strip in H.
  destruct (lstrip_decompose s) as (p1 & H1 & Hs).
  destruct (rstrip_decompose (lstrip s)) as (p2 & H2 & Hl).
  rewrite H in Hl. change ("" +:+ p2) with p2 in Hl. rewrite Hs, Hl.
  clear - H1 H2. induction p1 as [|c p1 IH]; [exact H2|].
  change (String c p1 +:+ p2) with (String c (p1 +:+ p2)).
  cbn [all_space] in *. apply andb_prop in H1 as [-> H1]. now apply IH.
Qed.

End StripFacts.

(** ** More on the safety monitor *)

Section MonitorConfiguration.
Import Py SafetyMonitor.

Lemma found_in_nil (n : string) (words : list string) :
  (forall w, In w words -> contains n (lower w) = false) -> found_in n words = [].
Proof.
  intros H. unfold found_in. induction words as [|w ws IH]; [reflexivity|].
  cbn [List.filter]. rewrite (H w (or_introl eq_refl)). apply IH.
  intros w' Hw'. apply H. now right.
Qed.

Lemma check_for_crisis_found (m : SafetyMonitor.t) (now : datetime) (t : string) :
  t <> "" ->
  check_for_crisis m now (Some t)
  = match found_in (strip (lower t)) (critical_triggers m) with
    | w :: ws => mkCrisisResponse CRITICAL (w :: ws) _get_crisis_message now true
    | [] =>
        match found_in (strip (lower t)) (warning_indicators m) with
        | w :: ws => mkCrisisResponse WARNING (w :: ws) _get_warning_message now false
        | [] => mkCrisisResponse NONE [] "" now false
        end
    end.
Proof.
  intros Ht. destruct t as [|c t]; [congruence|].
  unfold check_for_crisis. now rewrite !collect_found_in.
Qed.

(** X4. A text in which none of the configured trigger words and warning
    words occurs, compared without regard to case, is classified NONE with
    no matched word and no override. *)
Theorem no_configured_word_no_crisis (m : SafetyMonitor.t) (now : datetime) (text : string) :
  (forall w, In w (critical_triggers m ++ warning_indicators m)%list ->
             contains (lower text) (lower w) = false) ->
  check_for_crisis m now (Some text) = mkCrisisResponse NONE [] "" now false.
Proof.
  intros H. destruct (string_dec text "") as [->|Ht]; [reflexivity|].
  rewrite (check_for_crisis_found m now text Ht).
  assert (Hn : forall w, In w (critical_triggers m ++ warning_indicators m)%list ->
                         contains (strip (lower text)) (lower w) = false).
  { intros w Hw. destruct (contains (strip (lower text)) (lower w)) eqn:E; [|reflexivity].
    apply contains_strip in E. rewrite (H w Hw) in E. discriminate E. }
  rewrite !found_in_nil; [reflexivity| |]; intros w Hw; apply Hn, in_or_app; auto.
Qed.

(** X5. A configured critical trigger that has no white space at either
    end is found wherever it occurs in a text, in any case and whatever
    stands before and after it: the verdict is CRITICAL, the trigger is
    among the matched words, the override is required and the message is
    not empty. *)
Theorem trigger_found_in_any_context (m : SafetyMonitor.t) (now : datetime)
    (trigger occurrence before after : string) :
  In trigger (critical_triggers m) ->
  lower occurrence = lower trigger ->
  lower trigger <> "" ->
  lstrip (lower trigger) = lower trigger ->
  rstrip (lower trigger) = lower trigger ->
  let r := check_for_crisis m now (Some (before +:+ occurrence +:+ after)) in
  level r = CRITICAL /\ In trigger (triggered_words r)
  /\ requires_override r = true /\ message r <> "".
Proof.
  intros Hin Hocc Hne Hl Hr r. subst r.
  assert (Ht : before +:+ occurrence +:+ after <> "").
  { destruct before; [|discriminate]. destruct occurrence; [|discriminate].
    simpl in Hocc. congruence. }
  rewrite (check_for_crisis_found m now _ Ht).
  assert (Hfound : In trigger
            (found_in (strip (lower (before +:+ occurrence +:+ after))) (critical_triggers m))).
  { unfold found_in. apply filter_In. split; [exact Hin|].
    rewrite !lower_app, Hocc. now apply contains_strip_inside. }
  destruct (found_in _ (critical_triggers m)) as [|w ws]; [destruct Hfound|].
  repeat split; try exact Hfound. apply crisis_message_not_empty.
Qed.

Lemma found_in_app (n : string) (a b : list string) :
  found_in n (a ++ b) = (found_in n a ++ found_in n b)%list.
Proof. unfold found_in. apply List.filter_app. Qed.

Lemma init_with_words (words : list string) :
  __init__ (Some words) = add_trigger_words (__init__ None) words.
Proof. destruct words; reflexivity. Qed.

(** X6. Adding critical trigger words to a monitor only adds matches:
    the matched critical words of the old monitor come first among those of
    the new one, a CRITICAL verdict stays CRITICAL, a text in which an
    added word occurs becomes CRITICAL with that word matched, and a text
    in which none of the added words occurs keeps its whole verdict.
    Constructing a monitor with custom words is the same as adding them to
    the default monitor. *)
Theorem add_trigger_words_only_adds (m : SafetyMonitor.t) (words : list string)
    (now : datetime) (t : string) :
  let n := strip (lower t) in
  let r := check_for_crisis m now (Some t) in
  let r' := check_for_crisis (add_trigger_words m words) now (Some t) in
  (level r = CRITICAL ->
     level r' = CRITICAL /\ triggered_words r' = (triggered_words r ++ found_in n words)%list)
  /\ (forall w, t <> "" -> In w words -> contains n (lower w) = true ->
        level r' = CRITICAL /\ In w (triggered_words r'))
  /\ (found_in n words = [] -> r' = r)
  /\ __init__ (Some words) = add_trigger_words (__init__ None) words.
Proof.
  intros n r r'. subst r r'.
  destruct (string_dec t "") as [->|Ht].
  - split; [discriminate|]. split; [congruence|]. split; [reflexivity|].
    apply init_with_words.
  - rewrite !(check_for_crisis_found _ now t Ht).
    cbn [add_trigger_words critical_triggers warning_indicators]. fold n.
    rewrite found_in_app.
    split; [|split; [|split]].
    + destruct (found_in n (critical_triggers m)) as [|w ws] eqn:E.
      * destruct (found_in n (warning_indicators m)); discriminate.
      * intros _. split; reflexivity.
    + intros w _ Hin Hc.
      assert (Hw : In w (found_in n (critical_triggers m) ++ found_in n words)%list).
      { apply in_or_app. right. unfold found_in. apply filter_In. auto. }
      destruct (found_in n (critical_triggers m) ++ found_in n words)%list;
        [destruct Hw | split; [reflexivity | exact Hw]].
    + intros ->. now rewrite app_nil_r.
    + apply init_with_words.
Qed.

(** X24. Adding warning words to a monitor never touches the critical
    verdicts and never asks for an override: the override flag of every
    text is what it was, a CRITICAL verdict is unchanged, no verdict becomes
    CRITICAL, a WARNING verdict stays WARNING with the added matches after
    the old ones, a text that is not CRITICAL and in which an added word
    occurs is WARNING with that word matched, and a text in which none of
    the added words occurs keeps its whole verdict. *)
Theorem add_warning_words_never_overrides (m : SafetyMonitor.t) (words : list string)
    (now : datetime) (t : string) :
  let n := strip (lower t) in
  let r := check_for_crisis m now (Some t) in
  let r' := check_for_crisis (add_warning_words m words) now (Some t) in
  requires_override r' = requires_override r
  /\ (level r = CRITICAL -> r' = r)
  /\ (level r' = CRITICAL -> level r = CRITICAL)
  /\ (level r = WARNING ->
      level r' = WARNING /\ triggered_words r' = (triggered_words r ++ found_in n words)%list)
  /\ (forall w, t <> "" -> In w words -> contains n (lower w) = true ->
        level r <> CRITICAL -> level r' = WARNING /\ In w (triggered_words r'))
  /\ (found_in n words = [] -> r' = r).
Proof.
  intros n r r'. subst r r'.
  destruct (string_dec t "") as [->|Ht].
  - repeat split; try discriminate; congruence.
  - rewrite !(check_for_crisis_found _ now t Ht).
    cbn [add_warning_words critical_triggers warning_indicators]. fold n.
    rewrite found_in_app.
    destruct (found_in n (critical_triggers m)) as [|c cs] eqn:Ec.
    + destruct (found_in n (warning_indicators m)) as [|v vs] eqn:Ev.
      * cbn [app]. split; [destruct (found_in n words); reflexivity|].
        split; [discriminate|].
        split; [destruct (found_in n words); discriminate|].
        split; [discriminate|]. split.
        -- intros w _ Hin Hc _.
           assert (Hw : In w (found_in n words)) by (apply filter_In; auto).
           destruct (found_in n words); [destruct Hw | split; [reflexivity | exact Hw]].
        -- intros ->. reflexivity.
      * cbn [app]. split; [reflexivity|]. split; [discriminate|].
        split; [discriminate|]. split; [intros _; split; reflexivity|]. split.
        -- intros w _ Hin Hc _. split; [reflexivity|].
           cbn [triggered_words]. right. apply in_or_app. right. apply filter_In. auto.
        -- intros ->. now rewrite app_nil_r.
    + split; [reflexivity|]. split; [reflexivity|]. split; [reflexivity|].
      split; [discriminate|]. split; [intros w _ _ _ Hne; now destruct Hne|]. reflexivity.
Qed.

End MonitorConfiguration.

Section OverrideHandler.
Import Py SafetyMonitor.

Lemma message_of_verdict (m : SafetyMonitor.t) (now : datetime) (text : option string) :
  level (check_for_crisis m now text) = CRITICAL ->
  message (check_for_crisis m now text) = _get_crisis_message.
Proof.
  unfold check_for_crisis. destruct text as [[|c t]|]; try discriminate.
  destruct (collect (critical_triggers m) _); [|reflexivity].
  destruct (collect (warning_indicators m) _); discriminate.
Qed.

Lemma process_user_input_cases (h : CrisisOverrideHandler) (now : datetime)
    (text : option string) (q9 : bool) :
  let overrides :=
    q9 && check_phq9_question9 (safety_monitor h) text
    || match level (check_for_crisis (safety_monitor h) now text) with
       | CRITICAL => true
       | _ => false
       end in
  fst (fst (process_user_input h now text q9)) = overrides
  /\ (overrides = true ->
        snd (fst (process_user_input h now text q9)) = Some _get_crisis_message
        /\ snd (process_user_input h now text q9)
           = mkHandler (safety_monitor h) true (Some now))
  /\ (overrides = false -> snd (process_user_input h now text q9) = h).
Proof.
  intros overrides. subst overrides. unfold process_user_input.
  destruct (q9 && check_phq9_question9 (safety_monitor h) text).
  - cbn. repeat split; discriminate.
  - cbn [orb]. pose proof (message_of_verdict (safety_monitor h) now text) as Hm.
    destruct (level (check_for_crisis (safety_monitor h) now text)); cbn;
      repeat split; try discriminate. now rewrite Hm.
Qed.

(** X7. [process_user_input] asks for the override exactly when the text is
    a positive answer to PHQ-9 question 9 (and the call says it is that
    question) or the crisis classifier finds it CRITICAL.  When it does,
    the message is the crisis message, which is not empty, and the handler
    becomes active with the time of the call; when it does not, the handler
    is left as it was. *)
Theorem override_decision (h : CrisisOverrideHandler) (now : datetime)
    (text : option string) (is_phq9_q9 : bool) :
  let out := process_user_input h now text is_phq9_q9 in
  let should_override := fst (fst out) in
  (should_override = true <->
     (is_phq9_q9 = true /\ check_phq9_question9 (safety_monitor h) text = true)
     \/ level (check_for_crisis (safety_monitor h) now text) = CRITICAL)
  /\ (should_override = true ->
        snd (fst out) = Some _get_crisis_message /\ _get_crisis_message <> ""
        /\ is_crisis_active (snd out) = true /\ crisis_timestamp (snd out) = Some now)
  /\ (should_override = false -> snd out = h).
Proof.
  intros out should_override. subst should_override out.
  destruct (process_user_input_cases h now text is_phq9_q9) as (Hd & Hy & Hn).
  cbv zeta in Hd, Hy, Hn. rewrite Hd. split; [split|split].
  - intros Ho. apply orb_prop in Ho as [Ho|Ho].
    + apply andb_prop in Ho. now left.
    + right. now destruct (level _).
  - intros [[-> ->] | ->]; [reflexivity | apply orb_true_r].
  - intros Ho. destruct (Hy Ho) as [Hmsg Hh]. rewrite Hh. repeat split.
    + exact Hmsg.
    + apply crisis_message_not_empty.
  - exact Hn.
Qed.

(** X8. Over any run of calls of [process_user_input] on one handler, the
    crisis state is sticky: the handler is active afterwards exactly when
    it was active before or one of the calls asked for the override, and
    the monitor it holds is the same.  [reset_crisis_state] is what makes
    it inactive again. *)
Theorem crisis_state_is_sticky (h : CrisisOverrideHandler) (inputs : list handler_input) :
  let (outs, h') := process_all h inputs in
  is_crisis_active h' = is_crisis_active h || existsb fst outs
  /\ safety_monitor h' = safety_monitor h
  /\ length outs = length inputs
  /\ is_crisis_active (reset_crisis_state h') = false
  /\ safety_monitor (reset_crisis_state h') = safety_monitor h.
Proof.
  revert h. induction inputs as [|[[now text] q9] rest IH]; intros h.
  - cbn. now rewrite orb_false_r.
  - cbn [process_all].
    destruct (process_user_input_cases h now text q9) as (Hd & Hy & Hn). cbv zeta in *.
    destruct (process_user_input h now text q9) as [out h1] eqn:E. cbn [fst snd] in *.
    specialize (IH h1). destruct (process_all h1 rest) as [outs h2].
    destruct IH as (Ha & Hm & Hl & Hr & Hrm).
    assert (H1 : is_crisis_active h1 = is_crisis_active h || fst out
                 /\ safety_monitor h1 = safety_monitor h).
    { destruct (fst out) eqn:Eo.
      - rewrite <- Hd in Hy. destruct (Hy eq_refl) as [_ ->]. cbn. now rewrite orb_true_r.
      - rewrite <- Hd in Hn. rewrite (Hn eq_refl). now rewrite orb_false_r. }
    destruct H1 as [H1 H1m].
    cbn [existsb length]. rewrite Ha, H1, orb_assoc. rewrite Hm, H1m, Hl.
    repeat split. cbn. now rewrite Hm, H1m.
Qed.

End OverrideHandler.

Section MonitorWitnesses.
Import Py SafetyMonitor.

(** A text with no configured word. *)
Lemma no_configured_word_no_crisis_witness :
  check_for_crisis (__init__ None) 0%Z (Some "I slept well, thanks")
  = mkCrisisResponse NONE [] "" 0%Z false.
Proof.
  apply (no_configured_word_no_crisis (__init__ None) 0%Z "I slept well, thanks").
  intros w Hw. cbn in Hw.
  repeat (destruct Hw as [<-|Hw]; [reflexivity|]). destruct Hw.
Defined.

(** "Kill Myself" inside a sentence. *)
Lemma trigger_found_in_any_context_witness :
  let r := check_for_crisis (__init__ None) 0%Z
             (Some ("Sometimes I want to " +:+ "Kill Myself" +:+ " , really")) in
  level r = CRITICAL /\ In "kill myself" (triggered_words r)
  /\ requires_override r = true /\ message r <> "".
Proof.
  apply (trigger_found_in_any_context (__init__ None) 0%Z "kill myself" "Kill Myself"
           "Sometimes I want to " " , really");
    solve [reflexivity | discriminate | cbn; auto 10].
Defined.

(** A custom word added to the default monitor. *)
Lemma add_trigger_words_only_adds_witness :
  let r' := check_for_crisis (add_trigger_words (__init__ None) ["custom_trigger"]) 0%Z
              (Some "I feel custom_trigger") in
  level r' = CRITICAL /\ In "custom_trigger" (triggered_words r').
Proof.
  apply (proj1 (proj2 (add_trigger_words_only_adds (__init__ None) ["custom_trigger"] 0%Z
                         "I feel custom_trigger")) "custom_trigger");
    solve [discriminate | cbn; auto | reflexivity].
Defined.

(** The override asked for on a critical text. *)
Lemma override_decision_witness :
  let out := process_user_input (mkHandler (__init__ None) false None) 5%Z
               (Some "I want to kill myself") false in
  snd (fst out) = Some _get_crisis_message /\ _get_crisis_message <> ""
  /\ is_crisis_active (snd out) = true /\ crisis_timestamp (snd out) = Some 5%Z.
Proof.
  apply (proj1 (proj2 (override_decision (mkHandler (__init__ None) false None) 5%Z
                         (Some "I want to kill myself") false))).
  reflexivity.
Defined.

End MonitorWitnesses.

(** ** More on the scoring client *)

Section ReplyFormat.
Import Py.

Lemma append_cons (c : ascii) (a b : string) : String c a +:+ b = String c (a +:+ b).
Proof. reflexivity. Qed.

Lemma append_nil (b : string) : "" +:+ b = b.
Proof. reflexivity. Qed.

Lemma startswith_empty (s : string) : startswith s "" = true.
Proof. destruct s; reflexivity. Qed.

Lemma no_char_cons (sep c : ascii) (s : string) :
  contains (String c s) (String sep "") = false ->
  Ascii.eqb c sep = false /\ contains s (String sep "") = false.
Proof.
  cbn [contains startswith]. rewrite startswith_empty, andb_true_r.
  intros [H1 H2]%orb_false_elim. now rewrite Ascii.eqb_sym.
Qed.

(** A text without the separator is one piece. *)
Lemma split_one_piece (sep : ascii) (s : string) :
  contains s (String sep "") = false -> split sep s = [s].
Proof.
  induction s as [|c s IH]; intros H; [reflexivity|].
  apply no_char_cons in H as [Hc Hs]. cbn [split]. now rewrite Hc, (IH Hs).
Qed.

Lemma split_first_piece (sep : ascii) (a b : string) :
  contains a (String sep "") = false ->
  split sep (a +:+ String sep b) = a :: split sep b.
Proof.
  induction a as [|c a IH]; intros H.
  - rewrite append_nil. cbn [split]. now rewrite Ascii.eqb_refl.
  - apply no_char_cons in H as [Hc Ha]. rewrite append_cons. cbn [split].
    now rewrite Hc, (IH Ha).
Qed.

Lemma no_char_before (sep : ascii) (a b : string) :
  contains (a +:+ b) (String sep "") = false -> contains a (String sep "") = false.
Proof.
  intros H. destruct (contains a (String sep "")) eqn:E; [|reflexivity].
  now rewrite (contains_before a b _ E) in H.
Qed.

Lemma no_char_rstrip (sep : ascii) (s : string) :
  contains s (String sep "") = false -> contains (rstrip s) (String sep "") = false.
Proof.
  intros H. destruct (rstrip_decompose s) as (pad & _ & Hs).
  rewrite Hs in H. exact (no_char_before sep _ _ H).
Qed.

Lemma no_char_app (sep : ascii) (a b : string) :
  contains a (String sep "") = false -> contains b (String sep "") = false ->
  contains (a +:+ b) (String sep "") = false.
Proof.
  intros Ha Hb. induction a as [|c a IH]; [exact Hb|].
  apply no_char_cons in Ha as [Hc Ha]. rewrite append_cons.
  cbn [contains startswith]. rewrite startswith_empty, andb_true_r, (IH Ha), orb_false_r.
  now rewrite Ascii.eqb_sym.
Qed.

Lemma split1_first_piece (sep : ascii) (a b : string) :
  contains a (String sep "") = false ->
  split1 sep (a +:+ String sep b) = [a; b].
Proof.
  induction a as [|c a IH]; intros H.
  - rewrite append_nil. cbn [split1]. now rewrite Ascii.eqb_refl.
  - apply no_char_cons in H as [Hc Ha]. rewrite append_cons. cbn [split1].
    now rewrite Hc, (IH Ha).
Qed.

Lemma strip_rstrip (s : string) : strip (rstrip s) = strip s.
Proof.
  destruct (rstrip_decompose s) as (pad & Hp & Hs).
  rewrite Hs at 2. now rewrite strip_pad_right.
Qed.

Lemma rstrip_keeps_first (c : ascii) (s : string) :
  isspace c = false -> exists r, rstrip (String c s) = String c r.
Proof.
  intros Hc. cbn [rstrip]. destruct (rstrip s); rewrite ?Hc; eauto.
Qed.

Lemma rstrip_idempotent (s : string) : rstrip (rstrip s) = rstrip s.
Proof.
  induction s as [|c s IH]; [reflexivity|].
  cbn [rstrip]. destruct (rstrip s) as [|d r] eqn:E.
  - destruct (isspace c) eqn:Ec; [reflexivity|]. cbn [rstrip]. now rewrite Ec.
  - cbn [rstrip]. cbn [rstrip] in IH. rewrite IH. reflexivity.
Qed.

Lemma lstrip_idempotent (s : string) : lstrip (lstrip s) = lstrip s.
Proof.
  induction s as [|c s IH]; [reflexivity|].
  cbn [lstrip]. destruct (isspace c) eqn:Ec; [exact IH|]. cbn [lstrip]. now rewrite Ec.
Qed.

(** Stripped text has no white space left at either end. *)
Lemma strip_idempotent (s : string) : strip (strip s) = strip s.
Proof.
  unfold strip.
  assert (H : lstrip (rstrip (lstrip s)) = rstrip (lstrip s)).
  { pose proof (lstrip_idempotent s) as Hl.
    destruct (lstrip s) as [|c y]; [reflexivity|].
    cbn [lstrip] in Hl. destruct (isspace c) eqn:Ec.
    - exfalso. destruct (lstrip_decompose y) as (pad & _ & Hy).
      assert (L : String.length (lstrip y) = S (String.length y)) by now rewrite Hl.
      assert (String.length y = (String.length pad + String.length (lstrip y))%nat)
        by (rewrite Hy at 1; apply length_append_sum).
      lia.
    - destruct (rstrip_keeps_first c y Ec) as (r & ->). cbn [lstrip]. now rewrite Ec. }
  rewrite H. apply rstrip_idempotent.
Qed.

End ReplyFormat.

Section ServiceReplies.
Import Py Run SessionManager GeminiClient.

Variable generate_content : nat -> prompt -> reply.

Lemma fallback_response_not_empty (context : ConversationContext) :
  _get_fallback_response context <> "" /\
  strip (_get_fallback_response context) = _get_fallback_response context.
Proof. destruct context; split; solve [discriminate | vm_compute; reflexivity]. Qed.

(** X9. [generate_response] never raises, makes exactly one call of the
    service and leaves the sessions alone.  When the call fails or gives no
    text, the answer is the fallback wording of the context, which is not
    empty; otherwise it is the text of the service, stripped.  The answer
    never has white space at either end, and it is empty exactly when the
    service gave a text made of white space only. *)
Theorem generate_response_wording (w : world) (user_message : string)
    (context : ConversationContext) (session_data : option (option string)) :
  let given := generate_content (calls w) (wording_prompt context session_data user_message) in
  exists ai,
    generate_response generate_content user_message context session_data w
    = (Return ai, mkWorld (sessions w) (S (calls w)))
    /\ (forall e, given = Fails e -> ai = _get_fallback_response context)
    /\ (given = Text "" -> ai = _get_fallback_response context)
    /\ (forall text, given = Text text -> text <> "" -> ai = strip text)
    /\ _get_fallback_response context <> ""
    /\ strip ai = ai
    /\ (ai = "" <-> exists text, given = Text text /\ text <> "" /\ all_space text = true).
Proof.
  intros given. rewrite generate_response_eq.
  exists (wording generate_content w user_message context session_data).
  destruct (fallback_response_not_empty context) as [Hne Hst].
  unfold wording. fold given. split; [reflexivity|].
  destruct given as [e|text].
  - split; [reflexivity|]. split; [discriminate|]. split; [discriminate|].
    split; [exact Hne|]. split; [exact Hst|]. split.
    + intros Hai. destruct (Hne Hai).
    + intros (text & Ht & _). discriminate Ht.
  - destruct text as [|c text]; cbn [truthy].
    + split; [discriminate|]. split; [reflexivity|]. split; [intros text [= <-]; congruence|].
      split; [exact Hne|]. split; [exact Hst|]. split.
      * intros Hai. destruct (Hne Hai).
      * intros (text & [= <-] & Ht & _). congruence.
    + split; [discriminate|]. split; [discriminate|].
      split; [intros text' [= <-] _; reflexivity|].
      split; [exact Hne|]. split; [apply strip_idempotent|]. split.
      * intros Hai. exists (String c text). repeat split; [discriminate|].
        now apply strip_empty_iff.
      * intros (text' & [= <-] & _ & Hsp). now apply strip_empty_iff.
Qed.

Lemma parse_digit_reply (d : ascii) (k : Z) (explanation : string) (w : world) :
  In (d, k) [("0"%char, 0%Z); ("1"%char, 1%Z); ("2"%char, 2%Z); ("3"%char, 3%Z)] ->
  contains explanation (String newline "") = false ->
  parse_scoring_reply
    ("SCORE: " +:+ String d (String newline ("EXPLANATION:" +:+ explanation))) w
  = (Return (Some (k, strip explanation)), w).
Proof.
  intros Hd Hn.
  set (line1 := "SCORE: " +:+ String d "").
  set (head := line1 +:+ String newline "EXPLANATION:").
  set (rest := rstrip explanation).
  assert (Hline1 : contains line1 (String newline "") = false
                   /\ split ":" line1 = ["SCORE"; String " " (String d "")]
                   /\ int (strip (String " " (String d ""))) = Return k
                   /\ lstrip head = head /\ rstrip head = head
                   /\ startswith line1 "SCORE:" = true
                   /\ startswith line1 "EXPLANATION:" = false
                   /\ ((0 <=? k) && (k <=? 3))%Z = true).
  { subst line1 head. cbn in Hd.
    decompose [or] Hd; try contradiction;
      match goal with H : (_, _) = (_, _) |- _ => injection H as <- <- end;
      repeat split; vm_compute; reflexivity. }
  destruct Hline1 as (Hnl & Hsplit & Hint & Hl & Hr & Hs1 & Hs2 & Hrange).
  assert (Hlines : split newline
                     (strip ("SCORE: " +:+ String d (String newline ("EXPLANATION:" +:+ explanation))))
                   = [line1; "EXPLANATION:" +:+ rest]).
  { change ("SCORE: " +:+ String d (String newline ("EXPLANATION:" +:+ explanation)))
      with (head +:+ explanation).
    unfold strip. rewrite (lstrip_app_stable head explanation Hl) by discriminate.
    rewrite (rstrip_app_stable head explanation Hr). fold rest.
    change (head +:+ rest) with (line1 +:+ String newline ("EXPLANATION:" +:+ rest)).
    rewrite (split_first_piece newline line1 _ Hnl).
    rewrite split_one_piece; [reflexivity|].
    apply no_char_app; [reflexivity|]. now apply no_char_rstrip. }
  unfold parse_scoring_reply.
  replace (truthy ("SCORE: " +:+ String d (String newline ("EXPLANATION:" +:+ explanation))))
    with true by reflexivity.
  rewrite Hlines. unfold first_line. cbn [List.find].
  rewrite Hs1, Hs2, startswith_refl_app.
  unfold bind, index, lift. rewrite Hsplit. cbn [nth_error ret]. cbv beta iota.
  rewrite Hint.
  change ("EXPLANATION:" +:+ rest) with ("EXPLANATION" +:+ String ":" rest).
  rewrite (split1_first_piece ":" "EXPLANATION" rest) by reflexivity.
  cbn [nth_error ret]. cbv beta iota. rewrite Hrange.
  subst rest. now rewrite strip_rstrip.
Qed.

(** X10. A reply in the format the scoring prompt asks for is honoured:
    when the text of the service is a SCORE: line with 0, 1, 2 or 3 followed
    by an EXPLANATION: line, [map_response_to_score] returns that score and
    the explanation, stripped. *)
Theorem formatted_reply_is_honoured (w : world) (user_response question_context : string)
    (tool : ScreeningTool) (score : Z) (explanation : string) :
  In score [0; 1; 2; 3]%Z ->
  contains explanation (String newline "") = false ->
  generate_content (calls w) (scoring_prompt tool question_context user_response)
  = Text (formatted_reply score explanation) ->
  map_response_to_score generate_content user_response question_context tool w
  = (Return (score, strip explanation), mkWorld (sessions w) (S (calls w))).
Proof.
  intros Hs Hn Hg. rewrite map_response_to_score_eq. unfold settled_score.
  rewrite Hg.
  assert (Hp : parse_scoring_reply (formatted_reply score explanation) (after_call w)
               = (Return (Some (score, strip explanation)), after_call w)).
  { destruct Hs as [<-|[<-|[<-|[<-|[]]]]].
    - apply (parse_digit_reply "0" 0 explanation); cbn; auto.
    - apply (parse_digit_reply "1" 1 explanation); cbn; auto.
    - apply (parse_digit_reply "2" 2 explanation); cbn; auto.
    - apply (parse_digit_reply "3" 3 explanation); cbn; auto. }
  rewrite Hp. reflexivity.
Qed.

End ServiceReplies.

Section ServiceWitnesses.
Import Py Run SessionManager GeminiClient.

Lemma formatted_reply_is_honoured_witness :
  map_response_to_score (service_saying (formatted_reply 2 " More than half the days. "))
    "most days, really" "Feeling tired or having little energy" PHQ9 (mkWorld ∅ 0)
  = (Return (2%Z, "More than half the days."), mkWorld ∅ 1).
Proof.
  apply (formatted_reply_is_honoured
           (service_saying (formatted_reply 2 " More than half the days. "))
           (mkWorld ∅ 0) "most days, really" "Feeling tired or having little energy" PHQ9
           2%Z " More than half the days. ").
  - cbn. auto.
  - vm_compute. reflexivity.
  - reflexivity.
Defined.

End ServiceWitnesses.

(** ** The first word of a message *)

Section FirstWord.
Import Py.

Lemma append_empty_right (s : string) : s +:+ "" = s.
Proof. induction s as [|c s IH]; [reflexivity|]. now rewrite append_cons, IH. Qed.

Lemma lstrip_head (s : string) (c : ascii) (r : string) :
  lstrip s = String c r -> isspace c = false.
Proof.
  induction s as [|d s IH]; cbn [lstrip]; [discriminate|].
  destruct (isspace d) eqn:E; [exact IH|]. now intros [= <- <-].
Qed.

Lemma lstrip_strip (s : string) : lstrip (strip s) = strip s.
Proof.
  unfold strip. destruct (lstrip s) as [|c r] eqn:E; [reflexivity|].
  pose proof (lstrip_head s c r E) as Hc.
  destruct (rstrip_keeps_first c r Hc) as (r' & ->). cbn [lstrip]. now rewrite Hc.
Qed.

Lemma split_ws_aux_open (s w : string) :
  exists rest, split_ws_aux (Some w) s = (w +:+ until_space s) :: rest.
Proof.
  revert w. induction s as [|c s IH]; intros w; cbn [split_ws_aux until_space].
  - exists []. now rewrite append_empty_right.
  - destruct (isspace c).
    + eexists. now rewrite append_empty_right.
    + destruct (IH (w +:+ String c "")) as (rest & ->). exists rest.
      now rewrite append_assoc, append_cons, append_nil.
Qed.

(** [s.split()[0]] is the first word of [s] when [s] is not blank. *)
Lemma split_ws_first (s : string) :
  lstrip s <> "" -> exists rest, split_ws s = first_token s :: rest.
Proof.
  unfold split_ws, first_token.
  induction s as [|c s IH]; cbn [lstrip split_ws_aux]; [congruence|].
  destruct (isspace c) eqn:E; [exact IH|]. intros _.
  destruct (split_ws_aux_open s (String c "")) as (rest & ->). exists rest.
  cbn [until_space]. now rewrite E, append_cons, append_nil.
Qed.

Lemma until_space_pad (a pad : string) :
  all_space pad = true -> until_space (a +:+ pad) = until_space a.
Proof.
  intros Hp. induction a as [|c a IH].
  - rewrite append_nil. destruct pad as [|d pad]; [reflexivity|].
    cbn [all_space] in Hp. apply andb_prop in Hp as [Hd _].
    cbn [until_space]. now rewrite Hd.
  - rewrite append_cons. cbn [until_space]. now rewrite IH.
Qed.

Lemma first_token_strip (s : string) : first_token (strip s) = first_token s.
Proof.
  unfold first_token. rewrite lstrip_strip. unfold strip.
  destruct (rstrip_decompose (lstrip s)) as (pad & Hp & Hs).
  rewrite Hs at 2. now rewrite until_space_pad.
Qed.

Lemma first_token_not_empty (s : string) : lstrip s <> "" -> first_token s <> "".
Proof.
  unfold first_token. destruct (lstrip s) as [|c r] eqn:E; [congruence|]. intros _.
  cbn [until_space]. now rewrite (lstrip_head s c r E).
Qed.

Lemma truthy_strip_lstrip (s : string) : truthy (strip s) = true -> lstrip s <> "".
Proof. unfold strip. intros H E. rewrite E in H. discriminate H. Qed.

(** The name the greeting takes from a message that is not blank. *)
Lemma first_word_of_message (user_message : string) :
  truthy (strip user_message) = true ->
  first_token user_message <> ""
  /\ exists rest, split_ws (strip user_message) = first_token user_message :: rest.
Proof.
  intros H. split.
  - apply first_token_not_empty. now apply truthy_strip_lstrip.
  - rewrite <- first_token_strip. apply split_ws_first. rewrite lstrip_strip.
    destruct (strip user_message); [discriminate H | discriminate].
Qed.

Lemma until_space_prefix (s : string) : exists tail, s = until_space s +:+ tail.
Proof.
  induction s as [|c s (tail & IH)]; [exists ""; reflexivity|].
  cbn [until_space]. destruct (isspace c).
  - exists (String c s). reflexivity.
  - exists tail. rewrite append_cons. now rewrite <- IH.
Qed.

(** The first word of a message is a piece of the message. *)
Lemma first_token_in_message (s : string) : contains s (first_token s) = true.
Proof.
  unfold first_token.
  destruct (lstrip_decompose s) as (pad & _ & Hs).
  destruct (until_space_prefix (lstrip s)) as (tail & Ht).
  rewrite Hs at 1. rewrite Ht at 1. apply contains_inside.
Qed.

Lemma truthy_strip_blank (s : string) : all_space s = true -> truthy (strip s) = false.
Proof. intros H. now rewrite (strip_all_space s H). Qed.

End FirstWord.

(** ** The handlers of the other phases *)

Section PhaseRules.
Import Py Run SessionManager ConversationFlowManager.

Variable generate_content : nat -> GeminiClient.prompt -> GeminiClient.reply.

Ltac step :=
  first [ rewrite read_live | rewrite update_session_live | rewrite add_response_live
        | rewrite add_conversation_live | rewrite generate_response_live
        | rewrite map_response_to_score_live ];
  cbv beta iota.

Ltac fields :=
  cbn [fold_left apply_change session_id user_name country current_phase selected_tool
       responses conversation_history crisis_detected completed].

Ltac run := repeat first [ step | progress (cbn [ret]; cbv beta iota) | progress fields ].

Lemma greeting_names_session (st : store) (id : string) (n : nat) (user_message : string)
    (s : SessionData) :
  let name := first_token user_message in
  let named := mkSessionData (session_id s) (Some name) (country s) (current_phase s)
                 (selected_tool s) (responses s) (conversation_history s)
                 (crisis_detected s) (completed s) in
  let ai := GeminiClient.wording generate_content (live st id named n)
              user_message GeminiClient.BACKGROUND_CHECK (Some (Some name)) in
  has_name s = false ->
  truthy (strip user_message) = true ->
  _handle_greeting_phase generate_content id user_message s (live st id s n)
  = (Return [ ("ai_response", VStr ai);
              ("current_phase", VStr "TRIAGE");
              ("crisis_detected", VBool false);
              ("next_action", VStr "triage_question") ],
     live st id
       (mkSessionData (session_id s) (Some name) (country s) TRIAGE (selected_tool s)
          (responses s)
          (conversation_history s ++ [mkConversationEntry user_message ai TRIAGE])
          (crisis_detected s) (completed s)) (S n)).
Proof.
  intros name named ai Hname Htruthy. subst named ai.
  destruct (first_word_of_message user_message Htruthy) as (_ & rest & Hsplit).
  fold name in Hsplit. unfold has_name in Hname.
  unfold _handle_greeting_phase, try_except, bind. step.
  rewrite Hname, Htruthy, Hsplit. cbn [negb andb index nth_error ret]. cbv beta iota.
  run. reflexivity.
Qed.

Lemma greeting_asks_again (st : store) (id : string) (n : nat) (user_message : string)
    (s : SessionData) :
  let ai := GeminiClient.wording generate_content (live st id s n)
              user_message GeminiClient.GREETING None in
  has_name s = true \/ all_space user_message = true ->
  _handle_greeting_phase generate_content id user_message s (live st id s n)
  = (Return [ ("ai_response", VStr ai);
              ("current_phase", VStr "GREETING");
              ("crisis_detected", VBool false);
              ("next_action", VStr "collect_name") ],
     live st id
       (mkSessionData (session_id s) (user_name s) (country s) (current_phase s)
          (selected_tool s) (responses s)
          (conversation_history s ++ [mkConversationEntry user_message ai GREETING])
          (crisis_detected s) (completed s)) (S n)).
Proof.
  intros ai Hcase. subst ai.
  assert (Hcond : negb (match user_name s with Some n0 => truthy n0 | None => false end)
                  && truthy (strip user_message) = false).
  { destruct Hcase as [Hn|Hb].
    - unfold has_name in Hn. now rewrite Hn.
    - rewrite (truthy_strip_blank _ Hb). apply andb_false_r. }
  unfold _handle_greeting_phase, try_except, bind. step.
  rewrite Hcond. run. reflexivity.
Qed.

(** X11. The GREETING rule for a session without a name and a message that
    is not blank: the first word of the message becomes the session's name
    (it is not empty, so the session has a name from then on), the answer is
    worded once for the background check with that name, the session moves
    to TRIAGE and the exchange is logged. *)
Theorem greeting_takes_first_word (st : store) (id : string) (n : nat)
    (user_message : string) (s : SessionData) :
  let name := first_token user_message in
  let named := mkSessionData (session_id s) (Some name) (country s) (current_phase s)
                 (selected_tool s) (responses s) (conversation_history s)
                 (crisis_detected s) (completed s) in
  let ai := GeminiClient.wording generate_content (live st id named n)
              user_message GeminiClient.BACKGROUND_CHECK (Some (Some name)) in
  let after := mkSessionData (session_id s) (Some name) (country s) TRIAGE (selected_tool s)
                 (responses s)
                 (conversation_history s ++ [mkConversationEntry user_message ai TRIAGE])
                 (crisis_detected s) (completed s) in
  has_name s = false ->
  all_space user_message = false ->
  _handle_greeting_phase generate_content id user_message s (live st id s n)
  = (Return [ ("ai_response", VStr ai);
              ("current_phase", VStr "TRIAGE");
              ("crisis_detected", VBool false);
              ("next_action", VStr "triage_question") ],
     live st id after (S n))
  /\ name <> ""
  /\ has_name after = true
  /\ contains user_message name = true.
Proof.
  intros name named ai after Hname Hblank.
  assert (Htruthy : truthy (strip user_message) = true).
  { destruct (strip user_message) eqn:E; [|reflexivity].
    apply strip_empty_iff in E. congruence. }
  destruct (first_word_of_message user_message Htruthy) as (Hne & rest & Hsplit).
  fold name in Hne. split; [|split; [|split]].
  - exact (greeting_names_session st id n user_message s Hname Htruthy).
  - exact Hne.
  - unfold has_name, after. cbn [user_name]. destruct name; [congruence|reflexivity].
  - apply first_token_in_message.
Qed.

(** X12. The GREETING rule otherwise: for a session that has a name, or a
    message that is blank, nothing is taken from the message; the answer is
    worded once as a greeting, the exchange is logged and the session keeps
    its name and its phase. *)
Theorem greeting_waits_for_name (st : store) (id : string) (n : nat)
    (user_message : string) (s : SessionData) :
  let ai := GeminiClient.wording generate_content (live st id s n)
              user_message GeminiClient.GREETING None in
  let after := mkSessionData (session_id s) (user_name s) (country s) (current_phase s)
                 (selected_tool s) (responses s)
                 (conversation_history s ++ [mkConversationEntry user_message ai GREETING])
                 (crisis_detected s) (completed s) in
  has_name s = true \/ all_space user_message = true ->
  _handle_greeting_phase generate_content id user_message s (live st id s n)
  = (Return [ ("ai_response", VStr ai);
              ("current_phase", VStr "GREETING");
              ("crisis_detected", VBool false);
              ("next_action", VStr "collect_name") ],
     live st id after (S n))
  /\ has_name after = has_name s.
Proof.
  intros ai after Hcase. split; [|reflexivity].
  exact (greeting_asks_again st id n user_message s Hcase).
Qed.

(** X13. A session that has a name and is in GREETING (one that was
    started with a name, say) never gets past the greeting: dispatched by
    phase, every message is answered with a greeting that asks for the name,
    the phase stays GREETING, no instrument is chosen, nothing is recorded,
    and only the transcript grows, by one entry for each message. *)
Theorem named_session_stays_in_greeting (messages : list string) (st : store) (id : string)
    (s : SessionData) (n : nat) :
  has_name s = true -> current_phase s = GREETING ->
  exists results hist',
    converse (route_message generate_content id) messages (live st id s n)
    = (results,
       live st id
         (mkSessionData (session_id s) (user_name s) (country s) GREETING (selected_tool s)
            (responses s) (conversation_history s ++ hist')
            (crisis_detected s) (completed s))
         (n + length messages))
    /\ length hist' = length messages
    /\ Forall (fun r => exists d, r = Return d
                 /\ get d "current_phase" = Some (VStr "GREETING")
                 /\ get d "next_action" = Some (VStr "collect_name")) results.
Proof.
  revert s n. induction messages as [|m messages IH]; intros s n Hname Hphase.
  - exists [], []. cbn [converse length]. rewrite Nat.add_0_r, app_nil_r.
    rewrite <- Hphase. destruct s; auto.
  - cbn [converse]. rewrite route_message_live, Hphase.
    rewrite (greeting_asks_again st id n m s (or_introl Hname)).
    match goal with
    | |- context [live st id ?s1 (S n)] =>
        destruct (IH s1 (S n)) as (results & hist' & Hrun & Hlen & Hall);
          [exact Hname | exact Hphase |]
    end.
    rewrite Hrun. fields.
    eexists _, (_ :: hist'). split; [|split].
    + rewrite <- app_assoc. cbn [app length]. rewrite Nat.add_succ_r. reflexivity.
    + cbn [length]. now rewrite Hlen.
    + constructor; [|exact Hall]. eexists. split; [reflexivity|]. split; reflexivity.
Qed.

Lemma results_with_tool (st : store) (id : string) (n : nat) (user_message : string)
    (s : SessionData) (tool : ScreeningTool) :
  let total := get_total_score s in
  let severity := _calculate_severity_level (Some tool) total in
  let ai := GeminiClient.wording generate_content (live st id s n)
              ("Total score: " +:+ str_of_int total +:+ ", Severity: " +:+ severity)
              GeminiClient.RESULTS_EXPLANATION (Some (user_name s)) in
  selected_tool s = Some tool ->
  _handle_results_phase generate_content id user_message s (live st id s n)
  = (Return [ ("ai_response", VStr ai);
              ("current_phase", VStr "RESULTS");
              ("crisis_detected", VBool false);
              ("total_score", VInt total);
              ("severity_level", VStr severity);
              ("screening_tool", VStr (ScreeningTool_value tool));
              ("completed", VBool true);
              ("next_action", VStr "screening_complete") ],
     live st id
       (mkSessionData (session_id s) (user_name s) (country s) (current_phase s)
          (Some tool) (responses s)
          (conversation_history s ++ [mkConversationEntry user_message ai RESULTS])
          (crisis_detected s) true) (S n)).
Proof.
  intros total severity ai Htool. subst total severity ai.
  unfold _handle_results_phase, try_except, bind. step. rewrite Htool.
  cbn [value_of_tool ret]. cbv beta iota. run. rewrite Htool. reflexivity.
Qed.

Lemma results_without_tool (st : store) (id : string) (n : nat) (user_message : string)
    (s : SessionData) :
  selected_tool s = None ->
  _handle_results_phase generate_content id user_message s (live st id s n)
  = (Return [ ("error", VStr "'NoneType' object has no attribute 'value'");
              ("ai_response", VStr "I'm sorry, I encountered an error. Let's try again or start over.");
              ("current_phase", phase_value (current_phase s));
              ("crisis_detected", VBool false) ],
     live st id s n).
Proof.
  intros Htool.
  unfold _handle_results_phase, try_except, bind. step. rewrite Htool.
  cbn [value_of_tool raise]. cbv beta iota.
  unfold _get_error_response, bind. step. reflexivity.
Qed.

(** X14. The RESULTS rule.  With an instrument selected the result carries
    the sum of the recorded scores and the severity band of that sum for the
    instrument; the answer is worded once, the session is marked completed
    and the exchange is logged; the responses, the phase and the crisis flag
    stay, so the same total is reported for every later message.  With no
    instrument selected the handler does not raise: it answers with the
    error result, calls no service and changes nothing. *)
Theorem results_are_reported (st : store) (id : string) (n : nat) (user_message : string)
    (s : SessionData) :
  let total := get_total_score s in
  match selected_tool s with
  | Some tool =>
      let severity := _calculate_severity_level (Some tool) total in
      let ai := GeminiClient.wording generate_content (live st id s n)
                  ("Total score: " +:+ str_of_int total +:+ ", Severity: " +:+ severity)
                  GeminiClient.RESULTS_EXPLANATION (Some (user_name s)) in
      let after := mkSessionData (session_id s) (user_name s) (country s) (current_phase s)
                     (Some tool) (responses s)
                     (conversation_history s ++ [mkConversationEntry user_message ai RESULTS])
                     (crisis_detected s) true in
      _handle_results_phase generate_content id user_message s (live st id s n)
      = (Return [ ("ai_response", VStr ai);
                  ("current_phase", VStr "RESULTS");
                  ("crisis_detected", VBool false);
                  ("total_score", VInt total);
                  ("severity_level", VStr severity);
                  ("screening_tool", VStr (ScreeningTool_value tool));
                  ("completed", VBool true);
                  ("next_action", VStr "screening_complete") ],
         live st id after (S n))
      /\ get_total_score after = total
  | None =>
      exists d,
        _handle_results_phase generate_content id user_message s (live st id s n)
        = (Return d, live st id s n)
        /\ get d "error" = Some (VStr "'NoneType' object has no attribute 'value'")
        /\ get d "total_score" = None
        /\ get d "completed" = None
  end.
Proof.
  intros total. destruct (selected_tool s) as [tool|] eqn:Htool.
  - intros severity ai after. split.
    + exact (results_with_tool st id n user_message s tool Htool).
    + reflexivity.
  - eexists. split; [exact (results_without_tool st id n user_message s Htool)|].
    repeat split.
Qed.

Lemma unknown_phase_restarts (st : store) (id : string) (n : nat) (user_message : string)
    (s : SessionData) :
  current_phase s = CRISIS_RESPONSE ->
  handle_by_phase generate_content id user_message s (live st id s n)
  = (Return [ ("ai_response", VStr "I'm sorry, something went wrong. Let's start over. What would you like me to call you?");
              ("current_phase", VStr "GREETING");
              ("crisis_detected", VBool false);
              ("next_action", VStr "restart") ],
     live st id
       (mkSessionData (session_id s) (user_name s) (country s) GREETING (selected_tool s)
          (responses s) (conversation_history s) (crisis_detected s) (completed s)) n).
Proof.
  intros Hphase. unfold handle_by_phase, bind. step. rewrite Hphase.
  unfold _handle_unknown_phase, bind. run. reflexivity.
Qed.

(** X15. A session in CRISIS_RESPONSE is sent to the handler of unknown
    phases: the next message, whatever it says, resets the phase to
    GREETING and is answered with a restart and crisis_detected false; the
    message is not logged, no service is called, and the session keeps its
    crisis flag, its name, its instrument and its responses.  The message
    after that is handled by the GREETING rule. *)
Theorem crisis_phase_restarts_greeting (st : store) (id : string) (n : nat)
    (user_message : string) (s : SessionData) :
  let after := mkSessionData (session_id s) (user_name s) (country s) GREETING
                 (selected_tool s) (responses s) (conversation_history s)
                 (crisis_detected s) (completed s) in
  current_phase s = CRISIS_RESPONSE ->
  handle_by_phase generate_content id user_message s (live st id s n)
  = (Return [ ("ai_response", VStr "I'm sorry, something went wrong. Let's start over. What would you like me to call you?");
              ("current_phase", VStr "GREETING");
              ("crisis_detected", VBool false);
              ("next_action", VStr "restart") ],
     live st id after n)
  /\ forall next_message,
       handle_by_phase generate_content id next_message after (live st id after n)
       = _handle_greeting_phase generate_content id next_message after (live st id after n).
Proof.
  intros after Hphase. split.
  - exact (unknown_phase_restarts st id n user_message s Hphase).
  - intros next_message. unfold handle_by_phase, bind. step. reflexivity.
Qed.

Lemma total_score_app (sid : string) un co ph tl (rs more : list UserResponse) hist cd cp :
  get_total_score (mkSessionData sid un co ph tl (rs ++ more) hist cd cp)
  = (get_total_score (mkSessionData sid un co ph tl rs hist cd cp)
     + fold_left (fun total r => (total + mapped_score r)%Z) more 0)%Z.
Proof.
  unfold get_total_score. cbn [responses]. rewrite fold_left_app.
  generalize (fold_left (fun total r => (total + mapped_score r)%Z) rs 0%Z) as acc.
  induction more as [|r more IH]; intros acc; cbn [fold_left]; [lia|].
  rewrite IH, (IH (0 + mapped_score r)%Z). lia.
Qed.

(** X16. [_handle_crisis_response] for any verdict of the monitor: it never
    raises and calls no service; the session gets its crisis flag and the
    phase CRISIS_RESPONSE, the exchange is logged with the answer, and the
    responses, the name and the instrument stay.  The answer is the
    verdict's message, or a fixed sentence when that message is empty, so it
    is never empty; the result carries crisis_detected true and the
    verdict's level. *)
Theorem crisis_response_is_recorded (st : store) (id : string) (n : nat)
    (user_message : string) (crisis_response : SafetyMonitor.CrisisResponse)
    (s : SessionData) :
  exists answer,
    _handle_crisis_response id user_message crisis_response (live st id s n)
    = (Return [ ("ai_response", VStr answer);
                ("current_phase", VStr "CRISIS_RESPONSE");
                ("crisis_detected", VBool true);
                ("crisis_level",
                 VStr (SafetyMonitor.CrisisLevel_value (SafetyMonitor.level crisis_response)));
                ("next_action", VStr "crisis_intervention") ],
       live st id
         (mkSessionData (session_id s) (user_name s) (country s) CRISIS_RESPONSE
            (selected_tool s) (responses s)
            (conversation_history s
             ++ [mkConversationEntry user_message answer CRISIS_RESPONSE])
            true (completed s)) n)
    /\ answer <> ""
    /\ (SafetyMonitor.message crisis_response <> "" ->
        answer = SafetyMonitor.message crisis_response).
Proof.
  eexists. split; [|split].
  - unfold _handle_crisis_response, try_except, bind. run. reflexivity.
  - destruct (SafetyMonitor.message crisis_response); cbn [truthy]; discriminate.
  - destruct (SafetyMonitor.message crisis_response); cbn [truthy]; congruence.
Qed.

(** X17. [_handle_phq9_q9_crisis]: it never raises and calls no service;
    the answer is recorded under "phq9_9" with the score it was given, so
    the total grows by that score; the session gets its crisis flag and the
    phase CRISIS_RESPONSE, and the exchange is logged with a fixed answer
    that names the 988 line. *)
Theorem self_harm_answer_is_recorded (st : store) (id : string) (n : nat)
    (user_message : string) (score : Z) (s0 s : SessionData) :
  exists answer after,
    _handle_phq9_q9_crisis id user_message s0 score (live st id s n)
    = (Return [ ("ai_response", VStr answer);
                ("current_phase", VStr "CRISIS_RESPONSE");
                ("crisis_detected", VBool true);
                ("crisis_trigger", VStr "PHQ9_Q9");
                ("next_action", VStr "crisis_intervention") ],
       live st id after n)
    /\ after = mkSessionData (session_id s) (user_name s) (country s) CRISIS_RESPONSE
                 (selected_tool s)
                 (responses s ++ [mkUserResponse "phq9_9" user_message score])
                 (conversation_history s
                  ++ [mkConversationEntry user_message answer CRISIS_RESPONSE])
                 true (completed s)
    /\ get_total_score after = (get_total_score s + score)%Z
    /\ contains answer "988" = true.
Proof.
  eexists _, _. split; [|split; [reflexivity|split]].
  - unfold _handle_phq9_q9_crisis, try_except, bind. run. reflexivity.
  - rewrite total_score_app. cbn [fold_left mapped_score].
    destruct s. reflexivity.
  - vm_compute. reflexivity.
Qed.

Lemma all_space_truthy_strip (user_message : string) :
  truthy (strip user_message) = negb (all_space user_message).
Proof.
  destruct (all_space user_message) eqn:E.
  - now rewrite (truthy_strip_blank _ E).
  - destruct (strip user_message) eqn:Es; [|reflexivity].
    apply strip_empty_iff in Es. congruence.
Qed.

(** X18. [_transition_to_results] called while a question of the instrument
    is still open.  A message that is not blank is scored against the open
    question, the one at index answered (the SCREENING rule scores against
    the one before it), the score is in 0..3 and is recorded under that
    question's identifier, and the total reported includes it.  A blank
    message is not scored and nothing is recorded.  Either way the session
    moves to RESULTS and is marked completed. *)
Theorem transition_scores_open_question (st : store) (id : string) (n : nat)
    (user_message : string) (tool : ScreeningTool) sid un co ph rs hist cd cp :
  let s := mkSessionData sid un co ph (Some tool) rs hist cd cp in
  let answered := length rs in
  let open := nth answered (screening_questions tool) (mkQuestion "" "") in
  let scored := GeminiClient.settled_score generate_content (live st id s n)
                  user_message (text open) tool in
  let recorded :=
    if all_space user_message then rs
    else (rs ++ [mkUserResponse (ConversationFlowManager.id open) user_message
                   (fst scored)])%list in
  let n1 := if all_space user_message then n else S n in
  let total := get_total_score (mkSessionData sid un co RESULTS (Some tool) recorded hist cd cp) in
  let severity := _calculate_severity_level (Some tool) total in
  let ai := GeminiClient.wording generate_content
              (live st id (mkSessionData sid un co RESULTS (Some tool) recorded hist cd cp) n1)
              ("Screening completed. Total score: " +:+ str_of_int total
               +:+ ", Severity: " +:+ severity)
              GeminiClient.RESULTS_EXPLANATION (Some un) in
  (answered < length (screening_questions tool))%nat ->
  _transition_to_results generate_content id user_message s (live st id s n)
  = (Return [ ("ai_response", VStr ai);
              ("current_phase", VStr "RESULTS");
              ("crisis_detected", VBool false);
              ("total_score", VInt total);
              ("severity_level", VStr severity);
              ("screening_tool", VStr (ScreeningTool_value tool));
              ("completed", VBool true);
              ("next_action", VStr "screening_complete") ],
     live st id
       (mkSessionData sid un co RESULTS (Some tool) recorded
          (hist ++ [mkConversationEntry user_message ai RESULTS]) cd true) (S n1))
  /\ In (fst scored) [0; 1; 2; 3]%Z
  /\ total = (get_total_score s
              + if all_space user_message then 0 else fst scored)%Z.
Proof.
  intros s answered open scored recorded n1 total severity ai Hk.
  split; [|split].
  - subst s total severity ai recorded n1 scored.
    unfold _transition_to_results, try_except, bind.
    rewrite all_space_truthy_strip. destruct (all_space user_message); cbn [negb].
    + run. cbn [value_of_tool ret]. cbv beta iota. run. reflexivity.
    + step. fields. fold answered.
      replace (answered <? length (screening_questions tool))%nat with true
        by (symmetry; apply Nat.ltb_lt; lia).
      rewrite (index_nth (screening_questions tool) answered (mkQuestion "" "")) by lia.
      fold open. run. cbn [value_of_tool ret]. cbv beta iota. run. reflexivity.
  - apply settled_score_range.
  - subst total recorded s. destruct (all_space user_message).
    + unfold get_total_score. cbn [responses]. lia.
    + rewrite total_score_app. cbn [fold_left mapped_score].
      unfold get_total_score. cbn [responses]. lia.
Qed.

(** X19. [_transition_to_results] for a session with no instrument never
    raises and calls no service, but what it leaves depends on the message.
    For a message that is not blank the lookup of the questions fails first:
    the error result is returned and the session is untouched.  For a blank
    message the phase has been set to RESULTS before the instrument's name
    is read: the error result is returned, and it names the phase RESULTS,
    which the session keeps; the session is not marked completed. *)
Theorem transition_without_instrument (st : store) (id : string) (n : nat)
    (user_message : string) (s : SessionData) :
  selected_tool s = None ->
  exists d after,
    _transition_to_results generate_content id user_message s (live st id s n)
    = (Return d, live st id after n)
    /\ get d "completed" = None
    /\ get d "total_score" = None
    /\ get d "current_phase" = Some (phase_value (current_phase after))
    /\ completed after = completed s
    /\ responses after = responses s
    /\ conversation_history after = conversation_history s
    /\ (if all_space user_message
        then get d "error" = Some (VStr "'NoneType' object has no attribute 'value'")
             /\ current_phase after = RESULTS
        else get d "error" = Some (VStr "None") /\ after = s).
Proof.
  intros Htool.
  unfold _transition_to_results, try_except, bind.
  rewrite all_space_truthy_strip. destruct (all_space user_message); cbn [negb].
  - run. rewrite Htool. cbn [value_of_tool raise]. cbv beta iota.
    unfold _get_error_response, bind. step. fields.
    eexists _, _. split; [reflexivity|]. repeat split.
  - step. rewrite Htool. cbn [raise]. cbv beta iota.
    unfold _get_error_response, bind. step.
    eexists _, _. split; [reflexivity|]. repeat split.
Qed.

Lemma screening_without_tool (st : store) (id : string) (n : nat) (user_message : string)
    (s : SessionData) :
  selected_tool s = None ->
  _handle_screening_phase generate_content id user_message s (live st id s n)
  = (Return [ ("error", VStr "No screening tool selected");
              ("ai_response", VStr "I'm sorry, I encountered an error. Let's try again or start over.");
              ("current_phase", phase_value (current_phase s));
              ("crisis_detected", VBool false) ],
     live st id s n).
Proof.
  intros Htool. unfold _handle_screening_phase, try_except, bind. step. rewrite Htool.
  unfold _get_error_response, bind. step. reflexivity.
Qed.

Lemma scores_in_range_app (sid : string) un co ph tl (rs : list UserResponse) r hist cd cp
    sid' un' co' ph' tl' hist' cd' cp' :
  scores_in_range (mkSessionData sid un co ph tl rs hist cd cp) ->
  In (mapped_score r) [0; 1; 2; 3]%Z ->
  scores_in_range (mkSessionData sid' un' co' ph' tl' (rs ++ [r]) hist' cd' cp').
Proof.
  unfold scores_in_range. cbn [responses]. intros Hrs Hr.
  apply Forall_app. split; [exact Hrs|]. constructor; [exact Hr | constructor].
Qed.

(** What one message does to the session, whatever the phase. *)
Lemma handle_by_phase_step (st : store) (id : string) (s : SessionData) (n : nat)
    (user_message : string) :
  exists d s' n',
    handle_by_phase generate_content id user_message s (live st id s n)
    = (Return d, live st id s' n')
    /\ grows_from s s'
    /\ (length (responses s') <= S (length (responses s)))%nat
    /\ (length (conversation_history s') <= S (length (conversation_history s)))%nat
    /\ crisis_detected s' = crisis_detected s
    /\ get d "crisis_detected" = Some (VBool false)
    /\ (scores_in_range s -> scores_in_range s')
    /\ (has_name s = true -> user_name s' = user_name s)
    /\ (n <= n' <= n + 2)%nat.
Proof.
  assert (Hsame : forall l : list UserResponse, l `prefix_of` l) by (intros l; reflexivity).
  assert (Hsame' : forall l : list ConversationEntry, l `prefix_of` l)
    by (intros l; reflexivity).
  assert (Hmore : forall (l : list UserResponse) x, l `prefix_of` (l ++ [x])%list)
    by (intros l x; now apply prefix_app_r).
  assert (Hmore' : forall (l : list ConversationEntry) x, l `prefix_of` (l ++ [x])%list)
    by (intros l x; now apply prefix_app_r).
  destruct (current_phase s) eqn:Hphase.
  - (* GREETING *)
    unfold handle_by_phase, bind. rewrite read_live. cbv beta iota. rewrite Hphase.
    destruct (has_name s) eqn:Hname; [|destruct (all_space user_message) eqn:Hblank].
    + eexists _, _, _. split; [exact (greeting_asks_again st id n user_message s (or_introl Hname))|].
      unfold grows_from, scores_in_range. fields. rewrite length_app. cbn [length].
      repeat split; auto; lia.
    + eexists _, _, _. split; [exact (greeting_asks_again st id n user_message s (or_intror Hblank))|].
      unfold grows_from, scores_in_range. fields. rewrite length_app. cbn [length].
      repeat split; auto; lia.
    + assert (Htruthy : truthy (strip user_message) = true)
        by (rewrite all_space_truthy_strip, Hblank; reflexivity).
      eexists _, _, _. split; [exact (greeting_names_session st id n user_message s Hname Htruthy)|].
      unfold grows_from, scores_in_range. fields. rewrite length_app. cbn [length].
      repeat split; auto; lia.
  - (* TRIAGE *)
    unfold handle_by_phase, bind. rewrite read_live. cbv beta iota. rewrite Hphase.
    destruct (triage_step generate_content st id s n user_message) as [Hrun _].
    eexists _, _, _. split; [exact Hrun|].
    unfold grows_from, scores_in_range. fields. rewrite length_app. cbn [length].
    repeat split; auto; lia.
  - (* SCREENING *)
    unfold handle_by_phase, bind. rewrite read_live. cbv beta iota. rewrite Hphase.
    destruct (selected_tool s) as [tool|] eqn:Htool.
    + destruct s as [sid un co ph tl rs hist cd cp]. cbn [selected_tool] in Htool. subst tl.
      destruct (Nat.le_gt_cases (length (screening_questions tool)) (length rs)) as [Hall|Hopen];
        [|destruct rs as [|r0 rs0] eqn:Hrs].
      * eexists _, _, _.
        split; [exact (screening_all_answered generate_content st id n user_message tool
                         sid un co ph rs hist cd cp Hall)|].
        unfold grows_from, scores_in_range. fields. rewrite length_app. cbn [length].
        repeat split; auto; lia.
      * eexists _, _, _.
        split; [exact (screening_first_message generate_content st id n user_message tool
                         sid un co ph hist cd cp)|].
        unfold grows_from, scores_in_range. fields. rewrite length_app. cbn [length].
        repeat split; auto; lia.
      * rewrite <- Hrs in *.
        assert (Hk : (0 < length rs < length (screening_questions tool))%nat)
          by (split; [rewrite Hrs; cbn [length]; lia | exact Hopen]).
        eexists _, _, _.
        split; [exact (screening_later_message generate_content st id n user_message tool
                         sid un co ph rs hist cd cp Hk)|].
        unfold grows_from. fields. rewrite !length_app. cbn [length].
        repeat split; auto; try lia.
        intros Hin. eapply scores_in_range_app; [exact Hin|].
        cbn [mapped_score]. apply settled_score_range.
    + eexists _, _, _. split; [exact (screening_without_tool st id n user_message s Htool)|].
      unfold grows_from. repeat split; auto; lia.
  - (* RESULTS *)
    unfold handle_by_phase, bind. rewrite read_live. cbv beta iota. rewrite Hphase.
    destruct (selected_tool s) as [tool|] eqn:Htool.
    + eexists _, _, _. split; [exact (results_with_tool st id n user_message s tool Htool)|].
      unfold grows_from, scores_in_range. fields. rewrite length_app. cbn [length].
      repeat split; auto; lia.
    + eexists _, _, _. split; [exact (results_without_tool st id n user_message s Htool)|].
      unfold grows_from. repeat split; auto; lia.
  - (* CRISIS_RESPONSE *)
    eexists _, _, _. split; [exact (unknown_phase_restarts st id n user_message s Hphase)|].
    unfold grows_from, scores_in_range. fields.
    repeat split; auto; lia.
Qed.

Lemma grows_from_trans (s1 s2 s3 : SessionData) :
  grows_from s1 s2 -> grows_from s2 s3 -> grows_from s1 s3.
Proof.
  intros (Ha & Hb & Hc & Hd & He) (Ha' & Hb' & Hc' & Hd' & He').
  unfold grows_from. repeat split.
  - congruence.
  - congruence.
  - etrans; eassumption.
  - etrans; eassumption.
  - auto.
Qed.

Lemma total_score_bounds (s : SessionData) :
  scores_in_range s ->
  (0 <= get_total_score s <= 3 * Z.of_nat (length (responses s)))%Z.
Proof.
  unfold scores_in_range, get_total_score.
  assert (H : forall rs acc,
             Forall (fun r => In (mapped_score r) [0; 1; 2; 3]%Z) rs ->
             (acc <= fold_left (fun total r => (total + mapped_score r)%Z) rs acc
              <= acc + 3 * Z.of_nat (length rs))%Z).
  { induction rs as [|r rs IH]; intros acc Hall; cbn [fold_left length]; [lia|].
    inversion Hall as [|? ? Hr Hrs]; subst.
    specialize (IH (acc + mapped_score r)%Z Hrs).
    cbn [In] in Hr. lia. }
  intros Hall. specialize (H (responses s) 0%Z Hall). lia.
Qed.

(** X20. One message dispatched by phase, whatever the phase, the session
    and the service: the handler does not raise; only the session it serves
    is written; the identifier and the country stay; the responses and the
    transcript grow by at most one entry each, at the end; the crisis flag
    is not touched and the result says crisis_detected false; a completed
    session stays completed; a session that has a name keeps it; recorded
    scores stay in 0..3; and the service is called at most twice. *)
Theorem dispatch_keeps_the_record (st : store) (id : string) (s : SessionData) (n : nat)
    (user_message : string) :
  exists d s' n',
    handle_by_phase generate_content id user_message s (live st id s n)
    = (Return d, live st id s' n')
    /\ (forall other, other <> id ->
        get_session (sessions (live st id s' n')) other = get_session st other)
    /\ grows_from s s'
    /\ (length (responses s') <= S (length (responses s)))%nat
    /\ (length (conversation_history s') <= S (length (conversation_history s)))%nat
    /\ crisis_detected s' = crisis_detected s
    /\ get d "crisis_detected" = Some (VBool false)
    /\ (scores_in_range s -> scores_in_range s')
    /\ (has_name s = true -> user_name s' = user_name s)
    /\ (n <= n' <= n + 2)%nat.
Proof.
  destruct (handle_by_phase_step st id s n user_message)
    as (d & s' & n' & Hrun & Hrest).
  exists d, s', n'. split; [exact Hrun|]. split; [|exact Hrest].
  intros other Hother. unfold get_session, live. cbn [sessions].
  now apply lookup_insert_ne.
Qed.

(** X21. A whole conversation dispatched by phase: no message makes a handler
    raise and no result says crisis_detected true; the session's crisis flag
    is what it was; its responses and its transcript are the old ones with
    at most one entry for each message added at the end; a completed session
    stays completed and a named one keeps its name; if the recorded scores
    were in 0..3 they still are, and the total is between 0 and three times
    the number of responses; the service was called at most twice for each
    message; and [get_conversation_history] gives the session's transcript. *)
Theorem conversation_keeps_the_record (messages : list string) (st : store) (id : string)
    (s : SessionData) (n : nat) :
  exists results s' n',
    converse (route_message generate_content id) messages (live st id s n)
    = (results, live st id s' n')
    /\ length results = length messages
    /\ Forall (fun r => exists d, r = Return d
                 /\ get d "crisis_detected" = Some (VBool false)) results
    /\ grows_from s s'
    /\ (length (responses s') <= length (responses s) + length messages)%nat
    /\ (length (conversation_history s')
        <= length (conversation_history s) + length messages)%nat
    /\ crisis_detected s' = crisis_detected s
    /\ (scores_in_range s ->
        scores_in_range s'
        /\ (0 <= get_total_score s' <= 3 * Z.of_nat (length (responses s')))%Z)
    /\ (has_name s = true -> user_name s' = user_name s)
    /\ (n <= n' <= n + 2 * length messages)%nat
    /\ get_conversation_history (sessions (live st id s' n')) id
       = Some (conversation_history s').
Proof.
  assert (Hhist : forall s' n',
             get_conversation_history (sessions (live st id s' n')) id
             = Some (conversation_history s')).
  { intros s' n'. unfold get_conversation_history, get_session, live. cbn [sessions].
    now rewrite lookup_insert_eq. }
  revert s n. induction messages as [|m messages IH]; intros s n.
  - exists [], s, n. cbn [converse length]. split; [reflexivity|].
    split; [reflexivity|]. split; [constructor|].
    split; [unfold grows_from; repeat split; auto|].
    split; [lia|]. split; [lia|]. split; [reflexivity|].
    split; [intros H; split; [exact H | now apply total_score_bounds]|].
    split; [reflexivity|]. split; [lia|]. apply Hhist.
  - cbn [converse].
    assert (Hroute : route_message generate_content id m (live st id s n)
                     = handle_by_phase generate_content id m s (live st id s n)).
    { unfold route_message, get_session.
      replace (sessions (live st id s n) !! id) with (Some s)
        by (unfold live; cbn; now rewrite lookup_insert_eq).
      reflexivity. }
    rewrite Hroute.
    destruct (handle_by_phase_step st id s n m)
      as (d & s1 & n1 & Hrun & Hg & Hr & Hh & Hc & Hd & Hs & Hn & Hcalls).
    rewrite Hrun.
    destruct (IH s1 n1)
      as (results & s' & n' & Hrun' & Hlen & Hall & Hg' & Hr' & Hh' & Hc' & Hs' & Hn' & Hcalls' & _).
    rewrite Hrun'. exists (Return d :: results), s', n'.
    split; [reflexivity|]. split; [cbn [length]; now rewrite Hlen|].
    split; [constructor; [eexists; eauto | exact Hall]|].
    split; [exact (grows_from_trans s s1 s' Hg Hg')|].
    split; [cbn [length]; lia|]. split; [cbn [length]; lia|].
    split; [congruence|]. split; [auto|].
    split.
    { intros Hname. rewrite <- (Hn Hname). apply Hn'.
      unfold has_name in *. now rewrite (Hn Hname). }
    split; [cbn [length]; lia|]. apply Hhist.
Qed.

(** X22. [process_user_message] as written serves no message: for every
    monitor, every store and every message it returns a result with an error
    and crisis_detected false, and leaves every session and the count of
    service calls as they were.  For an unknown session the error is
    "Session not found or expired" and the phase is None; for a live one it
    is the failed read of the verdict's attribute and the phase is the
    session's. *)
Theorem process_user_message_serves_nothing (monitor : SafetyMonitor.t)
    (clock : SafetyMonitor.datetime) (w : world) (id user_message : string) :
  exists d,
    process_user_message generate_content monitor clock id user_message w = (Return d, w)
    /\ get d "crisis_detected" = Some (VBool false)
    /\ get d "crisis_level" = None
    /\ get d "next_action" = None
    /\ match get_session (sessions w) id with
       | None =>
           get d "error" = Some (VStr "Session not found or expired")
           /\ get d "ai_response" = Some VNone
           /\ get d "current_phase" = Some VNone
       | Some s =>
           get d "error"
           = Some (VStr "Failed to process message: 'CrisisResponse' object has no attribute 'should_override'")
           /\ get d "ai_response"
              = Some (VStr "I'm sorry, I encountered an error. Let's try again.")
           /\ get d "current_phase" = Some (phase_value (current_phase s))
       end.
Proof.
  destruct (get_session (sessions w) id) as [s|] eqn:Hs.
  - assert (Hw : w = live (sessions w) id s (calls w)).
    { destruct w as [st n]. unfold live. cbn [sessions calls] in *.
      unfold get_session in Hs. now rewrite (insert_id st id s Hs). }
    pose proof (process_user_message_live generate_content monitor clock
                  (sessions w) id s (calls w) user_message) as Hrun.
    rewrite <- Hw in Hrun.
    eexists. split; [exact Hrun|]. repeat split.
  - unfold process_user_message. rewrite Hs.
    eexists. split; [reflexivity|]. repeat split.
Qed.

End PhaseRules.

Section SeverityOrder.
Import Py SessionManager ConversationFlowManager.

(** X23. For each instrument (and for no instrument, which is read as the
    general questionnaire) the severity level never falls when the total
    rises; it is never "moderately_severe" outside the depression
    questionnaire; and every total has one of the five levels. *)
Theorem severity_never_falls (tool : option ScreeningTool) (total1 total2 : Z) :
  (total1 <= total2)%Z ->
  (severity_rank (_calculate_severity_level tool total1)
   <= severity_rank (_calculate_severity_level tool total2))%nat
  /\ In (_calculate_severity_level tool total1)
        ["minimal"; "mild"; "moderate"; "moderately_severe"; "severe"]
  /\ (tool <> Some PHQ9 -> _calculate_severity_level tool total1 <> "moderately_severe").
Proof.
  intros Hle.
  destruct tool as [[| |]|]; cbn [_calculate_severity_level];
    repeat match goal with
           | |- context [(?a <=? ?b)%Z] => destruct (Z.leb_spec a b)
           end;
    try lia;
    (split; [vm_compute; lia | split; [cbn; tauto | intros Hother; first [congruence | discriminate]]]).
Qed.

End SeverityOrder.

Section PhaseWitnesses.
Import Py Run SessionManager ConversationFlowManager.

(** A fresh session without a name, greeted with "  Bob here" while the
    service is out of reach. *)
Lemma greeting_takes_first_word_witness :
  exists ai,
    _handle_greeting_phase GeminiClient.service_down "s1" "  Bob here"
      (new_session "s1" None None) (live ∅ "s1" (new_session "s1" None None) 0)
    = (Return [ ("ai_response", VStr ai);
                ("current_phase", VStr "TRIAGE");
                ("crisis_detected", VBool false);
                ("next_action", VStr "triage_question") ],
       live ∅ "s1"
         (mkSessionData "s1" (Some "Bob") None TRIAGE None []
            [mkConversationEntry "  Bob here" ai TRIAGE] false false) 1).
Proof.
  eexists.
  exact (proj1 (greeting_takes_first_word GeminiClient.service_down ∅ "s1" 0 "  Bob here"
                  (new_session "s1" None None) eq_refl eq_refl)).
Defined.

(** A session started with the name "Ann", told "Bob". *)
Lemma greeting_waits_for_name_witness :
  exists ai,
    _handle_greeting_phase GeminiClient.service_down "s1" "Bob"
      (new_session "s1" (Some "Ann") None)
      (live ∅ "s1" (new_session "s1" (Some "Ann") None) 0)
    = (Return [ ("ai_response", VStr ai);
                ("current_phase", VStr "GREETING");
                ("crisis_detected", VBool false);
                ("next_action", VStr "collect_name") ],
       live ∅ "s1"
         (mkSessionData "s1" (Some "Ann") None GREETING None []
            [mkConversationEntry "Bob" ai GREETING] false false) 1).
Proof.
  eexists.
  exact (proj1 (greeting_waits_for_name GeminiClient.service_down ∅ "s1" 0 "Bob"
                  (new_session "s1" (Some "Ann") None) (or_introl eq_refl))).
Defined.

(** The messages of scenario A sent to a session started with a name. *)
Lemma named_session_stays_in_greeting_witness :
  exists results hist,
    converse (route_message GeminiClient.service_down "s1") scenario_A
      (live ∅ "s1" (new_session "s1" (Some "Bob") None) 0)
    = (results,
       live ∅ "s1" (mkSessionData "s1" (Some "Bob") None GREETING None [] hist false false) 9)
    /\ length hist = 9%nat.
Proof.
  destruct (named_session_stays_in_greeting GeminiClient.service_down scenario_A ∅ "s1"
              (new_session "s1" (Some "Bob") None) 0 eq_refl eq_refl)
    as (results & hist & Hrun & Hlen & _).
  exists results, hist. split; [exact Hrun | exact Hlen].
Defined.

(** A session left in CRISIS_RESPONSE with its flag set. *)
Lemma crisis_phase_restarts_greeting_witness :
  let s := mkSessionData "s1" (Some "Ann") None CRISIS_RESPONSE None [] [] true false in
  exists d,
    handle_by_phase GeminiClient.service_down "s1" "hello" s (live ∅ "s1" s 0)
    = (Return d,
       live ∅ "s1" (mkSessionData "s1" (Some "Ann") None GREETING None [] [] true false) 0)
    /\ get d "next_action" = Some (VStr "restart").
Proof.
  intros s. eexists. split.
  - exact (proj1 (crisis_phase_restarts_greeting GeminiClient.service_down ∅ "s1" 0
                    "hello" s eq_refl)).
  - reflexivity.
Defined.

(** Six recorded responses on GAD-7 and the answer "nearly every day" with
    the service out of reach: scored 3 against gad7_7 and recorded. *)
Lemma transition_scores_open_question_witness :
  let rs := repeat (mkUserResponse "q" "never" 0) 6 in
  let s := mkSessionData "s1" (Some "Bob") None SCREENING (Some GAD7) rs [] false false in
  exists ai,
    _transition_to_results GeminiClient.service_down "s1" "nearly every day" s
      (live ∅ "s1" s 0)
    = (Return [ ("ai_response", VStr ai);
                ("current_phase", VStr "RESULTS");
                ("crisis_detected", VBool false);
                ("total_score", VInt 3);
                ("severity_level", VStr "minimal");
                ("screening_tool", VStr "GAD7");
                ("completed", VBool true);
                ("next_action", VStr "screening_complete") ],
       live ∅ "s1"
         (mkSessionData "s1" (Some "Bob") None RESULTS (Some GAD7)
            (rs ++ [mkUserResponse "gad7_7" "nearly every day" 3])
            ([] ++ [mkConversationEntry "nearly every day" ai RESULTS]) false true) 2).
Proof.
  intros rs s. eexists.
  exact (proj1 (transition_scores_open_question GeminiClient.service_down ∅ "s1" 0
                  "nearly every day" GAD7 "s1" (Some "Bob") None SCREENING rs []
                  false false ltac:(cbn; lia))).
Defined.

(** A blank message for a session in SCREENING that has no instrument. *)
Lemma transition_without_instrument_witness :
  let s := mkSessionData "s1" (Some "Bob") None SCREENING None [] [] false false in
  exists d after,
    _transition_to_results GeminiClient.service_down "s1" "   " s (live ∅ "s1" s 0)
    = (Return d, live ∅ "s1" after 0)
    /\ get d "error" = Some (VStr "'NoneType' object has no attribute 'value'")
    /\ current_phase after = RESULTS.
Proof.
  intros s.
  destruct (transition_without_instrument GeminiClient.service_down ∅ "s1" 0 "   " s eq_refl)
    as (d & after & Hrun & _ & _ & _ & _ & _ & _ & Herr & Hphase).
  exists d, after. split; [exact Hrun|]. split; [exact Herr | exact Hphase].
Defined.

End PhaseWitnesses.

Section SeverityWitness.
Import Py SessionManager ConversationFlowManager.

Lemma severity_never_falls_witness :
  (severity_rank (_calculate_severity_level (Some PHQ9) 9)
   <= severity_rank (_calculate_severity_level (Some PHQ9) 10))%nat.
Proof. exact (proj1 (severity_never_falls (Some PHQ9) 9 10 ltac:(lia))). Defined.

End SeverityWitness.
